(** * budgeter ("Where the Money Goes"): the state and derivation layer

    A shallow embedding of [js/data.js] (the store and the monthly
    derivations), of the helpers of [js/utils.js] (formatting, CSV
    export, validation, sorting, searching, insights, the days left in the
    month), of the data of the category chart ([js/charts.js]) and of the
    handlers of [js/app.js] that decide what is stored and what is listed,
    with the properties the specification states about them and further
    properties read off the code.

    Conventions of the embedding.
    - A JavaScript number is a binary64 value: [float], the kernel's
      primitive IEEE 754 type, so [+], [-], [*], [/], [<], [===] round and
      treat [NaN] exactly as the program does.
    - A JavaScript string is a [string]; an object used as a dictionary is a
      [gmap string _] when only its keys and values matter ([budgets]) and an
      association list in insertion order when enumeration order matters
      ([byCategory]).  Property names are ordinary keys: names that collide
      with members of [Object.prototype], and integer-like names (which
      JavaScript enumerates first), are outside the model.
    - The document is passed explicitly and returned by every store
      operation; readings of the clock are explicit arguments.
    - What the engine provides and the repository does not define
      ([parseFloat], [Number], [Date], [localeCompare], [toLocaleString]) is
      the interface [Host]; [ReferenceHost] is one executable instance used
      to evaluate the program on concrete inputs. *)

From Stdlib Require Import ZArith List String Ascii Floats Bool Lia Permutation Sorted.
From stdpp Require Import gmap strings pretty.
Import ListNotations.

Set Warnings "-inexact-float".

Open Scope Z_scope.

(** ** JavaScript values *)

Module JS.

(** [ToBoolean] on a number: [NaN], [+0] and [-0] are falsy. *)
Definition truthy_number (x : float) : bool := negb (is_nan x || is_zero x).

(** [ToBoolean] on a string: only the empty string is falsy. *)
Definition truthy_string (s : string) : bool :=
  match s with EmptyString => false | String _ _ => true end.

(** [x || d] for a number [x]. *)
Definition number_or (x d : float) : float := if truthy_number x then x else d.

(** [x === y] on numbers: [NaN] equals nothing, [+0 === -0]. *)
Definition strict_eq (x y : float) : bool := PrimFloat.eqb x y.

(** [x === y] where [y] may be [undefined] (a missing array element). *)
Definition strict_eq_opt (x : float) (y : option float) : bool :=
  match y with Some y' => strict_eq x y' | None => false end.

(** The exact value of a finite number, counted in units of 2^-1074 (the
    spacing of the smallest binary64 numbers, so every finite number is a
    whole multiple); nothing for [NaN] and the infinities. *)
Definition exact_value (x : float) : option Z :=
  match Prim2SF x with
  | S754_zero _ => Some 0
  | S754_finite s m e => Some (cond_Zopp s (Z.pos m * 2 ^ (e + 1074)))
  | _ => None
  end.

(** A number in its specification format is not zero, not [NaN], and has
    the sign [s] ([true] for minus). *)
Definition signed (s : bool) (r : spec_float) : Prop :=
  match r with
  | S754_finite s' _ _ | S754_infinity s' => s' = s
  | _ => False
  end.

(** The values a form field or a hand-built draft can carry. *)
Inductive value : Type :=
| Undefined
| Str (s : string)
| Num (x : float).

Definition truthy (v : value) : bool :=
  match v with
  | Undefined => false
  | Str s => truthy_string s
  | Num x => truthy_number x
  end.

(** White space removed by [String.prototype.trim], on the ASCII range:
    TAB, LF, VT, FF, CR and SPACE. *)
Definition is_white_space (c : ascii) : bool :=
  let n := nat_of_ascii c in
  ((9 <=? n)%nat && (n <=? 13)%nat) || (n =? 32)%nat.

Fixpoint trim_start (s : string) : string :=
  match s with
  | EmptyString => EmptyString
  | String c s' => if is_white_space c then trim_start s' else s
  end.

(** Drops trailing white space: a character is kept when it is not white
    space or when something is kept after it. *)
Fixpoint trim_end (s : string) : string :=
  match s with
  | EmptyString => EmptyString
  | String c s' =>
      match trim_end s' with
      | EmptyString => if is_white_space c then EmptyString else String c EmptyString
      | t => String c t
      end
  end.

Definition trim (s : string) : string := trim_end (trim_start s).

(** [s.split(sep)] for a one-character separator. *)
Fixpoint split (sep : ascii) (s : string) : list string :=
  match s with
  | EmptyString => [EmptyString]
  | String c s' =>
      if Ascii.eqb c sep then EmptyString :: split sep s'
      else match split sep s' with
           | [] => [String c EmptyString]
           | w :: ws => String c w :: ws
           end
  end.

(** [parts.join(sep)]. *)
Fixpoint join (sep : string) (parts : list string) : string :=
  match parts with
  | [] => EmptyString
  | [p] => p
  | p :: ps => p +:+ sep +:+ join sep ps
  end.

(** [s.padStart(2, '0')]. *)
Definition padStart2 (s : string) : string :=
  match String.length s with
  | O => "00"
  | S O => "0" +:+ s
  | _ => s
  end.

(** The decimal text of an integer-valued number, as a template literal
    or [toString()] prints it. *)
Definition integer_toString (z : Z) : string := pretty z.

End JS.

(** ** The host engine *)

(** The built-in functions the program calls.  Time values are numbers of
    milliseconds, [nan] for an invalid date. *)
Class Host : Type := {
  (** [parseFloat(s)] on a string. *)
  parseFloat_string : string -> float;
  (** [Number(s)] on a string. *)
  Number_string : string -> float;
  (** The time value of [new Date(s)]; [nan] when [s] does not parse. *)
  Date_parse : string -> float;
  (** Local calendar year and zero-based month of a valid time value. *)
  local_year : float -> float;
  local_month : float -> float;
  (** [a.localeCompare(b)]. *)
  localeCompare : string -> string -> float;
  (** [x.toLocaleString('en-US', {minimumFractionDigits: 2,
      maximumFractionDigits: 2})]. *)
  toLocaleString_en_US_2 : float -> string;
  (** [date.toLocaleString('default', {month: 'short', year: 'numeric'})]
      for the first day of a month, given its year and zero-based month. *)
  month_label : Z -> Z -> string;
  (** [Number.prototype.toString] (used by [toFixed] from 1e21 on). *)
  Number_toString : float -> string
}.

Section Builtins.
Context {host : Host}.

(** [parseFloat(v)]: the argument is converted to a string first.  The
    text of a number parses back to that number, except that [-0] prints
    as ["0"]; [undefined] prints as text that is no number. *)
Definition parseFloat (v : JS.value) : float :=
  match v with
  | JS.Undefined => nan
  | JS.Str s => parseFloat_string s
  | JS.Num x => if is_zero x then zero else x
  end.

(** [date.getFullYear()]: [NaN] for an invalid date. *)
Definition getFullYear (t : float) : float :=
  if is_nan t then nan else local_year t.

(** [date.getMonth()]: [NaN] for an invalid date. *)
Definition getMonth (t : float) : float :=
  if is_nan t then nan else local_month t.

End Builtins.

(** ** Objects enumerated in insertion order *)

Module Obj.

(** An object whose own properties are listed in the order they were
    first written, as [Object.entries] and [for...in] enumerate them. *)
Definition t (V : Type) : Type := list (string * V).

Fixpoint get {V : Type} (o : t V) (k : string) : option V :=
  match o with
  | [] => None
  | (k', v) :: o' => if String.eqb k' k then Some v else get o' k
  end.

(** [o[k] = v]: overwrites in place, or appends a new property. *)
Fixpoint set {V : Type} (o : t V) (k : string) (v : V) : t V :=
  match o with
  | [] => [(k, v)]
  | (k', v') :: o' =>
      if String.eqb k' k then (k, v) :: o' else (k', v') :: set o' k v
  end.

Definition keys {V : Type} (o : t V) : list string := map fst o.

End Obj.

(** ** Data model ([js/data.js]) *)

Record Expense : Type := mkExpense {
  id : Z;
  name : string;
  category : string;
  amount : float;
  date : string;
  notes : option string;
  createdAt : string
}.

(** What the form hands to [validateExpense] and [addExpense]. *)
Record Draft : Type := mkDraft {
  d_name : string;
  d_category : string;
  d_amount : JS.value;
  d_date : string;
  d_notes : option string
}.

(** The fields [updateExpense] may overwrite: a field is [Some] when the
    [updates] object has that key. *)
Record Updates : Type := mkUpdates {
  u_id : option Z;
  u_name : option string;
  u_category : option string;
  u_amount : option float;
  u_date : option string;
  u_notes : option (option string);
  u_createdAt : option string
}.

Record State : Type := mkState {
  currency : string;
  monthlyIncome : float;
  expenses : list Expense;
  budgets : gmap string float;
  currentMonth : string
}.

Definition set_expenses (state : State) (es : list Expense) : State :=
  mkState (currency state) (monthlyIncome state) es (budgets state)
          (currentMonth state).

Definition set_budgets (state : State) (b : gmap string float) : State :=
  mkState (currency state) (monthlyIncome state) (expenses state) b
          (currentMonth state).

(** One reading of the clock: [Date.now()], and for [new Date()] its
    [toISOString()], [getFullYear()] and [getMonth()]. *)
Record Now : Type := mkNow {
  now_ms : Z;
  now_iso : string;
  now_fullYear : Z;
  now_month : Z
}.

Definition MONTHLY_INCOME_JMD : float := 160000%float.

(** The eight categories of the default budgets. *)
Definition categories : list string :=
  ["Housing"; "Food"; "Transport"; "Utilities"; "Entertainment";
   "Healthcare"; "Shopping"; "Other"].

Definition default_budgets : gmap string float :=
  <["Housing" := 50000%float]>
  (<["Food" := 30000%float]>
  (<["Transport" := 20000%float]>
  (<["Utilities" := 15000%float]>
  (<["Entertainment" := 10000%float]>
  (<["Healthcare" := 10000%float]>
  (<["Shopping" := 15000%float]>
  (<["Other" := 20000%float]> ∅))))))).

(** The [YYYY-MM] token of a year and a zero-based month. *)
Definition monthKey (year month0 : Z) : string :=
  JS.integer_toString year +:+ "-"
    +:+ JS.padStart2 (JS.integer_toString (month0 + 1)).

Definition getCurrentMonth (now : Now) : string :=
  monthKey (now_fullYear now) (now_month now).

Definition defaultState (now : Now) : State :=
  {| currency := "JMD";
     monthlyIncome := MONTHLY_INCOME_JMD;
     expenses := [];
     budgets := default_budgets;
     currentMonth := getCurrentMonth now |}.

(** ** Store operations ([js/data.js]) *)

Section Store.
Context {host : Host}.

Definition addExpense (now : Now) (state : State) (expense : Draft) : State :=
  let newExpense :=
    {| id := now_ms now;
       name := d_name expense;
       category := d_category expense;
       amount := parseFloat (d_amount expense);
       date := d_date expense;
       notes := Some (match d_notes expense with
                      | Some s => if JS.truthy_string s then s else ""
                      | None => ""
                      end);
       createdAt := now_iso now |} in
  set_expenses state (expenses state ++ [newExpense]).

Definition deleteExpense (state : State) (id0 : Z) : State :=
  set_expenses state
    (List.filter (fun expense => negb (id expense =? id0)) (expenses state)).

(** [{ ...old, ...updates }]. *)
Definition merge_updates (old : Expense) (updates : Updates) : Expense :=
  {| id := default (id old) (u_id updates);
     name := default (name old) (u_name updates);
     category := default (category old) (u_category updates);
     amount := default (amount old) (u_amount updates);
     date := default (date old) (u_date updates);
     notes := default (notes old) (u_notes updates);
     createdAt := default (createdAt old) (u_createdAt updates) |}.

(** [findIndex] followed by the assignment at that index: the first
    expense with the id is replaced, the list is unchanged otherwise. *)
Fixpoint update_first (es : list Expense) (id0 : Z) (updates : Updates)
  : list Expense :=
  match es with
  | [] => []
  | e :: es' =>
      if id e =? id0 then merge_updates e updates :: es'
      else e :: update_first es' id0 updates
  end.

Definition updateExpense (state : State) (id0 : Z) (updates : Updates) : State :=
  set_expenses state (update_first (expenses state) id0 updates).

(** [const [year, monthNum] = month.split('-').map(Number)]. *)
Definition month_parts (month : string) : option float * option float :=
  let parts := map Number_string (JS.split "-" month) in
  (nth_error parts 0, nth_error parts 1).

(** The test both [getExpensesForMonth] and [clearMonthExpenses] apply. *)
Definition in_month (year monthNum : option float) (expense : Expense) : bool :=
  let expenseDate := Date_parse (date expense) in
  JS.strict_eq_opt (getFullYear expenseDate) year
  && JS.strict_eq_opt (getMonth expenseDate + 1)%float monthNum.

Definition updateBudget (state : State) (category0 : string) (amount0 : JS.value)
  : State :=
  set_budgets state (<[category0 := parseFloat amount0]> (budgets state)).

Definition clearMonthExpenses (state : State) (month : string) : State :=
  let '(year, monthNum) := month_parts month in
  set_expenses state
    (List.filter (fun expense => negb (in_month year monthNum expense))
                 (expenses state)).

(** The mutating operations of the store, as one step function. *)
Inductive StoreOp : Type :=
| AddExpense (now : Now) (expense : Draft)
| DeleteExpense (id0 : Z)
| UpdateExpense (id0 : Z) (updates : Updates)
| UpdateBudget (category0 : string) (amount0 : JS.value)
| ClearMonthExpenses (month : string).

Definition apply_op (state : State) (op : StoreOp) : State :=
  match op with
  | AddExpense now expense => addExpense now state expense
  | DeleteExpense id0 => deleteExpense state id0
  | UpdateExpense id0 updates => updateExpense state id0 updates
  | UpdateBudget category0 amount0 => updateBudget state category0 amount0
  | ClearMonthExpenses month => clearMonthExpenses state month
  end.

(** The operation names a budget category the document already has. *)
Definition names_known_category (state : State) (op : StoreOp) : Prop :=
  match op with
  | UpdateBudget category0 _ => category0 ∈ dom (budgets state)
  | _ => True
  end.

(** The operation names one of the eight categories. *)
Definition names_fixed_category (op : StoreOp) : Prop :=
  match op with
  | UpdateBudget category0 _ => In category0 categories
  | _ => True
  end.

(** ** Derivations ([js/data.js]) *)

Definition getExpensesForMonth (state : State) (month : string) : list Expense :=
  let '(year, monthNum) := month_parts month in
  List.filter (in_month year monthNum) (expenses state).

(** [expenses.reduce((total, expense) => total + expense.amount, 0)]. *)
Definition sum_amounts (es : list Expense) : float :=
  fold_left (fun total expense => (total + amount expense)%float) es zero.

Definition getTotalExpenses (state : State) (month : string) : float :=
  sum_amounts (getExpensesForMonth state month).

End Store.

Section Derivations.
Context {host : Host}.

(** One value of the object [getExpensesByCategory] returns; [items] is
    its [expenses] array. *)
Record CategoryGroup : Type := mkGroup {
  total : float;
  count : Z;
  items : list Expense
}.

(** The body of the [forEach]: create the group when the key is missing,
    then add the expense to it. *)
Definition add_to_category (byCategory : Obj.t CategoryGroup) (expense : Expense)
  : Obj.t CategoryGroup :=
  let byCategory1 :=
    match Obj.get byCategory (category expense) with
    | None => Obj.set byCategory (category expense) (mkGroup zero 0 [])
    | Some _ => byCategory
    end in
  match Obj.get byCategory1 (category expense) with
  | Some g =>
      Obj.set byCategory1 (category expense)
        (mkGroup (total g + amount expense)%float (count g + 1)
                 (items g ++ [expense]))
  | None => byCategory1
  end.

Definition group_expenses (es : list Expense) : Obj.t CategoryGroup :=
  fold_left add_to_category es [].

Definition getExpensesByCategory (state : State) (month : string)
  : Obj.t CategoryGroup :=
  group_expenses (getExpensesForMonth state month).

(** The per-category totals added over the keys of the result, in
    enumeration order. *)
Definition sum_category_totals (byCategory : Obj.t CategoryGroup) : float :=
  fold_left (fun acc kv => (acc + total (snd kv))%float) byCategory zero.

(** The expenses of a category, in the order of the list. *)
Definition of_category (c : string) (es : list Expense) : list Expense :=
  List.filter (fun e => String.eqb (category e) c) es.

(** The items of all groups, group after group. *)
Definition all_items (byCategory : Obj.t CategoryGroup) : list Expense :=
  concat (map (fun kv => items (snd kv)) byCategory).

(** The amounts of [es] added without rounding: the sum of their exact
    values, in units of 2^-1074 (an amount that is no finite number counts
    as 0). *)
Definition exact_sum (es : list Expense) : Z :=
  fold_right Z.add 0 (map (fun e => default 0 (JS.exact_value (amount e))) es).

(** The group a category has after the expenses [es] were added. *)
Definition group_of (c : string) (es : list Expense) : option CategoryGroup :=
  match of_category c es with
  | [] => None
  | l => Some (mkGroup (sum_amounts l) (Z.of_nat (length l)) l)
  end.

(** What the loop of [getExpensesByCategory] maintains. *)
Definition grouped (o : Obj.t CategoryGroup) (es : list Expense) : Prop :=
  List.NoDup (Obj.keys o)
  /\ (forall c, Obj.get o c = group_of c es)
  /\ Permutation (all_items o) es.

(** Year and zero-based month of [new Date(year, month, 1)]: a year from
    0 to 99 means 1900 + year, and a month outside 0..11 carries into the
    year. *)
Definition Date_year_month (year month0 : Z) : Z * Z :=
  let year' := if (0 <=? year) && (year <=? 99) then 1900 + year else year in
  (year' + month0 / 12, month0 mod 12).

(** Months counted from year 0, and the token of the month with a given
    count. *)
Definition month_number (year month0 : Z) : Z := 12 * year + month0.

Definition key_of_month_number (n : Z) : string :=
  monthKey (n / 12) (n mod 12).

(** One element of the array [getSpendingTrend] returns; [trend_total] is
    its [total]. *)
Record TrendEntry : Type := mkTrend {
  month : string;
  label : string;
  trend_total : float
}.

(** One iteration of the loop of [getSpendingTrend], for the counter [i]. *)
Definition trend_entry (now : Now) (state : State) (i : nat) : TrendEntry :=
  let '(year, month0) :=
    Date_year_month (now_fullYear now) (now_month now - Z.of_nat i) in
  let key := monthKey year month0 in
  {| month := key;
     label := month_label year month0;
     trend_total := getTotalExpenses state key |}.

(** The loop runs [i] from [months - 1] down to 0, pushing one entry each
    time. *)
Definition getSpendingTrend (now : Now) (state : State) (months : nat)
  : list TrendEntry :=
  map (trend_entry now state) (rev (seq 0 months)).

End Derivations.

(** ** Helpers ([js/utils.js]) *)

Module Chars.
Definition quote : string := String (ascii_of_nat 34) EmptyString.
Definition newline : string := String (ascii_of_nat 10) EmptyString.
Definition digit (d : Z) : string :=
  String (ascii_of_nat (48 + Z.to_nat d)) EmptyString.
End Chars.

Definition CURRENCY_SYMBOLS : gmap string string :=
  list_to_map
    [("JMD", "J$"); ("USD", "$"); ("EUR", "€"); ("GBP", "£");
     ("CAD", "C$"); ("AUD", "A$")].

Section Utils.
Context {host : Host}.

Definition formatCurrency (amount0 : float) (currency0 : string) : string :=
  let symbol :=
    match CURRENCY_SYMBOLS !! currency0 with
    | Some s => if JS.truthy_string s then s else currency0
    | None => currency0
    end in
  let formatted := toLocaleString_en_US_2 (abs amount0) in
  symbol +:+ formatted.

(** The integer [n] for which [n / 100] is nearest to a finite [x >= 0],
    the larger one on a tie ([Number.prototype.toFixed], step 10.a). *)
Definition nearest_hundredths (x : float) : Z :=
  match Prim2SF x with
  | S754_finite _ m e =>
      if 0 <=? e then Z.pos m * 2 ^ e * 100
      else (2 * (Z.pos m * 100) + 2 ^ (- e)) / (2 * 2 ^ (- e))
  | _ => 0
  end.

(** The number [toFixed] goes on with after it has noted the sign. *)
Definition magnitude (x : float) : float :=
  if (x <? 0)%float then (- x)%float else x.

(** [x.toFixed(2)]. *)
Definition toFixed2 (x : float) : string :=
  if is_nan x then "NaN"
  else
    let s := if (x <? 0)%float then "-" else "" in
    let x' := magnitude x in
    if (1e21 <=? x')%float then s +:+ Number_toString x'
    else
      let n := nearest_hundredths x' in
      s +:+ JS.integer_toString (n / 100) +:+ "."
        +:+ Chars.digit ((n / 10) mod 10) +:+ Chars.digit (n mod 10).

(** [x] is a number below 10^21 in magnitude: [toFixed] prints such a
    number in fixed notation. *)
Definition fixed_notation (x : float) : bool :=
  negb (is_nan x) && negb (1e21 <=? magnitude x)%float.

Definition csv_headers : list string :=
  ["Date"; "Name"; "Category"; "Amount"; "Notes"].

Definition csv_row (expense : Expense) : list string :=
  [ date expense;
    Chars.quote +:+ name expense +:+ Chars.quote;
    category expense;
    toFixed2 (amount expense);
    Chars.quote
      +:+ match notes expense with
          | Some s => if JS.truthy_string s then s else ""
          | None => ""
          end
      +:+ Chars.quote ].

Definition generateExpensesCSV (es : list Expense) : string :=
  let rows := map csv_row es in
  JS.join Chars.newline
    (JS.join "," csv_headers :: map (fun row => JS.join "," row) rows).

(** The row of an expense as the specification describes it: the date,
    the quoted name, the category, the amount with two decimals, the
    quoted notes (empty when absent), separated by commas. *)
Definition csv_line (expense : Expense) : string :=
  date expense +:+ "," +:+ Chars.quote +:+ name expense +:+ Chars.quote
    +:+ "," +:+ category expense +:+ "," +:+ toFixed2 (amount expense)
    +:+ "," +:+ Chars.quote +:+ default "" (notes expense) +:+ Chars.quote.

Record Validation : Type := mkValidation {
  isValid : bool;
  errors : list string
}.

(** The four tests of [validateExpense]; each is [true] when its message
    is pushed. *)
Definition name_missing (expense : Draft) : bool :=
  negb (JS.truthy_string (d_name expense))
  || (String.length (JS.trim (d_name expense)) =? 0)%nat.

Definition category_missing (expense : Draft) : bool :=
  negb (JS.truthy_string (d_category expense)).

Definition amount_rejected (expense : Draft) : bool :=
  negb (JS.truthy (d_amount expense))
  || (parseFloat (d_amount expense) <=? 0)%float.

Definition date_missing (expense : Draft) : bool :=
  negb (JS.truthy_string (d_date expense)).

(** [errors.push(msg)] under a condition. *)
Definition push_if (cond : bool) (msg : string) (errs : list string)
  : list string :=
  if cond then errs ++ [msg] else errs.

Definition validateExpense (expense : Draft) : Validation :=
  let errs := [] in
  let errs := push_if (name_missing expense) "Expense name is required" errs in
  let errs := push_if (category_missing expense) "Category is required" errs in
  let errs :=
    push_if (amount_rejected expense) "Amount must be greater than 0" errs in
  let errs := push_if (date_missing expense) "Date is required" errs in
  {| isValid := (length errs =? 0)%nat; errors := errs |}.

(** [Array.prototype.sort] with a comparator: a stable sort in which an
    element moves behind a later one only when the comparator is positive
    on the pair.  Written as insertion from the right. *)
Fixpoint sort_insert {A : Type} (cmp : A -> A -> float) (x : A) (l : list A)
  : list A :=
  match l with
  | [] => [x]
  | y :: l' =>
      if (0 <? cmp x y)%float then y :: sort_insert cmp x l' else x :: l
  end.

Definition Array_sort {A : Type} (cmp : A -> A -> float) (l : list A) : list A :=
  fold_right (sort_insert cmp) [] l.

(** The comparator is positive on the pair: [a] is put behind [b]. *)
Definition sorts_behind {A : Type} (cmp : A -> A -> float) (a b : A) : bool :=
  (0 <? cmp a b)%float.

(** The comparators [asc] and [desc] order the elements of [l] strictly
    and opposite to each other: of two elements at different places
    exactly one is behind the other under [asc], being behind is
    transitive, and [desc] puts [a] behind [b] exactly when [asc] puts
    [b] behind [a]. *)
Definition strictly_ordered {A : Type} (asc desc : A -> A -> float)
    (l : list A) : Prop :=
  ForallOrdPairs
    (fun a b => sorts_behind asc a b = negb (sorts_behind asc b a)) l
  /\ (forall a b c, In a l -> In b l -> In c l ->
        sorts_behind asc a b = true -> sorts_behind asc b c = true ->
        sorts_behind asc a c = true)
  /\ (forall a b, In a l -> In b l ->
        sorts_behind desc a b = sorts_behind asc b a).

(** The comparator of [sortExpenses]. *)
Definition compare_expenses (criteria order : string) (a b : Expense) : float :=
  let comparison :=
    if String.eqb criteria "date" then
      (Date_parse (date a) - Date_parse (date b))%float
    else if String.eqb criteria "amount" then (amount a - amount b)%float
    else if String.eqb criteria "name" then localeCompare (name a) (name b)
    else if String.eqb criteria "category" then
      localeCompare (category a) (category b)
    else zero in
  if String.eqb order "desc" then (- comparison)%float else comparison.

Definition sortExpenses (es : list Expense) (criteria order : string)
  : list Expense :=
  Array_sort (compare_expenses criteria order) es.

(** The amounts of [es] are finite numbers, no two of the same value. *)
Definition amounts_distinct (es : list Expense) : Prop :=
  exists values : list Z,
    map (fun e => JS.exact_value (amount e)) es = map Some values
    /\ List.NoDup values.

Record Insights : Type := mkInsights {
  totalSpent : float;
  remaining : float;
  savingsRate : float;
  highestCategory : option string;
  highestCategoryAmount : float;
  overBudgetCount : nat;
  averageExpense : float;
  expenseCount : nat
}.

(** An array length as a number. *)
Definition length_number (n : nat) : float :=
  PrimFloat.of_uint63 (Uint63.of_Z (Z.of_nat n)).

(** [byCategory[exp.category] = (byCategory[exp.category] || 0) + exp.amount]. *)
Definition add_spend (byCategory : Obj.t float) (exp : Expense) : Obj.t float :=
  let old :=
    match Obj.get byCategory (category exp) with
    | Some v => JS.number_or v zero
    | None => zero
    end in
  Obj.set byCategory (category exp) (old + amount exp)%float.

(** The spend per category that [getSpendingInsights] accumulates. *)
Definition spend_by_category (es : list Expense) : Obj.t float :=
  fold_left add_spend es [].

(** [spent > (budgets[cat] || 0)]. *)
Definition over_budget (budgets0 : gmap string float) (entry : string * float)
  : bool :=
  let limit :=
    match budgets0 !! fst entry with
    | Some b => JS.number_or b zero
    | None => zero
    end in
  (limit <? snd entry)%float.

Definition getSpendingInsights (es : list Expense) (income : float)
    (budgets0 : gmap string float) : Insights :=
  let total0 := sum_amounts es in
  let remaining0 := (income - total0)%float in
  let savingsRate0 :=
    if (0 <? income)%float then (remaining0 / income * 100)%float else zero in
  let byCategory := spend_by_category es in
  let highest :=
    head (Array_sort (fun a b => (snd b - snd a)%float) byCategory) in
  let overBudget := length (List.filter (over_budget budgets0) byCategory) in
  {| totalSpent := total0;
     remaining := remaining0;
     savingsRate := savingsRate0;
     highestCategory := option_map fst highest;
     highestCategoryAmount :=
       match highest with Some h => snd h | None => zero end;
     overBudgetCount := overBudget;
     averageExpense :=
       if (0 <? length es)%nat then (total0 / length_number (length es))%float
       else zero;
     expenseCount := length es |}.

End Utils.

(** ** A reference host *)

(** An executable instance of [Host], enough to run the program on plain
    inputs: decimal literals without exponent, dates written [YYYY-MM-DD]
    (read as midnight UTC, as the engine reads a date-only text), a local
    time that is UTC plus a fixed offset, and code-unit order for
    [localeCompare].  Outside these inputs its functions answer [nan] or a
    placeholder text; the theorems below hold for every host. *)
Module ReferenceHost.

(** The number of an integer, exact below 2^53 in absolute value. *)
Definition of_Z (z : Z) : float :=
  if z <? 0 then (- PrimFloat.of_uint63 (Uint63.of_Z (- z)))%float
  else PrimFloat.of_uint63 (Uint63.of_Z z).

(** The integer part (towards minus infinity) of a finite number. *)
Definition floor (x : float) : option Z :=
  match Prim2SF x with
  | S754_zero _ => Some 0
  | S754_finite s m e =>
      let p := 2 ^ (- e) in
      Some (if 0 <=? e then (if s then - (Z.pos m * 2 ^ e) else Z.pos m * 2 ^ e)
            else if s then - ((Z.pos m + p - 1) / p) else Z.pos m / p)
  | _ => None
  end.

Definition digit_value (c : ascii) : option Z :=
  let n := Z.of_nat (nat_of_ascii c) in
  if (48 <=? n) && (n <=? 57) then Some (n - 48) else None.

(** Reads the longest run of digits: its value, its length, the rest. *)
Fixpoint read_digits (s : string) (acc : Z) (len : nat) : Z * nat * string :=
  match s with
  | EmptyString => (acc, len, EmptyString)
  | String c s' =>
      match digit_value c with
      | Some d => read_digits s' (10 * acc + d) (S len)
      | None => (acc, len, s)
      end
  end.

(** Reads [digits], [digits.digits], [digits.] or [.digits] with an
    optional sign: the number and the unread rest, or nothing when no
    digit is found. *)
Definition read_decimal (s : string) : option (float * string) :=
  let '(neg, s1) :=
    match s with
    | String "-"%char r => (true, r)
    | String "+"%char r => (false, r)
    | _ => (false, s)
    end in
  let '(int_part, int_len, s2) := read_digits s1 0 0 in
  let '(frac_part, frac_len, s3) :=
    match s2 with
    | String "."%char r =>
        let '(f, n, r') := read_digits r 0 0 in
        if (0 <? int_len + n)%nat then (f, n, r') else (0, 0%nat, s2)
    | _ => (0, 0%nat, s2)
    end in
  if (0 <? int_len + frac_len)%nat then
    let scale := 10 ^ Z.of_nat frac_len in
    let magnitude := (of_Z (int_part * scale + frac_part) / of_Z scale)%float in
    Some (if neg then (- magnitude)%float else magnitude, s3)
  else None.

Definition parseFloat_string (s : string) : float :=
  match read_decimal (JS.trim_start s) with
  | Some (x, _) => x
  | None => nan
  end.

Definition Number_string (s : string) : float :=
  match JS.trim s with
  | EmptyString => zero
  | t => match read_decimal t with
         | Some (x, EmptyString) => x
         | _ => nan
         end
  end.

(** Days from 1970-01-01 to a civil date, and back. *)
Definition days_from_civil (y m d : Z) : Z :=
  let y' := if m <=? 2 then y - 1 else y in
  let era := y' / 400 in
  let yoe := y' - era * 400 in
  let doy := (153 * (if 2 <? m then m - 3 else m + 9) + 2) / 5 + d - 1 in
  let doe := yoe * 365 + yoe / 4 - yoe / 100 + doy in
  era * 146097 + doe - 719468.

Definition civil_from_days (z : Z) : Z * Z * Z :=
  let z' := z + 719468 in
  let era := z' / 146097 in
  let doe := z' - era * 146097 in
  let yoe := (doe - doe / 1460 + doe / 36524 - doe / 146096) / 365 in
  let doy := doe - (365 * yoe + yoe / 4 - yoe / 100) in
  let mp := (5 * doy + 2) / 153 in
  let d := doy - (153 * mp + 2) / 5 + 1 in
  let m := if mp <? 10 then mp + 3 else mp - 9 in
  ((yoe + era * 400) + (if m <=? 2 then 1 else 0), m, d).

Definition ms_per_day : Z := 86400000.

(** All of [s] as a non-negative integer of exactly [len] digits. *)
Definition fixed_digits (len : nat) (s : string) : option Z :=
  match read_digits s 0 0 with
  | (v, n, EmptyString) => if (n =? len)%nat then Some v else None
  | _ => None
  end.

Definition Date_parse (s : string) : float :=
  match JS.split "-" s with
  | [y; m; d] =>
      match fixed_digits 4 y, fixed_digits 2 m, fixed_digits 2 d with
      | Some y', Some m', Some d' =>
          if (1 <=? m') && (m' <=? 12) && (1 <=? d') && (d' <=? 31)
          then of_Z (days_from_civil y' m' d' * ms_per_day)
          else nan
      | _, _, _ => nan
      end
  | _ => nan
  end.

(** The civil date at which a time value falls, [tz] minutes east of UTC. *)
Definition local_civil (tz : Z) (t : float) : option (Z * Z * Z) :=
  match floor t with
  | Some ms => Some (civil_from_days ((ms + tz * 60000) / ms_per_day))
  | None => None
  end.

Definition local_year (tz : Z) (t : float) : float :=
  match local_civil tz t with
  | Some (y, _, _) => of_Z y
  | None => nan
  end.

Definition local_month (tz : Z) (t : float) : float :=
  match local_civil tz t with
  | Some (_, m, _) => of_Z (m - 1)
  | None => nan
  end.

Definition localeCompare (a b : string) : float :=
  match String.compare a b with
  | Lt => (- 1)%float
  | Eq => zero
  | Gt => 1%float
  end.

(** Commas between groups of three digits, counted from the right. *)
Fixpoint group_reversed (digits : list ascii) (seen : nat) : list ascii :=
  match digits with
  | [] => []
  | c :: rest =>
      if (seen =? 3)%nat then ","%char :: c :: group_reversed rest 1
      else c :: group_reversed rest (S seen)
  end.

Definition group_thousands (s : string) : string :=
  string_of_list_ascii
    (rev (group_reversed (rev (list_ascii_of_string s)) 0)).

Definition toLocaleString_en_US_2 (x : float) : string :=
  if is_nan x then "NaN"
  else if is_infinity x then (if (x <? 0)%float then "-∞" else "∞")
  else
    let n := nearest_hundredths (abs x) in
    (if (x <? 0)%float && (0 <? n) then "-" else "")
      +:+ group_thousands (JS.integer_toString (n / 100)) +:+ "."
      +:+ Chars.digit ((n / 10) mod 10) +:+ Chars.digit (n mod 10).

Definition month_names : list string :=
  ["Jan"; "Feb"; "Mar"; "Apr"; "May"; "Jun";
   "Jul"; "Aug"; "Sep"; "Oct"; "Nov"; "Dec"].

Definition month_label (year month0 : Z) : string :=
  nth (Z.to_nat month0) month_names "" +:+ " " +:+ JS.integer_toString year.

(** Integers print in full; exponent notation is not produced. *)
Definition Number_toString (x : float) : string :=
  if is_nan x then "NaN"
  else match floor x with
       | Some z => JS.integer_toString z
       | None => if (x <? 0)%float then "-Infinity" else "Infinity"
       end.

Definition host (tz_minutes : Z) : Host :=
  Build_Host parseFloat_string Number_string Date_parse
             (local_year tz_minutes) (local_month tz_minutes)
             localeCompare toLocaleString_en_US_2 month_label
             Number_toString.

(** The host of a machine on UTC. *)
Definition utc : Host := host 0.

End ReferenceHost.

(** ** Concrete inputs *)

Module Examples.

(** A reading of the clock on 5 January 2024, 00:00 UTC. *)
Definition now0 : Now :=
  mkNow 1704412800000 "2024-01-05T00:00:00.000Z" 2024 0.

Definition coffee_draft : Draft :=
  mkDraft "Coffee" "Food" (JS.Str "3.5") "2024-01-05" None.

Definition coffee : Expense :=
  mkExpense 1704412800000 "Coffee" "Food" 3.5 "2024-01-05" (Some "")
            "2024-01-05T00:00:00.000Z".


(** A document whose only expense was created at the instant [now0]. *)
Definition same_millisecond : State :=
  set_expenses (defaultState now0) [coffee].

(** Three expenses of January 2024 in two categories. *)
Definition bus : Expense :=
  mkExpense 1 "Bus" "Transport" 0.1 "2024-01-03" (Some "") "".
Definition bread : Expense :=
  mkExpense 2 "Bread" "Food" 0.2 "2024-01-04" (Some "") "".
Definition taxi : Expense :=
  mkExpense 3 "Taxi" "Transport" 2.2 "2024-01-05" (Some "") "".

Definition january : State :=
  set_expenses (defaultState now0) [bus; bread; taxi].

(** Two expenses of the same amount. *)
Definition lunch : Expense :=
  mkExpense 1 "Lunch" "Food" 5 "2024-01-03" (Some "") "".
Definition movie : Expense :=
  mkExpense 2 "Movie" "Entertainment" 5 "2024-01-04" (Some "") "".

(** An expense in a category that has no budget. *)
Definition vet : Expense :=
  mkExpense 5 "Vet" "Pets" 1200 "2024-01-06" (Some "") "".

(** A draft whose amount is text that is no number. *)
Definition tea_draft : Draft :=
  mkDraft "Tea" "Food" (JS.Str "abc") "2024-01-01" None.

Definition nameless_draft : Draft :=
  mkDraft "" "Food" (JS.Num 10) "2024-01-01" None.

(** An expense whose date does not parse. *)
Definition undated : Expense :=
  mkExpense 4 "Misc" "Other" 10 "someday" (Some "") "".

End Examples.

(** ** More of the helpers ([js/utils.js]) *)

(** The methods of [String.prototype] the search and the truncation use.
    Case conversion is that of the ASCII letters; other characters are
    left as they are. *)
Module Text.

Definition lower (c : ascii) : ascii :=
  let n := nat_of_ascii c in
  if (65 <=? n)%nat && (n <=? 90)%nat then ascii_of_nat (n + 32) else c.

Fixpoint toLowerCase (s : string) : string :=
  match s with
  | EmptyString => EmptyString
  | String c s' => String (lower c) (toLowerCase s')
  end.

(** [s.startsWith(t)]. *)
Fixpoint startsWith (s t : string) : bool :=
  match t, s with
  | EmptyString, _ => true
  | String _ _, EmptyString => false
  | String b t', String a s' => Ascii.eqb a b && startsWith s' t'
  end.

(** [s.includes(t)]: [t] starts at some position of [s]. *)
Fixpoint includes (s t : string) : bool :=
  startsWith s t
  || match s with
     | EmptyString => false
     | String _ s' => includes s' t
     end.

Fixpoint take (n : nat) (s : string) : string :=
  match n, s with
  | S n', String c s' => String c (take n' s')
  | _, _ => EmptyString
  end.

(** [s.substring(0, finish)]: a negative end counts as 0, an end past the
    text as its length. *)
Definition substring0 (s : string) (finish : Z) : string :=
  take (Z.to_nat finish) s.

End Text.

Definition CATEGORY_ICONS : gmap string string :=
  list_to_map
    [("Housing", "home"); ("Food", "utensils"); ("Transport", "car");
     ("Utilities", "zap"); ("Entertainment", "tv");
     ("Healthcare", "heart-pulse"); ("Shopping", "shopping-bag");
     ("Other", "more-horizontal")].

Definition CATEGORY_COLORS : gmap string string :=
  list_to_map
    [("Housing", "#2563eb"); ("Food", "#10b981"); ("Transport", "#f59e0b");
     ("Utilities", "#8b5cf6"); ("Entertainment", "#ec4899");
     ("Healthcare", "#f43f5e"); ("Shopping", "#14b8a6");
     ("Other", "#6366f1")].

(** [table[key] || fallback] for a table of texts. *)
Definition lookup_or (table : gmap string string) (key fallback : string)
  : string :=
  match table !! key with
  | Some s => if JS.truthy_string s then s else fallback
  | None => fallback
  end.

(** The name of the icon [getCategoryIcon] puts into its markup. *)
Definition category_icon_name (category0 : string) : string :=
  lookup_or CATEGORY_ICONS category0 "more-horizontal".

Definition getCategoryIcon (category0 : string) : string :=
  "<i data-lucide=" +:+ Chars.quote +:+ category_icon_name category0
    +:+ Chars.quote +:+ " class=" +:+ Chars.quote +:+ "category-icon"
    +:+ Chars.quote +:+ "></i>".

(** [CATEGORY_COLORS.Other] is [undefined] when the table has no such
    key; the table above has it. *)
Definition getCategoryColor (category0 : string) : option string :=
  match CATEGORY_COLORS !! category0 with
  | Some s => if JS.truthy_string s then Some s else CATEGORY_COLORS !! "Other"
  | None => CATEGORY_COLORS !! "Other"
  end.

Definition calculatePercentage (part whole : float) : float :=
  if JS.strict_eq whole 0 then 0%float else (part / whole * 100)%float.

Definition getBudgetStatusColor (spent budget : float) : string :=
  let percentage := calculatePercentage spent budget in
  if (100 <=? percentage)%float then "#ff6b6b"
  else if (80 <=? percentage)%float then "#ffa94d"
  else if (60 <=? percentage)%float then "#ffd43b"
  else "#51cf66".

(** [maxLength] is a whole number, as every caller passes. *)
Definition truncateText (text : string) (maxLength : Z) : string :=
  if Z.of_nat (String.length text) <=? maxLength then text
  else Text.substring0 text (maxLength - 3) +:+ "...".

(** The test of the [filter] in [filterExpenses], for the lower-cased
    term. *)
Definition matches_term (term : string) (expense : Expense) : bool :=
  Text.includes (Text.toLowerCase (name expense)) term
  || Text.includes (Text.toLowerCase (category expense)) term
  || match notes expense with
     | Some n => JS.truthy_string n && Text.includes (Text.toLowerCase n) term
     | None => false
     end.

Definition filterExpenses (es : list Expense) (searchTerm : string)
  : list Expense :=
  if negb (JS.truthy_string searchTerm)
     || (String.length (JS.trim searchTerm) =? 0)%nat
  then es
  else
    let term := Text.toLowerCase searchTerm in
    List.filter (matches_term term) es.

(** The calendar fields of one [new Date()]: [getFullYear()],
    [getMonth()] and [getDate()]. *)
Record Today : Type := mkToday {
  today_fullYear : Z;
  today_month : Z;
  today_date : Z
}.

Definition is_leap_year (y : Z) : bool :=
  ((y mod 4 =? 0) && negb (y mod 100 =? 0)) || (y mod 400 =? 0).

(** The number of days of a month of the Gregorian calendar. *)
Definition days_in_month (y month0 : Z) : Z :=
  if month0 =? 1 then (if is_leap_year y then 29 else 28)
  else if (month0 =? 3) || (month0 =? 5) || (month0 =? 8) || (month0 =? 10)
  then 30
  else 31.

(** [new Date(year, month, 0).getDate()]: day 0 of a month is the last
    day of the month before it. *)
Definition Date_day_zero (year month0 : Z) : Z :=
  let '(y, m) := Date_year_month year (month0 - 1) in
  days_in_month y m.

Definition getDaysRemainingInMonth (now : Today) : Z :=
  let lastDay := Date_day_zero (today_fullYear now) (today_month now + 1) in
  lastDay - today_date now.

(** A whole number as a number (exact below 2^53 in absolute value). *)
Definition number_of_integer (z : Z) : float :=
  if z <? 0 then (- PrimFloat.of_uint63 (Uint63.of_Z (- z)))%float
  else PrimFloat.of_uint63 (Uint63.of_Z z).

Definition getDailyBudgetRemaining (now : Today) (remaining0 : float) : float :=
  let daysLeft := getDaysRemainingInMonth now in
  if daysLeft <=? 0 then 0%float
  else (remaining0 / number_of_integer daysLeft)%float.

(** ** The handlers of the page ([js/app.js]) *)

Section App.
Context {host : Host}.

(** The values of the fields of the expense form; the notes field may be
    missing from the form. *)
Record ExpenseForm : Type := mkForm {
  expenseName : string;
  expenseCategory : string;
  expenseAmount : string;
  expenseDate : string;
  expenseNotes : option string
}.

(** The object [handleAddExpense] builds from the form. *)
Definition form_expense (form : ExpenseForm) : Draft :=
  {| d_name := JS.trim (expenseName form);
     d_category := expenseCategory form;
     d_amount := JS.Str (expenseAmount form);
     d_date := expenseDate form;
     d_notes :=
       Some (match expenseNotes form with
             | Some s => if JS.truthy_string (JS.trim s) then JS.trim s else ""
             | None => ""
             end) |}.

(** A call of [showNotification]. *)
Record Notification : Type := mkNotification {
  n_message : string;
  n_type : string
}.

(** The document after the handler, and what it notifies. *)
Definition handleAddExpense (now : Now) (appState : State) (form : ExpenseForm)
  : State * Notification :=
  let expense := form_expense form in
  let validation := validateExpense expense in
  if negb (isValid validation) then
    (appState, mkNotification (JS.join ", " (errors validation)) "error")
  else
    (addExpense now appState expense,
     mkNotification "Expense added successfully!" "success").

(** [isNaN(s)] on a string. *)
Definition isNaN_string (s : string) : bool := is_nan (Number_string s).

(** [newBudget] is the answer to the [prompt] dialog, [None] when it was
    cancelled. *)
Definition handleEditBudget (appState : State) (category0 : string)
    (newBudget : option string) : State * option Notification :=
  match newBudget with
  | Some s =>
      if negb (isNaN_string s) && (0 <=? parseFloat (JS.Str s))%float then
        (updateBudget appState category0 (JS.Str s),
         Some (mkNotification "Budget updated" "success"))
      else (appState, None)
  | None => (appState, None)
  end.

(** The expenses [renderExpenseList] shows, in the order it shows them. *)
Definition listed_expenses (appState : State) (searchTerm : string)
    (sortCriteria sortOrder : string) : list Expense :=
  let monthExpenses := getExpensesForMonth appState (currentMonth appState) in
  let filteredExpenses := filterExpenses monthExpenses searchTerm in
  sortExpenses filteredExpenses sortCriteria sortOrder.

(** One row of [renderBudgetOverview]: what was spent in a category, what
    is left of its budget, and the colour of its bar. *)
Record BudgetRow : Type := mkBudgetRow {
  row_spent : float;
  row_remaining : float;
  row_percentage : float;
  row_color : string
}.

Definition budget_row (expensesByCategory : Obj.t CategoryGroup)
    (category0 : string) (budget : float) : BudgetRow :=
  let spent :=
    match Obj.get expensesByCategory category0 with
    | Some g => JS.number_or (total g) zero
    | None => zero
    end in
  {| row_spent := spent;
     row_remaining := (budget - spent)%float;
     row_percentage := calculatePercentage spent budget;
     row_color := getBudgetStatusColor spent budget |}.

End App.

(** ** The category chart ([js/charts.js]) *)

(** What [renderCategoryChart] hands to the chart library: the labels,
    the data and the colours of the slices. *)
Record CategoryChart : Type := mkCategoryChart {
  chart_labels : list string;
  chart_amounts : list float;
  chart_colors : list (option string)
}.

(** The data of the chart, or nothing when the empty state is drawn.  The
    accumulation per category is the one of [getSpendingInsights]. *)
Definition renderCategoryChart (es : list Expense) : option CategoryChart :=
  let byCategory := fold_left add_spend es [] in
  let categories0 := Obj.keys byCategory in
  let amounts := map snd byCategory in
  let colors := map getCategoryColor categories0 in
  if (length categories0 =? 0)%nat then None
  else Some (mkCategoryChart categories0 amounts colors).

(** ** What the properties speak of *)

(** The number [n], from 0 to 99, in two digits. *)
Definition two_digits (n : Z) : string :=
  Chars.digit (n / 10) +:+ Chars.digit (n mod 10).

(** The Year-Month token of a year and a month number from 1 to 12: the
    year in decimal, a hyphen, the month in two digits. *)
Definition year_month_token (year month1 : Z) : string :=
  JS.integer_toString year +:+ "-" +:+ two_digits month1.

(** [n / 100] is a multiple of 0.01 nearest to the magnitude of the number
    whose exact value is [v] units of 2^-1074: the two differ by at most
    0.005. *)
Definition nearest_hundredth (v n : Z) : Prop :=
  0 <= n
  /\ - 2 ^ 1074 <= 2 * (100 * Z.abs v - n * 2 ^ 1074) <= 2 ^ 1074.

(** The operation gives no expense an id another expense has: an added
    expense is stamped with a reading of the clock that is no id of the
    document, and an update does not overwrite the id. *)
Definition keeps_ids_apart (state : State) (op : StoreOp) : Prop :=
  match op with
  | AddExpense now _ => Forall (fun e => id e <> now_ms now) (expenses state)
  | UpdateExpense _ updates => u_id updates = None
  | _ => True
  end.

Module MoreExamples.

(** Two expenses with the same id, as two additions within one
    millisecond leave them. *)
Definition twins : State :=
  set_expenses (defaultState Examples.now0)
    [Examples.bus; Examples.bread;
     mkExpense 2 "Butter" "Food" 4 "2024-01-04" (Some "") ""].

Definition rename (n : string) : Updates :=
  mkUpdates None (Some n) None None None None None.

(** What [addExpense] stores for the draft Tea with the amount "abc". *)
Definition tea : Expense :=
  mkExpense 1704412800000 "Tea" "Food" nan "2024-01-01" (Some "")
            "2024-01-05T00:00:00.000Z".

(** An expense dated on the first day of February 2024, and a document
    that holds it. *)
Definition first_of_february : Expense :=
  mkExpense 6 "Rent" "Housing" 50000 "2024-02-01" (Some "") "".

Definition february : State :=
  set_expenses (defaultState Examples.now0) [first_of_february].

(** A host five hours west of UTC, as Jamaica is. *)
Definition jamaica : Host := ReferenceHost.host (-300).

End MoreExamples.

(** The property names every object inherits from [Object.prototype];
    a table looked up with one of them does not answer from its own
    entries, so they are outside the tables as modelled. *)
Definition Object_prototype_names : list string :=
  ["constructor"; "hasOwnProperty"; "isPrototypeOf"; "propertyIsEnumerable";
   "toLocaleString"; "toString"; "valueOf"; "__proto__"; "__defineGetter__";
   "__defineSetter__"; "__lookupGetter__"; "__lookupSetter__"].

(** The exact value of an amount (0 for an amount that is no finite
    number), and the expenses whose amount has a given value. *)
Definition amount_value (e : Expense) : Z :=
  default 0 (JS.exact_value (amount e)).

Definition amounts_finite (es : list Expense) : Prop :=
  Forall (fun e => JS.exact_value (amount e) <> None) es.

Definition has_amount_value (v : Z) (e : Expense) : bool :=
  amount_value e =? v.

(** A text that is empty or begins with a character that is no white
    space. *)
Definition starts_solid (s : string) : Prop :=
  match s with
  | EmptyString => True
  | String c _ => JS.is_white_space c = false
  end.

(** The totals of the groups of [getExpensesByCategory], key by key. *)
Definition category_totals (byCategory : Obj.t CategoryGroup) : Obj.t float :=
  map (fun kv => (fst kv, total (snd kv))) byCategory.

(** * Properties *)

(** ** Numbers *)

Lemma eqb_nan_l (y : float) : PrimFloat.eqb nan y = false.
Proof. rewrite FloatAxioms.eqb_spec. reflexivity. Qed.

Lemma abs_opp (x : float) : abs (- x) = abs x.
Proof.
  apply Prim2SF_inj. rewrite !abs_spec, opp_spec.
  destruct (Prim2SF x); reflexivity.
Qed.

Lemma abs_not_negative (x : float) : (abs x <? 0)%float = false.
Proof.
  rewrite FloatAxioms.ltb_spec, abs_spec.
  destruct (Prim2SF x); reflexivity.
Qed.

(** Two numbers that [===] tells apart are different. *)
Lemma eqb_false_neq (x y : float) : PrimFloat.eqb x y = false -> is_nan x = false -> x <> y.
Proof.
  intros E N ->. unfold is_nan in N. rewrite E in N. discriminate.
Qed.

(** *** The sign of a difference

    [FloatAxioms] specifies [x - y] by [SFsub], which aligns the two
    mantissas, subtracts them as integers and rounds.  Rounding a non-zero
    integer at an exponent that is at least the smallest one never gives
    zero and keeps the sign, so a difference of finite numbers is positive
    exactly when the first value is the larger one. *)
Module Binary64.

Abbreviation emin := (-1074).

Lemma digits2_pos_lower (p : positive) :
  2 ^ (Z.pos (digits2_pos p) - 1) <= Z.pos p.
Proof.
  induction p as [p IH|p IH|]; simpl digits2_pos.
  - rewrite Pos2Z.inj_succ.
    replace (Z.succ (Z.pos (digits2_pos p)) - 1) with (Z.succ (Z.pos (digits2_pos p) - 1)) by lia.
    rewrite Z.pow_succ_r by lia. lia.
  - rewrite Pos2Z.inj_succ.
    replace (Z.succ (Z.pos (digits2_pos p)) - 1) with (Z.succ (Z.pos (digits2_pos p) - 1)) by lia.
    rewrite Z.pow_succ_r by lia. lia.
  - reflexivity.
Qed.

Lemma shr_1_div2 (r : shr_record) :
  0 <= shr_m r -> shr_m (shr_1 r) = shr_m r / 2.
Proof.
  destruct r as [m b s]. simpl. intros Hm.
  destruct m as [|p|p]; [reflexivity| |lia].
  destruct p as [p|p|]; simpl.
  - rewrite Pos2Z.inj_xI. apply Z.div_unique with 1; lia.
  - rewrite Pos2Z.inj_xO. apply Z.div_unique with 0; lia.
  - reflexivity.
Qed.

Lemma iter_shr_1 (p : positive) :
  forall r, 0 <= shr_m r ->
            shr_m (SpecFloat.iter_pos shr_1 p r) = shr_m r / 2 ^ Z.pos p.
Proof.
  induction p as [p IH|p IH|]; intros r Hr; simpl SpecFloat.iter_pos.
  - assert (H1 : 0 <= shr_m (shr_1 r)).
    { rewrite shr_1_div2 by exact Hr. apply Z.div_pos; lia. }
    assert (H2 : 0 <= shr_m (SpecFloat.iter_pos shr_1 p (shr_1 r))).
    { rewrite IH by exact H1. apply Z.div_pos; [exact H1|]. apply Z.pow_pos_nonneg; lia. }
    rewrite IH by exact H2. rewrite IH by exact H1. rewrite shr_1_div2 by exact Hr.
    rewrite !Z.div_div by (try apply Z.pow_pos_nonneg; lia).
    f_equal. rewrite Pos2Z.inj_xI. rewrite <- Z.pow_add_r by lia.
    rewrite <- Z.pow_succ_r by lia. f_equal. lia.
  - assert (H2 : 0 <= shr_m (SpecFloat.iter_pos shr_1 p r)).
    { rewrite IH by exact Hr. apply Z.div_pos; [exact Hr|]. apply Z.pow_pos_nonneg; lia. }
    rewrite IH by exact H2. rewrite IH by exact Hr.
    rewrite !Z.div_div by (try apply Z.pow_pos_nonneg; lia).
    f_equal. rewrite Pos2Z.inj_xO. rewrite <- Z.pow_add_r by lia. f_equal. lia.
  - rewrite shr_1_div2 by exact Hr. reflexivity.
Qed.

Lemma shr_m_of_loc (m : Z) (l : location) : shr_m (shr_record_of_loc m l) = m.
Proof. destruct l as [|[]]; reflexivity. Qed.

(** Shifting a positive mantissa to its format exponent keeps it positive. *)
Lemma shr_fexp_positive (p : positive) (e : Z) (l : location) :
  emin <= e ->
  0 < shr_m (fst (shr_fexp prec emax (Z.pos p) e l))
  /\ emin <= snd (shr_fexp prec emax (Z.pos p) e l).
Proof.
  intros He. unfold shr_fexp, shr.
  pose proof (digits2_pos_lower p) as Hd.
  set (d := Z.pos (digits2_pos p)) in *.
  change (Zdigits2 (Z.pos p)) with d.
  unfold fexp, SpecFloat.emin, prec, emax.
  change (3 - 1024 - 53) with emin.
  destruct (Z.max (d + e - 53) emin - e) as [|n|n] eqn:En; simpl fst; simpl snd.
  - rewrite shr_m_of_loc. lia.
  - rewrite iter_shr_1 by (rewrite shr_m_of_loc; lia).
    rewrite shr_m_of_loc. split; [|lia].
    assert (Hn : Z.pos n <= d - 1) by lia.
    assert (2 ^ Z.pos n <= 2 ^ (d - 1)) by (apply Z.pow_le_mono_r; lia).
    assert (0 < 2 ^ Z.pos n) by (apply Z.pow_pos_nonneg; lia).
    apply Z.div_str_pos. lia.
  - rewrite shr_m_of_loc. lia.
Qed.

Lemma round_nearest_even_positive (m : Z) (l : location) :
  0 < m -> 0 < round_nearest_even m l.
Proof.
  intros Hm. destruct l as [|[]]; simpl; try lia. destruct (Z.even m); lia.
Qed.

Lemma binary_round_aux_signed (s : bool) (p : positive) (e : Z) (l : location) :
  emin <= e -> JS.signed s (binary_round_aux prec emax s (Z.pos p) e l).
Proof.
  intros He. unfold binary_round_aux.
  destruct (shr_fexp_positive p e l He) as [H1 H2].
  destruct (shr_fexp prec emax (Z.pos p) e l) as [mrs' e'].
  simpl in H1, H2.
  pose proof (round_nearest_even_positive (shr_m mrs') (loc_of_shr_record mrs') H1) as H3.
  destruct (round_nearest_even (shr_m mrs') (loc_of_shr_record mrs')) as [|q|q]; try lia.
  destruct (shr_fexp_positive q e' loc_Exact H2) as [H4 H5].
  destruct (shr_fexp prec emax (Z.pos q) e' loc_Exact) as [mrs'' e''].
  simpl in H4, H5.
  destruct (shr_m mrs'') as [|q'|q']; try lia.
  destruct (e'' <=? emax - prec); reflexivity.
Qed.

Lemma binary_round_signed (s : bool) (p : positive) (e : Z) :
  emin <= e -> JS.signed s (binary_round prec emax s p e).
Proof.
  intros He. unfold binary_round, shl_align.
  destruct (fexp prec emax (Z.pos (digits2_pos p) + e) - e) as [|n|n] eqn:En;
    try (apply binary_round_aux_signed; exact He).
  apply binary_round_aux_signed.
  unfold fexp, SpecFloat.emin, prec, emax. lia.
Qed.

Lemma ltb_zero_signed (s : bool) (r : spec_float) :
  JS.signed s r -> SFltb (S754_zero false) r = negb s.
Proof.
  destruct r as [| s'| |s' m e]; simpl; try contradiction; intros ->;
    destruct s; reflexivity.
Qed.

Lemma signed_opp (s : bool) (r : spec_float) :
  JS.signed s r -> JS.signed (negb s) (SFopp r).
Proof. destruct r; simpl; try contradiction; now intros ->. Qed.

Lemma ltb_zero_normalize (D e : Z) :
  emin <= e ->
  SFltb (S754_zero false) (binary_normalize prec emax D e false) = (0 <? D)
  /\ SFltb (S754_zero false) (SFopp (binary_normalize prec emax D e false))
     = (D <? 0).
Proof.
  intros He. destruct D as [|p|p]; simpl binary_normalize.
  - split; reflexivity.
  - pose proof (binary_round_signed false p e He) as Hs. split.
    + now rewrite (ltb_zero_signed _ _ Hs).
    + now rewrite (ltb_zero_signed _ _ (signed_opp _ _ Hs)).
  - pose proof (binary_round_signed true p e He) as Hs. split.
    + now rewrite (ltb_zero_signed _ _ Hs).
    + now rewrite (ltb_zero_signed _ _ (signed_opp _ _ Hs)).
Qed.

Lemma iter_xO (m d : positive) : Z.pos (Pos.iter xO m d) = Z.pos m * 2 ^ Z.pos d.
Proof.
  induction d as [|d IH] using Pos.peano_ind.
  - simpl. lia.
  - rewrite Pos.iter_succ, Pos2Z.inj_xO, IH, Pos2Z.inj_succ, Z.pow_succ_r by lia. lia.
Qed.

Lemma shl_align_value (m : positive) (e e' : Z) :
  e' <= e -> Z.pos (fst (shl_align m e e')) = Z.pos m * 2 ^ (e - e').
Proof.
  intros He. unfold shl_align.
  destruct (e' - e) as [|n|n] eqn:En; simpl fst.
  - replace (e - e') with 0 by lia. lia.
  - lia.
  - rewrite iter_xO. f_equal. f_equal. lia.
Qed.

Lemma valid_exponent (s : bool) (m : positive) (e : Z) :
  valid_binary (S754_finite s m e) = true -> emin <= e.
Proof.
  simpl. unfold bounded, canonical_mantissa, fexp, SpecFloat.emin, prec, emax.
  intros H. apply andb_true_iff in H. destruct H as [H _].
  apply Z.eqb_eq in H. lia.
Qed.

Lemma cond_Zopp_mul (s : bool) (a b : Z) : cond_Zopp s a * b = cond_Zopp s (a * b).
Proof. destruct s; simpl; lia. Qed.

(** The sign of a difference of two finite numbers is the sign of the
    difference of their values. *)
Lemma sub_sign (x y : float) (vx vy : Z) :
  JS.exact_value x = Some vx -> JS.exact_value y = Some vy ->
  (0 <? x - y)%float = (vy <? vx)
  /\ (0 <? - (x - y))%float = (vx <? vy).
Proof.
  unfold JS.exact_value. intros Hx Hy.
  rewrite !FloatAxioms.ltb_spec, opp_spec, sub_spec.
  change (Prim2SF 0) with (S754_zero false).
  pose proof (Prim2SF_valid x) as Vx. pose proof (Prim2SF_valid y) as Vy.
  destruct (Prim2SF x) as [sx| | |sx mx ex]; try discriminate;
    destruct (Prim2SF y) as [sy| | |sy my ey]; try discriminate;
    injection Hx as <-; injection Hy as <-.
  - destruct sx, sy; split; reflexivity.
  - assert (0 < Z.pos my * 2 ^ (ey + 1074)).
    { apply valid_exponent in Vy. apply Z.mul_pos_pos; [lia|]. apply Z.pow_pos_nonneg; lia. }
    destruct sx, sy; simpl; split; symmetry; (apply Z.ltb_lt || apply Z.ltb_ge); lia.
  - assert (0 < Z.pos mx * 2 ^ (ex + 1074)).
    { apply valid_exponent in Vx. apply Z.mul_pos_pos; [lia|]. apply Z.pow_pos_nonneg; lia. }
    destruct sx, sy; simpl; split; symmetry; (apply Z.ltb_lt || apply Z.ltb_ge); lia.
  - apply valid_exponent in Vx, Vy.
    unfold SF64sub, SFsub.
    set (ez := Z.min ex ey).
    assert (Hez : emin <= ez) by (unfold ez; lia).
    destruct (ltb_zero_normalize
                (cond_Zopp sx (Z.pos (fst (shl_align mx ex ez)))
                 - cond_Zopp sy (Z.pos (fst (shl_align my ey ez)))) ez Hez) as [H1 H2].
    rewrite H1, H2.
    rewrite !shl_align_value by (unfold ez; lia).
    assert (Hp : 0 < 2 ^ (ez + 1074)) by (apply Z.pow_pos_nonneg; lia).
    assert (Ex : Z.pos mx * 2 ^ (ex + 1074) = Z.pos mx * 2 ^ (ex - ez) * 2 ^ (ez + 1074)).
    { rewrite <- Z.mul_assoc, <- Z.pow_add_r by (unfold ez; lia). f_equal. f_equal. lia. }
    assert (Ey : Z.pos my * 2 ^ (ey + 1074) = Z.pos my * 2 ^ (ey - ez) * 2 ^ (ez + 1074)).
    { rewrite <- Z.mul_assoc, <- Z.pow_add_r by (unfold ez; lia). f_equal. f_equal. lia. }
    rewrite Ex, Ey, <- !cond_Zopp_mul.
    set (a := cond_Zopp sx (Z.pos mx * 2 ^ (ex - ez))).
    set (b := cond_Zopp sy (Z.pos my * 2 ^ (ey - ez))).
    split.
    + destruct (Z.ltb_spec 0 (a - b)),
        (Z.ltb_spec (b * 2 ^ (ez + 1074)) (a * 2 ^ (ez + 1074)));
        try reflexivity; nia.
    + destruct (Z.ltb_spec (a - b) 0),
        (Z.ltb_spec (a * 2 ^ (ez + 1074)) (b * 2 ^ (ez + 1074)));
        try reflexivity; nia.
Qed.

End Binary64.

(** *** Positive numbers *)

Lemma positive_signed (x : float) :
  (0 <? x)%float = true <-> JS.signed false (Prim2SF x).
Proof.
  rewrite FloatAxioms.ltb_spec. change (Prim2SF 0) with (S754_zero false).
  destruct (Prim2SF x) as [s|s| |s m e]; simpl; try (split; [discriminate|contradiction]);
    destruct s; simpl; split; try discriminate; try reflexivity; intros; discriminate.
Qed.

Lemma add_positive (x y : float) :
  (0 <? x)%float = true -> (0 <? y)%float = true -> (0 <? x + y)%float = true.
Proof.
  rewrite !positive_signed, add_spec.
  pose proof (Prim2SF_valid x) as Vx. pose proof (Prim2SF_valid y) as Vy.
  destruct (Prim2SF x) as [sx|sx| |sx mx ex]; simpl; try contradiction; intros ->;
    destruct (Prim2SF y) as [sy|sy| |sy my ey]; simpl; try contradiction; intros ->;
    try reflexivity.
  apply Binary64.valid_exponent in Vx, Vy.
  unfold SF64add, SFadd. simpl cond_Zopp.
  change (Z.pos ?a + Z.pos ?b) with (Z.pos (a + b)).
  simpl binary_normalize. apply Binary64.binary_round_signed. lia.
Qed.

Lemma zero_add_positive (y : float) :
  (0 <? y)%float = true -> (0 + y)%float = y.
Proof.
  rewrite positive_signed. intros Hy. apply Prim2SF_inj. rewrite add_spec.
  change (Prim2SF 0) with (S754_zero false).
  destruct (Prim2SF y) as [sy|sy| |sy my ey]; simpl in *; try contradiction; reflexivity.
Qed.

Lemma positive_truthy (x : float) :
  (0 <? x)%float = true -> JS.truthy_number x = true.
Proof.
  rewrite positive_signed. unfold JS.truthy_number, is_nan, is_zero.
  rewrite !FloatAxioms.eqb_spec. change (Prim2SF 0) with (S754_zero false).
  destruct (Prim2SF x) as [s|s| |s m e]; simpl; try contradiction; intros ->.
  - reflexivity.
  - unfold SFeqb. simpl. rewrite Z.compare_refl, Pos.compare_cont_refl. reflexivity.
Qed.

(** ** Objects *)

Module ObjFacts.
Section Facts.
Context {V : Type}.
Implicit Types (o : Obj.t V) (k : string) (v : V).

Lemma get_set_eq o k v : Obj.get (Obj.set o k v) k = Some v.
Proof.
  induction o as [|[k' v'] o IH]; simpl.
  - now rewrite String.eqb_refl.
  - destruct (String.eqb k' k) eqn:E; simpl.
    + now rewrite String.eqb_refl.
    + now rewrite E.
Qed.

Lemma get_set_ne o k k' v : k <> k' -> Obj.get (Obj.set o k v) k' = Obj.get o k'.
Proof.
  intros Hne. induction o as [|[k0 v0] o IH]; simpl.
  - apply String.eqb_neq in Hne. now rewrite Hne.
  - destruct (String.eqb k0 k) eqn:E; simpl.
    + apply String.eqb_eq in E. subst k0.
      apply String.eqb_neq in Hne. now rewrite Hne.
    + now rewrite IH.
Qed.


Lemma get_None_keys o k : Obj.get o k = None <-> ~ In k (Obj.keys o).
Proof.
  induction o as [|[k0 v0] o IH]; simpl; [split; [intros _ []|reflexivity]|].
  destruct (String.eqb k0 k) eqn:E.
  - apply String.eqb_eq in E. split; [discriminate|].
    intros Hn. exfalso. apply Hn. now left.
  - apply String.eqb_neq in E. rewrite IH. tauto.
Qed.

Lemma keys_set_present o k v :
  In k (Obj.keys o) -> Obj.keys (Obj.set o k v) = Obj.keys o.
Proof.
  induction o as [|[k0 v0] o IH]; simpl; [tauto|].
  destruct (String.eqb k0 k) eqn:E; simpl.
  - apply String.eqb_eq in E. now subst.
  - apply String.eqb_neq in E. intros [Hk|Hk]; [contradiction|].
    now rewrite IH.
Qed.

Lemma keys_set_absent o k v :
  ~ In k (Obj.keys o) -> Obj.keys (Obj.set o k v) = Obj.keys o ++ [k].
Proof.
  induction o as [|[k0 v0] o IH]; simpl; [reflexivity|].
  intros Hn. destruct (String.eqb k0 k) eqn:E; simpl.
  - apply String.eqb_eq in E. tauto.
  - rewrite IH; tauto.
Qed.

Lemma NoDup_keys_set o k v : List.NoDup (Obj.keys o) -> List.NoDup (Obj.keys (Obj.set o k v)).
Proof.
  intros Hnd. destruct (in_dec string_dec k (Obj.keys o)) as [Hin|Hni].
  - now rewrite keys_set_present.
  - rewrite keys_set_absent by exact Hni.
    apply List.NoDup_app; [assumption| |].
    + constructor; [intros []|constructor].
    + intros x Hx [<-|[]]. contradiction.
Qed.

Lemma In_get o k v : List.NoDup (Obj.keys o) -> In (k, v) o -> Obj.get o k = Some v.
Proof.
  induction o as [|[k0 v0] o IH]; simpl; [tauto|].
  intros Hnd [Heq|Hin].
  - injection Heq as -> ->. now rewrite String.eqb_refl.
  - inversion Hnd as [|? ? Hni Hnd']; subst.
    destruct (String.eqb k0 k) eqn:E.
    + apply String.eqb_eq in E. subst k0. exfalso. apply Hni.
      change k with (fst (k, v)). now apply in_map.
    + now apply IH.
Qed.

End Facts.
End ObjFacts.

(** ** The store *)

Section StoreFacts.
Context {host : Host}.

Lemma budgets_set_expenses (state : State) (es : list Expense) :
  budgets (set_expenses state es) = budgets state.
Proof. reflexivity. Qed.

(** Only [updateBudget] writes [budgets]. *)
Lemma budgets_apply_op (state : State) (op : StoreOp) :
  budgets (apply_op state op) =
  match op with
  | UpdateBudget category0 amount0 =>
      <[category0 := parseFloat amount0]> (budgets state)
  | _ => budgets state
  end.
Proof.
  destruct op; simpl; try reflexivity.
Qed.

(** [updateBudget] on a category that is no key yet adds the key. *)
Lemma updateBudget_inserts (state : State) (category0 : string) (amount0 : JS.value) :
  dom (budgets (updateBudget state category0 amount0))
  = {[ category0 ]} ∪ dom (budgets state).
Proof. unfold updateBudget. simpl. apply dom_insert_L. Qed.

(** An operation that names a known category keeps the keys. *)
Lemma apply_op_keeps_keys (state : State) (op : StoreOp) :
names_known_category state op ->
dom (budgets (apply_op state op)) = dom (budgets state).
Proof.
intros Hk. rewrite budgets_apply_op. destruct op; try reflexivity.
simpl in Hk. rewrite dom_insert_L.
apply subseteq_union_1_L, singleton_subseteq_l. exact Hk.
Qed.

Lemma dom_default_budgets : dom default_budgets = list_to_set categories.
Proof.
  unfold default_budgets, categories. rewrite !dom_insert_L, dom_empty_L.
  simpl. reflexivity.
Qed.

End StoreFacts.

(** Operations that name one of the eight categories keep exactly the eight
    keys, from any document that has them. *)
Lemma budgets_keys_run {host : Host} (ops : list StoreOp) :
  forall state,
    dom (budgets state) = list_to_set categories ->
    Forall names_fixed_category ops ->
    dom (budgets (fold_left apply_op ops state)) = list_to_set categories.
Proof.
  induction ops as [|op ops IH]; intros state Hd Hall; simpl; [exact Hd|].
  inversion Hall as [|? ? Hop Hrest]; subst.
  apply IH; [|exact Hrest].
  rewrite apply_op_keeps_keys; [exact Hd|].
  destruct op; simpl; try exact I.
  rewrite Hd. apply elem_of_list_to_set. apply list_elem_of_In. exact Hop.
Qed.

(** C1 (as amended): every store operation leaves the key set of [budgets]
    as it was, provided that an [updateBudget] names a category that is
    already a key; hence every document reached from the default one by
    operations that name only the eight fixed categories has exactly these
    eight keys; and [updateBudget] with any other category is not ignored,
    it adds the category to the keys. *)
Theorem budgets_keys_preserved {host : Host} :
  (forall state op,
      names_known_category state op ->
      dom (budgets (apply_op state op)) = dom (budgets state))
  /\ (forall now ops,
        Forall names_fixed_category ops ->
        dom (budgets (fold_left apply_op ops (defaultState now)))
        = list_to_set categories)
  /\ (forall state category0 amount0,
        dom (budgets (updateBudget state category0 amount0))
        = {[ category0 ]} ∪ dom (budgets state)).
Proof.
  split; [|split].
  - exact apply_op_keeps_keys.
  - intros now ops Hall. apply budgets_keys_run; [|exact Hall].
    apply dom_default_budgets.
  - exact updateBudget_inserts.
Qed.

Lemma budgets_keys_preserved_witness :
  names_known_category (defaultState Examples.now0)
    (UpdateBudget "Food" (JS.Str "35000"))
  /\ dom (budgets (apply_op (host := ReferenceHost.utc) (defaultState Examples.now0)
                     (UpdateBudget "Food" (JS.Str "35000"))))
     = dom (budgets (defaultState Examples.now0)).
Proof.
  assert (Hk : names_known_category
                 (defaultState Examples.now0) (UpdateBudget "Food" (JS.Str "35000"))).
  { simpl. rewrite dom_default_budgets. unfold categories. set_solver. }
  split; [exact Hk|].
  exact (proj1 (budgets_keys_preserved (host := ReferenceHost.utc)) _ _ Hk).
Defined.

(** C1 as the specification states it fails: [updateBudget] with the
    unknown category "Pets" gives the default document a ninth budget
    key. *)
Lemma updateBudget_unknown_category_inserted :
  dom (budgets (updateBudget (host := ReferenceHost.utc)
                  (defaultState Examples.now0) "Pets" (JS.Str "100")))
  <> dom (budgets (defaultState Examples.now0)).
Proof.
  rewrite updateBudget_inserts. simpl. rewrite dom_default_budgets.
  intros E. assert (Hin : "Pets" ∈ (list_to_set categories : gset string)).
  { rewrite <- E. set_solver. }
  unfold categories in Hin. set_solver.
Qed.

(** ** Adding and deleting *)

Section AddDelete.
Context {host : Host}.

Lemma expenses_addExpense (now : Now) (state : State) (expense : Draft) :
  exists e, expenses (addExpense now state expense) = expenses state ++ [e]
            /\ id e = now_ms now.
Proof. eexists. split; reflexivity. Qed.

(** Deleting an id nobody has changes nothing. *)
Lemma filter_other_ids (es : list Expense) (id0 : Z) :
  Forall (fun e => id e <> id0) es ->
  List.filter (fun expense => negb (id expense =? id0)) es = es.
Proof.
  induction 1 as [|e es Hne _ IH]; simpl; [reflexivity|].
  apply Z.eqb_neq in Hne. rewrite Hne. simpl. now rewrite IH.
Qed.

End AddDelete.

(** C3 (as amended): when no expense of the document already carries the
    clock reading that [addExpense] assigns as id, [addExpense] followed by
    [deleteExpense] with that id gives back the expenses of the document:
    same expenses, same order, same fields. *)
Theorem addExpense_deleteExpense {host : Host}
    (now : Now) (state : State) (expense : Draft) :
  Forall (fun e => id e <> now_ms now) (expenses state) ->
  let state' := addExpense now state expense in
  option_map id (last (expenses state')) = Some (now_ms now)
  /\ expenses (deleteExpense state' (now_ms now)) = expenses state.
Proof.
  intros Hfresh state'. split.
  - unfold state', addExpense. simpl. rewrite last_snoc. reflexivity.
  - unfold state', deleteExpense, addExpense. simpl.
    rewrite List.filter_app, filter_other_ids by exact Hfresh.
    simpl. rewrite Z.eqb_refl. simpl. apply app_nil_r.
Qed.

Lemma addExpense_deleteExpense_witness :
  Forall (fun e => id e <> now_ms Examples.now0) (expenses Examples.january)
  /\ expenses (deleteExpense
                 (addExpense (host := ReferenceHost.utc) Examples.now0
                    Examples.january Examples.coffee_draft)
                 (now_ms Examples.now0))
     = expenses Examples.january.
Proof.
  assert (Hfresh : Forall (fun e => id e <> now_ms Examples.now0)
                     (expenses Examples.january)).
  { repeat constructor; simpl; lia. }
  split; [exact Hfresh|].
  exact (proj2 (addExpense_deleteExpense (host := ReferenceHost.utc)
                  Examples.now0 Examples.january Examples.coffee_draft Hfresh)).
Defined.

(** C3 as the specification states it fails: an expense created in the
    same millisecond has the id of the new one, and [deleteExpense] removes
    both. *)
Lemma addExpense_deleteExpense_collision :
  expenses (deleteExpense
              (addExpense (host := ReferenceHost.utc) Examples.now0
                 Examples.same_millisecond Examples.coffee_draft)
              (now_ms Examples.now0))
  <> expenses Examples.same_millisecond.
Proof. vm_compute. discriminate. Qed.

(** ** Sorting *)

Section SortFacts.
Context {A : Type}.

Lemma sort_insert_Permutation (cmp : A -> A -> float) (x : A) (l : list A) :
  Permutation (sort_insert cmp x l) (x :: l).
Proof.
  induction l as [|y l IH]; simpl; [reflexivity|].
  destruct (0 <? cmp x y)%float; [|reflexivity].
  rewrite IH. apply perm_swap.
Qed.

Lemma Array_sort_Permutation (cmp : A -> A -> float) (l : list A) :
  Permutation (Array_sort cmp l) l.
Proof.
  induction l as [|x l IH]; simpl; [reflexivity|].
  rewrite sort_insert_Permutation. now constructor.
Qed.

Lemma Array_sort_In (cmp : A -> A -> float) (l : list A) (x : A) :
  In x (Array_sort cmp l) <-> In x l.
Proof.
  split; apply Permutation_in;
    [|symmetry]; apply Array_sort_Permutation.
Qed.

(** An element that passes every element of [t] lands at the end. *)
Lemma sort_insert_last (cmp : A -> A -> float) (x : A) (t : list A) :
  (forall z, In z t -> sorts_behind cmp x z = true) ->
  sort_insert cmp x t = t ++ [x].
Proof.
  induction t as [|z t IH]; intros Hall; simpl; [reflexivity|].
  unfold sorts_behind in Hall. rewrite (Hall z) by now left.
  f_equal. apply IH. intros z' Hz'. apply Hall. now right.
Qed.

(** An element that does not pass [y] is inserted before a final [y]. *)
Lemma sort_insert_snoc (cmp : A -> A -> float) (x y : A) (t : list A) :
  sorts_behind cmp x y = false ->
  sort_insert cmp x (t ++ [y]) = sort_insert cmp x t ++ [y].
Proof.
  intros Hxy. induction t as [|z t IH]; simpl.
  - unfold sorts_behind in Hxy. now rewrite Hxy.
  - destruct (0 <? cmp x z)%float; [|reflexivity]. simpl. now rewrite IH.
Qed.

Section Reverse.
Variables asc desc : A -> A -> float.

(** [b] comes later in ascending order. *)
Let above (a b : A) : Prop := sorts_behind asc b a = true.

Lemma sort_insert_sorted (x : A) (s : list A) :
  StronglySorted above s ->
  (forall y, In y s -> sorts_behind asc x y = negb (sorts_behind asc y x)) ->
  (forall a b, In a s -> In b s ->
     sorts_behind asc a b = true -> sorts_behind asc b x = true ->
     sorts_behind asc a x = true) ->
  StronglySorted above (sort_insert asc x s).
Proof.
  induction 1 as [|y s Hs IH Hy]; intros Hne Htr; simpl.
  - repeat constructor.
  - destruct (0 <? asc x y)%float eqn:E.
    + constructor.
      * apply IH.
        -- intros z Hz. apply Hne. now right.
        -- intros a b Ha Hb. apply Htr; now right.
      * rewrite List.Forall_forall. intros z Hz.
        apply (Permutation_in _ (sort_insert_Permutation asc x s)) in Hz.
        destruct Hz as [<-|Hz]; [exact E|].
        rewrite List.Forall_forall in Hy. now apply Hy.
    + assert (Hyx : sorts_behind asc y x = true).
      { specialize (Hne y (or_introl eq_refl)). unfold sorts_behind in Hne at 1.
        rewrite E in Hne. now destruct (sorts_behind asc y x). }
      constructor; [now constructor|].
      constructor; [exact Hyx|].
      rewrite List.Forall_forall in Hy |- *. intros z Hz.
      apply (Htr z y); [now right|now left|now apply Hy|exact Hyx].
Qed.

Lemma rev_sort_insert (x : A) (s : list A) :
  StronglySorted above s ->
  (forall y, In y s -> sorts_behind asc x y = negb (sorts_behind asc y x)) ->
  (forall a b, In a s -> In b s ->
     sorts_behind asc a b = true -> sorts_behind asc b x = true ->
     sorts_behind asc a x = true) ->
  (forall y, In y s -> sorts_behind desc x y = sorts_behind asc y x) ->
  rev (sort_insert asc x s) = sort_insert desc x (rev s).
Proof.
  induction 1 as [|y s Hs IH Hy]; intros Hne Htr Hop; simpl; [reflexivity|].
  assert (Hney := Hne y (or_introl eq_refl)).
  assert (Hopy := Hop y (or_introl eq_refl)).
  destruct (0 <? asc x y)%float eqn:E.
  - simpl. rewrite IH.
    + symmetry. apply sort_insert_snoc.
      rewrite Hopy. unfold sorts_behind in Hney at 1. rewrite E in Hney.
      now destruct (sorts_behind asc y x).
    + intros z Hz. apply Hne. now right.
    + intros a b Ha Hb. apply Htr; now right.
    + intros z Hz. apply Hop. now right.
  - assert (Hyx : sorts_behind asc y x = true).
    { unfold sorts_behind in Hney at 1. rewrite E in Hney.
      now destruct (sorts_behind asc y x). }
    change (rev (x :: y :: s)) with (rev (y :: s) ++ [x]).
    symmetry. apply sort_insert_last.
    intros z Hz. apply in_rev in Hz. rewrite Hop by exact Hz.
    destruct Hz as [<-|Hz]; [exact Hyx|].
    rewrite List.Forall_forall in Hy.
    apply (Htr z y); [now right|now left|now apply Hy|exact Hyx].
Qed.

Lemma strictly_ordered_tail (x : A) (l : list A) :
  strictly_ordered asc desc (x :: l) -> strictly_ordered asc desc l.
Proof.
  intros (Hp & Htr & Hop). inversion Hp; subst. split; [assumption|]. split.
  - intros a b c Ha Hb Hc. apply Htr; now right.
  - intros a b Ha Hb. apply Hop; now right.
Qed.

Lemma strictly_ordered_head (x y : A) (l : list A) :
  strictly_ordered asc desc (x :: l) -> In y l ->
  sorts_behind asc x y = negb (sorts_behind asc y x).
Proof.
  intros (Hp & _) Hy. inversion Hp as [|? ? Hx _]; subst.
  rewrite List.Forall_forall in Hx. now apply Hx.
Qed.

Lemma Array_sort_sorted (l : list A) :
  strictly_ordered asc desc l -> StronglySorted above (Array_sort asc l).
Proof.
  induction l as [|x l IH]; intros Hl; simpl; [constructor|].
  apply sort_insert_sorted.
  - apply IH. eapply strictly_ordered_tail, Hl.
  - intros y Hy. apply Array_sort_In in Hy.
    eapply strictly_ordered_head; eassumption.
  - intros a b Ha Hb. apply Array_sort_In in Ha, Hb.
    destruct Hl as (_ & Htr & _). apply Htr; [now right|now right|now left].
Qed.

(** On a strictly ordered list the descending sort is the ascending
    sort read backwards. *)
Lemma rev_Array_sort (l : list A) :
  strictly_ordered asc desc l ->
  rev (Array_sort asc l) = Array_sort desc l.
Proof.
  induction l as [|x l IH]; intros Hl; simpl; [reflexivity|].
  assert (Hl' := strictly_ordered_tail _ _ Hl).
  rewrite <- IH by exact Hl'.
  apply rev_sort_insert.
  - now apply Array_sort_sorted.
  - intros y Hy. apply Array_sort_In in Hy.
    eapply strictly_ordered_head; eassumption.
  - intros a b Ha Hb. apply Array_sort_In in Ha, Hb.
    destruct Hl as (_ & Htr & _). apply Htr; [now right|now right|now left].
  - intros y Hy. apply Array_sort_In in Hy.
    destruct Hl as (_ & _ & Hop). apply Hop; [now left|now right].
Qed.

End Reverse.

End SortFacts.

Section SortExpensesFacts.
Context {host : Host}.

Lemma sortExpenses_Permutation (es : list Expense) (criteria order : string) :
  Permutation (sortExpenses es criteria order) es.
Proof. apply Array_sort_Permutation. Qed.

Lemma compare_amount_asc (a b : Expense) :
  compare_expenses "amount" "asc" a b = (amount a - amount b)%float.
Proof. reflexivity. Qed.

Lemma compare_amount_desc (a b : Expense) :
  compare_expenses "amount" "desc" a b = (- (amount a - amount b))%float.
Proof. reflexivity. Qed.

(** On finite amounts the comparator of [sortExpenses] follows the values. *)
Lemma sorts_behind_amount (a b : Expense) (va vb : Z) :
  JS.exact_value (amount a) = Some va ->
  JS.exact_value (amount b) = Some vb ->
  sorts_behind (compare_expenses "amount" "asc") a b = (vb <? va)
  /\ sorts_behind (compare_expenses "amount" "desc") a b = (va <? vb).
Proof.
  intros Ha Hb. unfold sorts_behind.
  rewrite compare_amount_asc, compare_amount_desc.
  now apply Binary64.sub_sign.
Qed.

Lemma value_of_amount (es : list Expense) :
  forall values,
    map (fun e => JS.exact_value (amount e)) es = map Some values ->
    forall a, In a es ->
              exists va, JS.exact_value (amount a) = Some va /\ In va values.
Proof.
  induction es as [|e es IH]; intros [|v values] Hv a Ha;
    simpl in Hv; try discriminate; [destruct Ha|].
  injection Hv as He Hv. destruct Ha as [<-|Ha].
  - exists v. split; [exact He|now left].
  - destruct (IH values Hv a Ha) as (va & Hva & Hin).
    exists va. split; [exact Hva|now right].
Qed.

(** Finite amounts of different values are strictly ordered by the
    comparator, and the other way round by its negation. *)
Lemma amounts_distinct_strictly_ordered (es : list Expense) :
  amounts_distinct es ->
  strictly_ordered (compare_expenses "amount" "asc")
                   (compare_expenses "amount" "desc") es.
Proof.
  intros (values & Hv & Hnd). split; [|split].
  - revert values Hv Hnd.
    induction es as [|a es IH]; intros [|va values] Hv Hnd;
      simpl in Hv; try discriminate; constructor.
    + injection Hv as Ha Hv. inversion Hnd as [|? ? Hni _]; subst.
      rewrite List.Forall_forall. intros b Hb.
      destruct (value_of_amount es values Hv b Hb) as (vb & Eb & Hvb).
      destruct (sorts_behind_amount a b va vb Ha Eb) as [H1 _].
      destruct (sorts_behind_amount b a vb va Eb Ha) as [H2 _].
      rewrite H1, H2.
      assert (va <> vb) by (intros ->; contradiction).
      destruct (Z.ltb_spec vb va), (Z.ltb_spec va vb); simpl; try reflexivity; lia.
    + injection Hv as _ Hv. inversion Hnd; subst. now apply (IH values).
  - intros a b c Ha Hb Hc.
    destruct (value_of_amount es values Hv a Ha) as (va & Ea & _).
    destruct (value_of_amount es values Hv b Hb) as (vb & Eb & _).
    destruct (value_of_amount es values Hv c Hc) as (vc & Ec & _).
    rewrite (proj1 (sorts_behind_amount a b va vb Ea Eb)).
    rewrite (proj1 (sorts_behind_amount b c vb vc Eb Ec)).
    rewrite (proj1 (sorts_behind_amount a c va vc Ea Ec)).
    rewrite !Z.ltb_lt. lia.
  - intros a b Ha Hb.
    destruct (value_of_amount es values Hv a Ha) as (va & Ea & _).
    destruct (value_of_amount es values Hv b Hb) as (vb & Eb & _).
    rewrite (proj2 (sorts_behind_amount a b va vb Ea Eb)).
    rewrite (proj1 (sorts_behind_amount b a vb va Eb Ea)).
    reflexivity.
Qed.

End SortExpensesFacts.

(** C2 (as amended): for every expense list, sort key and order,
    [sortExpenses] returns a permutation of its input, so the same multiset
    of ids; and for every expense list whose amounts are pairwise different
    finite numbers, sorting by amount ascending and reversing the result
    equals sorting by amount descending. *)
Theorem sortExpenses_permutation_reverse {host : Host} (es : list Expense) :
  (forall criteria order : string,
      Permutation (sortExpenses es criteria order) es
      /\ Permutation (map id (sortExpenses es criteria order)) (map id es))
  /\ (amounts_distinct es ->
      rev (sortExpenses es "amount" "asc") = sortExpenses es "amount" "desc").
Proof.
  split.
  - intros criteria order. split.
    + apply sortExpenses_Permutation.
    + apply Permutation_map, sortExpenses_Permutation.
  - intros Hd. unfold sortExpenses.
    now apply rev_Array_sort, amounts_distinct_strictly_ordered.
Qed.

Lemma sortExpenses_permutation_reverse_witness :
  let es := [Examples.taxi; Examples.bus; Examples.bread] in
  amounts_distinct es
  /\ rev (sortExpenses (host := ReferenceHost.utc) es "amount" "asc")
     = sortExpenses (host := ReferenceHost.utc) es "amount" "desc".
Proof.
  intros es.
  assert (Hd : amounts_distinct es).
  { exists (map (fun e => default 0 (JS.exact_value (amount e))) es).
    split; [vm_compute; reflexivity|].
    vm_compute. repeat constructor; simpl; intuition discriminate. }
  split; [exact Hd|].
  exact (proj2 (sortExpenses_permutation_reverse (host := ReferenceHost.utc) es) Hd).
Defined.

(** C2 as the specification states it fails: two expenses of the same
    amount keep their input order in both directions, so the reversed
    ascending sort differs from the descending sort. *)
Lemma sortExpenses_reverse_ties :
  rev (sortExpenses (host := ReferenceHost.utc)
         [Examples.lunch; Examples.movie] "amount" "asc")
  <> sortExpenses (host := ReferenceHost.utc)
       [Examples.lunch; Examples.movie] "amount" "desc".
Proof. vm_compute. discriminate. Qed.

(** ** Insights *)

Section InsightsFacts.

Lemma remaining_spec (es : list Expense) (income : float)
    (budgets0 : gmap string float) :
  remaining (getSpendingInsights es income budgets0)
  = (income - totalSpent (getSpendingInsights es income budgets0))%float.
Proof. reflexivity. Qed.






End InsightsFacts.



(** ** Monthly totals and groups *)

Section GroupFacts.
Import ObjFacts.

Lemma sum_amounts_snoc (es : list Expense) (e : Expense) :
  sum_amounts (es ++ [e]) = (sum_amounts es + amount e)%float.
Proof. unfold sum_amounts. now rewrite fold_left_app. Qed.

Lemma of_category_snoc (c : string) (es : list Expense) (e : Expense) :
  of_category c (es ++ [e])
  = of_category c es ++ (if String.eqb (category e) c then [e] else []).
Proof. unfold of_category. rewrite List.filter_app. reflexivity. Qed.

Lemma of_category_In (c : string) (es : list Expense) :
  of_category c es <> [] <-> exists e, In e es /\ category e = c.
Proof.
  unfold of_category. split.
  - intros Hne. destruct (List.filter _ es) as [|e l] eqn:E; [contradiction|].
    assert (Hin : In e (List.filter (fun e0 => String.eqb (category e0) c) es))
      by (rewrite E; now left).
    apply filter_In in Hin. destruct Hin as [Hin Hc].
    exists e. split; [exact Hin|]. now apply String.eqb_eq.
  - intros (e & Hin & Hc) E.
    assert (Hf : In e (List.filter (fun e0 => String.eqb (category e0) c) es)).
    { apply filter_In. split; [exact Hin|]. now apply String.eqb_eq. }
    rewrite E in Hf. destruct Hf.
Qed.

Lemma group_of_snoc_same (es : list Expense) (e : Expense) :
  group_of (category e) (es ++ [e])
  = Some (match group_of (category e) es with
          | Some g => mkGroup (total g + amount e)%float (count g + 1)
                              (items g ++ [e])
          | None => mkGroup (zero + amount e)%float (0 + 1) ([] ++ [e])
          end).
Proof.
  unfold group_of. rewrite of_category_snoc, String.eqb_refl.
  destruct (of_category (category e) es) as [|e0 l] eqn:E.
  - reflexivity.
  - cbn [app total count items].
    change (e0 :: l ++ [e]) with ((e0 :: l) ++ [e]).
    rewrite sum_amounts_snoc, length_app, Nat2Z.inj_add. reflexivity.
Qed.

Lemma group_of_snoc_other (c : string) (es : list Expense) (e : Expense) :
  category e <> c -> group_of c (es ++ [e]) = group_of c es.
Proof.
  intros Hne. unfold group_of. rewrite of_category_snoc.
  apply String.eqb_neq in Hne. rewrite Hne. now rewrite app_nil_r.
Qed.

Lemma all_items_set_absent (o : Obj.t CategoryGroup) (k : string)
    (g : CategoryGroup) :
  Obj.get o k = None -> all_items (Obj.set o k g) = all_items o ++ items g.
Proof.
  unfold all_items. induction o as [|[k0 v0] o IH]; simpl.
  - intros _. now rewrite app_nil_r.
  - destruct (String.eqb k0 k); [discriminate|].
    intros Hg. simpl. rewrite IH by exact Hg. now rewrite app_assoc.
Qed.

Lemma all_items_set_present (o : Obj.t CategoryGroup) (k : string)
    (g g' : CategoryGroup) :
  Obj.get o k = Some g ->
  Permutation (items g' ++ all_items o) (items g ++ all_items (Obj.set o k g')).
Proof.
  unfold all_items. induction o as [|[k0 v0] o IH]; simpl; [discriminate|].
  destruct (String.eqb k0 k).
  - intros [= ->]. simpl. apply Permutation_app_swap_app.
  - intros Hg. simpl. rewrite Permutation_app_swap_app.
    rewrite (IH Hg). apply Permutation_app_swap_app.
Qed.

Lemma grouped_step (o : Obj.t CategoryGroup) (es : list Expense) (e : Expense) :
  grouped o es -> grouped (add_to_category o e) (es ++ [e]).
Proof.
  intros (Hnd & Hget & Hperm). unfold add_to_category.
  destruct (Obj.get o (category e)) as [g|] eqn:Eg.
  - rewrite Eg. repeat split.
    + now apply NoDup_keys_set.
    + intros c. destruct (string_dec (category e) c) as [<-|Hne].
      * rewrite get_set_eq, group_of_snoc_same, <- Hget, Eg. reflexivity.
      * rewrite get_set_ne, group_of_snoc_other by exact Hne. apply Hget.
    + pose proof (all_items_set_present o (category e) g
                    (mkGroup (total g + amount e)%float (count g + 1)
                             (items g ++ [e])) Eg) as Hp.
      simpl in Hp. rewrite <- app_assoc in Hp.
      apply Permutation_app_inv_l in Hp. rewrite <- Hp.
      rewrite Hperm. simpl. apply Permutation_cons_append.
  - rewrite get_set_eq. repeat split.
    + now apply NoDup_keys_set, NoDup_keys_set.
    + intros c. destruct (string_dec (category e) c) as [<-|Hne].
      * rewrite get_set_eq, group_of_snoc_same, <- Hget, Eg. reflexivity.
      * rewrite !get_set_ne, group_of_snoc_other by exact Hne. apply Hget.
    + pose proof (all_items_set_present
                    (Obj.set o (category e) (mkGroup zero 0 []))
                    (category e) (mkGroup zero 0 [])
                    (mkGroup (zero + amount e)%float (0 + 1) ([] ++ [e]))
                    (get_set_eq _ _ _)) as Hp.
      simpl in Hp. rewrite <- Hp.
      rewrite all_items_set_absent by exact Eg. simpl.
      rewrite app_nil_r, Hperm. apply Permutation_cons_append.
Qed.

Lemma exact_sum_app (es1 es2 : list Expense) :
  exact_sum (es1 ++ es2) = exact_sum es1 + exact_sum es2.
Proof.
  unfold exact_sum. induction es1 as [|e es1 IH]; simpl; [reflexivity|].
  rewrite IH. lia.
Qed.

Lemma exact_sum_Permutation (es1 es2 : list Expense) :
  Permutation es1 es2 -> exact_sum es1 = exact_sum es2.
Proof.
  unfold exact_sum. induction 1; simpl; lia.
Qed.

(** Adding group by group is adding all items. *)
Lemma exact_sum_all_items (o : Obj.t CategoryGroup) :
  fold_right Z.add 0 (map (fun kv => exact_sum (items (snd kv))) o)
  = exact_sum (all_items o).
Proof.
  unfold all_items. induction o as [|[k g] o IH]; simpl; [reflexivity|].
  now rewrite exact_sum_app, IH.
Qed.

Lemma grouped_fold (es2 : list Expense) :
  forall o es1, grouped o es1 ->
                grouped (fold_left add_to_category es2 o) (es1 ++ es2).
Proof.
  induction es2 as [|e es2 IH]; intros o es1 Hg; simpl.
  - now rewrite app_nil_r.
  - change (e :: es2) with ([e] ++ es2). rewrite app_assoc.
    apply IH. now apply grouped_step.
Qed.

Lemma grouped_group_expenses (es : list Expense) :
  grouped (group_expenses es) es.
Proof.
  apply (grouped_fold es [] []).
  split; [constructor|]. split; [reflexivity|]. reflexivity.
Qed.

End GroupFacts.

(** C5 (as amended): for every document and every month token,
    [getTotalExpenses] is the sum of [amount] over [getExpensesForMonth],
    added from left to right; the keys of [getExpensesByCategory] are the
    categories that occur among those expenses, each once; the group of a
    key holds the month's expenses of that category in their order, its
    [total] is the left-to-right sum of their amounts and its [count] their
    number; and the items of all groups together are a permutation of the
    month's expenses, so that added without rounding the amounts of the
    groups give what the amounts of the month give.  The totals of the
    groups are thus sums over the same amounts as the month's total, taken
    in another order; as binary64 sums they need not be equal. *)
Theorem getExpensesByCategory_totals {host : Host} (state : State) (month0 : string) :
  let es := getExpensesForMonth state month0 in
  let byCategory := getExpensesByCategory state month0 in
  getTotalExpenses state month0 = sum_amounts es
  /\ List.NoDup (Obj.keys byCategory)
  /\ (forall c, In c (Obj.keys byCategory) <-> exists e, In e es /\ category e = c)
  /\ (forall c g, In (c, g) byCategory ->
        items g = of_category c es
        /\ total g = sum_amounts (items g)
        /\ count g = Z.of_nat (length (items g)))
  /\ Permutation (all_items byCategory) es
  /\ fold_right Z.add 0 (map (fun kv => exact_sum (items (snd kv))) byCategory)
     = exact_sum es.
Proof.
  intros es byCategory.
  destruct (grouped_group_expenses es) as (Hnd & Hget & Hperm).
  fold (getExpensesByCategory state month0) in Hnd, Hget, Hperm.
  fold byCategory in Hnd, Hget, Hperm.
  split; [reflexivity|]. split; [exact Hnd|].
  split; [|split; [|split; [exact Hperm|]]];
    [| |rewrite exact_sum_all_items; now apply exact_sum_Permutation].
  - intros c. rewrite <- of_category_In.
    destruct (in_dec string_dec c (Obj.keys byCategory)) as [Hin|Hni].
    + split; [|intros _; exact Hin]. intros _ E.
      apply ObjFacts.get_None_keys with (o := byCategory) (k := c); [|exact Hin].
      rewrite Hget. unfold group_of. now rewrite E.
    + split; [intros Hin; contradiction|]. intros Hne. exfalso.
      apply ObjFacts.get_None_keys in Hni. rewrite Hget in Hni.
      unfold group_of in Hni. destruct (of_category c es); [now apply Hne|discriminate].
  - intros c g Hin. apply ObjFacts.In_get in Hin; [|exact Hnd].
    rewrite Hget in Hin. unfold group_of in Hin.
    destruct (of_category c es) as [|e0 l]; [discriminate|].
    injection Hin as <-. simpl. repeat split.
Qed.

Lemma getExpensesByCategory_totals_witness :
  let food := mkGroup 0.2 1 [Examples.bread] in
  In ("Food", food)
     (getExpensesByCategory (host := ReferenceHost.utc) Examples.january "2024-01")
  /\ items food
     = of_category "Food"
         (getExpensesForMonth (host := ReferenceHost.utc) Examples.january "2024-01")
  /\ total food = sum_amounts (items food)
  /\ count food = Z.of_nat (length (items food)).
Proof.
  intros food.
  assert (Hin : In ("Food", food)
                   (getExpensesByCategory (host := ReferenceHost.utc)
                      Examples.january "2024-01")).
  { vm_compute. right. left. reflexivity. }
  split; [exact Hin|].
  exact (proj1 (proj2 (proj2 (proj2
           (getExpensesByCategory_totals (host := ReferenceHost.utc)
              Examples.january "2024-01")))) "Food" food Hin).
Defined.

(** C5 as the specification states it fails: with 0.1 and 2.2 spent on
    Transport and 0.2 on Food in January 2024, the group totals add up to
    2.5000000000000004 and the month's total is 2.5. *)
Lemma category_totals_differ_from_month_total :
  sum_category_totals
    (getExpensesByCategory (host := ReferenceHost.utc) Examples.january "2024-01")
  <> getTotalExpenses (host := ReferenceHost.utc) Examples.january "2024-01".
Proof. apply eqb_false_neq; vm_compute; reflexivity. Qed.

(** ** The spending trend *)

Section TrendFacts.
Context {host : Host}.

Lemma length_getSpendingTrend (now : Now) (state : State) (months : nat) :
  length (getSpendingTrend now state months) = months.
Proof.
  unfold getSpendingTrend. now rewrite length_map, length_rev, length_seq.
Qed.

(** From the year 100 on, [new Date(year, month - i, 1)] is the month
    [i] months before the month of the clock. *)
Lemma Date_year_month_back (year month0 i : Z) :
  100 <= year ->
  Date_year_month year (month0 - i)
  = ((month_number year month0 - i) / 12, (month_number year month0 - i) mod 12).
Proof.
  intros Hy. unfold Date_year_month, month_number.
  replace ((0 <=? year) && (year <=? 99)) with false
    by (symmetry; apply andb_false_iff; right; apply Z.leb_gt; lia).
  replace (12 * year + month0 - i) with (year * 12 + (month0 - i)) by lia.
  rewrite Z.div_add_l by lia.
  rewrite (Z.add_comm (year * 12)), Z.mod_add by lia.
  reflexivity.
Qed.

Lemma month_trend_entry (now : Now) (state : State) (i : nat) :
  100 <= now_fullYear now ->
  month (trend_entry now state i)
  = key_of_month_number
      (month_number (now_fullYear now) (now_month now) - Z.of_nat i).
Proof.
  intros Hy. unfold trend_entry.
  rewrite Date_year_month_back by exact Hy. reflexivity.
Qed.

Lemma total_trend_entry (now : Now) (state : State) (i : nat) :
  trend_total (trend_entry now state i)
  = getTotalExpenses state (month (trend_entry now state i)).
Proof.
  unfold trend_entry.
  destruct (Date_year_month (now_fullYear now) (now_month now - Z.of_nat i)).
  reflexivity.
Qed.

Lemma key_of_current_month (now : Now) :
  0 <= now_month now <= 11 ->
  key_of_month_number (month_number (now_fullYear now) (now_month now))
  = getCurrentMonth now.
Proof.
  intros Hm. unfold key_of_month_number, month_number, getCurrentMonth.
  replace (12 * now_fullYear now + now_month now)
    with (now_fullYear now * 12 + now_month now) by lia.
  rewrite Z.div_add_l by lia.
  rewrite (Z.add_comm (now_fullYear now * 12)), Z.mod_add by lia.
  rewrite Z.div_small, Z.mod_small by lia. now rewrite Z.add_0_r.
Qed.

Lemma padStart2_two_digits (m1 : Z) :
  1 <= m1 <= 12 -> JS.padStart2 (JS.integer_toString m1) = two_digits m1.
Proof.
  intros H.
  assert (m1 = 1 \/ m1 = 2 \/ m1 = 3 \/ m1 = 4 \/ m1 = 5 \/ m1 = 6 \/ m1 = 7
          \/ m1 = 8 \/ m1 = 9 \/ m1 = 10 \/ m1 = 11 \/ m1 = 12) as E by lia.
  repeat (destruct E as [->|E]; [reflexivity|]). now subst.
Qed.

Lemma monthKey_token (year month0 : Z) :
  0 <= month0 <= 11 -> monthKey year month0 = year_month_token year (month0 + 1).
Proof.
  intros H. unfold monthKey, year_month_token.
  now rewrite padStart2_two_digits by lia.
Qed.

End TrendFacts.

(** C6: for a clock that reads a year from 100 on and a month from 0 to 11,
    [getSpendingTrend] with 6 months returns exactly 6 entries; their months
    are the six consecutive calendar months that end with the month of the
    clock, oldest first, each written as its year, a hyphen and its month
    number in two digits; the month of the last entry is the year and the
    month of the clock, which is also what [getCurrentMonth] returns; and
    the total of every entry is [getTotalExpenses] for the month of that
    entry. *)
Theorem getSpendingTrend_six {host : Host} (now : Now) (state : State) :
  100 <= now_fullYear now ->
  0 <= now_month now <= 11 ->
  let trend := getSpendingTrend now state 6 in
  let n := 12 * now_fullYear now + now_month now in
  length trend = 6%nat
  /\ map month trend
     = map (fun k => year_month_token (k / 12) (k mod 12 + 1))
           [n - 5; n - 4; n - 3; n - 2; n - 1; n]
  /\ option_map month (last trend)
     = Some (year_month_token (now_fullYear now) (now_month now + 1))
  /\ getCurrentMonth now
     = year_month_token (now_fullYear now) (now_month now + 1)
  /\ Forall (fun entry =>
               trend_total entry = getTotalExpenses state (month entry)) trend.
Proof.
  intros Hy Hm trend n.
  assert (Hkey : forall i : nat,
             month (trend_entry now state i)
             = year_month_token ((n - Z.of_nat i) / 12)
                                ((n - Z.of_nat i) mod 12 + 1)).
  { intros i. rewrite month_trend_entry by exact Hy.
    unfold key_of_month_number, month_number. fold n.
    apply monthKey_token.
    pose proof (Z.mod_pos_bound (n - Z.of_nat i) 12). lia. }
  split; [|split; [|split; [|split]]].
  - apply length_getSpendingTrend.
  - unfold trend, getSpendingTrend.
    change (rev (seq 0 6)) with [5; 4; 3; 2; 1; 0]%nat.
    rewrite map_map. cbn [map]. rewrite !Hkey.
    change (Z.of_nat 0) with 0. rewrite Z.sub_0_r. reflexivity.
  - unfold trend, getSpendingTrend.
    change (rev (seq 0 6)) with ([5; 4; 3; 2; 1]%nat ++ [0%nat]).
    rewrite map_app. cbn [map]. rewrite last_snoc. cbn [option_map].
    rewrite Hkey. change (Z.of_nat 0) with 0. rewrite Z.sub_0_r.
    unfold n. replace (12 * now_fullYear now + now_month now)
      with (now_fullYear now * 12 + now_month now) by lia.
    rewrite Z.div_add_l by lia.
    rewrite (Z.add_comm (now_fullYear now * 12)), Z.mod_add by lia.
    rewrite Z.div_small, Z.mod_small by lia. now rewrite Z.add_0_r.
  - apply monthKey_token. exact Hm.
  - unfold trend, getSpendingTrend. apply Forall_map, Forall_forall.
    intros i _. apply total_trend_entry.
Qed.

(** On 5 January 2024 the six months are August 2023 to January 2024. *)
Lemma getSpendingTrend_six_witness :
  100 <= now_fullYear Examples.now0
  /\ 0 <= now_month Examples.now0 <= 11
  /\ map month (getSpendingTrend (host := ReferenceHost.utc) Examples.now0
                  Examples.january 6)
     = ["2023-08"; "2023-09"; "2023-10"; "2023-11"; "2023-12"; "2024-01"]
  /\ map trend_total (getSpendingTrend (host := ReferenceHost.utc) Examples.now0
                        Examples.january 6)
     = [0; 0; 0; 0; 0; 2.5]%float.
Proof.
  assert (Hy : 100 <= now_fullYear Examples.now0) by (simpl; lia).
  assert (Hm : 0 <= now_month Examples.now0 <= 11) by (simpl; lia).
  split; [exact Hy|]. split; [exact Hm|]. split.
  - rewrite (proj1 (proj2 (getSpendingTrend_six (host := ReferenceHost.utc)
                             Examples.now0 Examples.january Hy Hm))).
    vm_compute. reflexivity.
  - vm_compute. reflexivity.
Defined.

(** ** CSV export *)

Section CsvFacts.
Context {host : Host}.

Lemma append_assoc (a b c : string) : (a +:+ b) +:+ c = a +:+ (b +:+ c).
Proof.
  induction a as [|ch a IH]; [reflexivity|].
  change (String ch ((a +:+ b) +:+ c) = String ch (a +:+ (b +:+ c))).
  f_equal. exact IH.
Qed.

Lemma join_csv_row (expense : Expense) :
  JS.join "," (csv_row expense) = csv_line expense.
Proof.
  unfold csv_row, csv_line. cbn [JS.join].
  rewrite !append_assoc.
  destruct (notes expense) as [[|c s]|]; reflexivity.
Qed.

Lemma nearest_hundredths_nonneg (x : float) : 0 <= nearest_hundredths x.
Proof.
  unfold nearest_hundredths. destruct (Prim2SF x) as [| | |s m e]; try lia.
  destruct (0 <=? e).
  - assert (0 <= 2 ^ e) by (apply Z.pow_nonneg; lia). nia.
  - assert (0 <= 2 ^ (- e)) by (apply Z.pow_nonneg; lia).
    destruct (Z.eq_dec (2 ^ (- e)) 0) as [E|E].
    + rewrite E. simpl. rewrite Z.div_0_r. lia.
    + apply Z.div_pos; lia.
Qed.

Lemma nearest_hundredths_magnitude (x : float) :
  nearest_hundredths (magnitude x) = nearest_hundredths x.
Proof.
  unfold magnitude. destruct (x <? 0)%float; [|reflexivity].
  unfold nearest_hundredths. rewrite opp_spec.
  now destruct (Prim2SF x).
Qed.

Lemma nearest_hundredths_nearest (x : float) (v : Z) :
  JS.exact_value x = Some v -> nearest_hundredth v (nearest_hundredths x).
Proof.
  unfold JS.exact_value, nearest_hundredth. intros Hv.
  split; [apply nearest_hundredths_nonneg|].
  unfold nearest_hundredths. pose proof (Prim2SF_valid x) as Hvalid.
  assert (Hpow : 0 < 2 ^ 1074) by (apply Z.pow_pos_nonneg; lia).
  destruct (Prim2SF x) as [s|s| |s m e]; try discriminate.
  - injection Hv as <-. simpl Z.abs. lia.
  - injection Hv as <-. apply Binary64.valid_exponent in Hvalid.
    assert (Habs : Z.abs (cond_Zopp s (Z.pos m * 2 ^ (e + 1074)))
                   = Z.pos m * 2 ^ (e + 1074)).
    { assert (0 < 2 ^ (e + 1074)) by (apply Z.pow_pos_nonneg; lia).
      destruct s; simpl; lia. }
    rewrite Habs. destruct (Z.leb_spec 0 e) as [He|He].
    + rewrite Z.pow_add_r by lia. nia.
    + set (p := 2 ^ (- e)). set (q := 2 ^ (e + 1074)).
      assert (Hp : 0 < p) by (apply Z.pow_pos_nonneg; lia).
      assert (Hq : 0 < q) by (apply Z.pow_pos_nonneg; lia).
      assert (Hpq : p * q = 2 ^ 1074).
      { unfold p, q. rewrite <- Z.pow_add_r by lia. f_equal. lia. }
      set (n := (2 * (Z.pos m * 100) + p) / (2 * p)).
      pose proof (Z.div_mod (2 * (Z.pos m * 100) + p) (2 * p)) as Hdm.
      pose proof (Z.mod_pos_bound (2 * (Z.pos m * 100) + p) (2 * p)) as Hmod.
      fold n in Hdm.
      set (r := (2 * (Z.pos m * 100) + p) mod (2 * p)) in *.
      assert (Hd : 2 * (Z.pos m * 100) = 2 * p * n + r - p) by lia.
      assert (Hr : 0 <= r < 2 * p) by lia.
      rewrite <- Hpq.
      replace (2 * (100 * (Z.pos m * q) - n * (p * q)))
        with ((2 * (Z.pos m * 100) - 2 * p * n) * q) by ring.
      rewrite Hd. replace (2 * p * n + r - p - 2 * p * n) with (r - p) by ring.
      nia.
Qed.

Lemma ltb_zero_value (x : float) (v : Z) :
  JS.exact_value x = Some v -> (x <? 0)%float = (v <? 0).
Proof.
  unfold JS.exact_value. rewrite FloatAxioms.ltb_spec.
  change (Prim2SF 0) with (S754_zero false).
  pose proof (Prim2SF_valid x) as Hvalid.
  destruct (Prim2SF x) as [s|s| |s m e]; try discriminate; intros [= <-].
  - now destruct s.
  - apply Binary64.valid_exponent in Hvalid.
    assert (0 < 2 ^ (e + 1074)) by (apply Z.pow_pos_nonneg; lia).
    destruct s; simpl; symmetry; [apply Z.ltb_lt|apply Z.ltb_ge]; nia.
Qed.

(** In fixed notation [toFixed(2)] prints the nearest hundredth. *)
Lemma toFixed2_nearest (x : float) (v : Z) :
  JS.exact_value x = Some v ->
  fixed_notation x = true ->
  exists n,
    nearest_hundredth v n
    /\ toFixed2 x
       = (if v <? 0 then "-" else "") +:+ JS.integer_toString (n / 100) +:+ "."
           +:+ Chars.digit ((n / 10) mod 10) +:+ Chars.digit (n mod 10).
Proof.
  intros Hv Hf. exists (nearest_hundredths x).
  split; [now apply nearest_hundredths_nearest|].
  unfold fixed_notation in Hf. apply andb_true_iff in Hf.
  destruct Hf as [Hn Hb]. apply negb_true_iff in Hn, Hb.
  unfold toFixed2. rewrite Hn, Hb, nearest_hundredths_magnitude.
  now rewrite (ltb_zero_value x v Hv).
Qed.

Lemma toFixed2_nan (x : float) : is_nan x = true -> toFixed2 x = "NaN".
Proof. intros H. unfold toFixed2. now rewrite H. Qed.

End CsvFacts.

(** C7 (as amended): [generateExpensesCSV] gives the header row
    [Date,Name,Category,Amount,Notes] followed by one row per expense in
    input order, rows joined by newlines; in a row the name and the notes
    are wrapped in double quotes and absent notes are the empty string;
    the amount is printed by [toFixed(2)]: for an amount that is a finite
    number below 10^21 in magnitude this is a minus sign when the amount is
    negative, then the multiple of 0.01 nearest to its magnitude, written
    with a point and exactly two digits after it, and for an amount that is
    [NaN] it is the text [NaN]; the single expense Coffee, Food, 3.5 of
    2024-01-05 with empty notes gives exactly the two lines of the
    specification. *)
Theorem generateExpensesCSV_spec {host : Host} :
  (forall es,
      generateExpensesCSV es
      = JS.join Chars.newline
          ("Date,Name,Category,Amount,Notes" :: map csv_line es))
  /\ (forall i n c a d ca,
        csv_line (mkExpense i n c a d None ca)
        = csv_line (mkExpense i n c a d (Some "") ca))
  /\ (forall e v,
        JS.exact_value (amount e) = Some v ->
        fixed_notation (amount e) = true ->
        exists n,
          nearest_hundredth v n
          /\ toFixed2 (amount e)
             = (if v <? 0 then "-" else "") +:+ JS.integer_toString (n / 100)
                 +:+ "." +:+ Chars.digit ((n / 10) mod 10)
                 +:+ Chars.digit (n mod 10))
  /\ (forall e, is_nan (amount e) = true -> toFixed2 (amount e) = "NaN")
  /\ generateExpensesCSV [Examples.coffee]
     = "Date,Name,Category,Amount,Notes" +:+ Chars.newline
         +:+ "2024-01-05," +:+ Chars.quote +:+ "Coffee" +:+ Chars.quote
         +:+ ",Food,3.50," +:+ Chars.quote +:+ Chars.quote.
Proof.
  split; [|split; [|split; [|split]]].
  - intros es. unfold generateExpensesCSV. f_equal. f_equal.
    rewrite map_map. apply map_ext. intros e. apply join_csv_row.
  - reflexivity.
  - intros e v. apply toFixed2_nearest.
  - intros e. apply toFixed2_nan.
  - vm_compute. reflexivity.
Qed.

(** The amount 3.5 is 7 * 2^1073 units; it prints as 3.50. *)
Lemma generateExpensesCSV_spec_witness :
  JS.exact_value (amount Examples.coffee) = Some (7 * 2 ^ 1073)
  /\ fixed_notation (amount Examples.coffee) = true
  /\ (exists n,
         nearest_hundredth (7 * 2 ^ 1073) n
         /\ toFixed2 (host := ReferenceHost.utc) (amount Examples.coffee)
            = "" +:+ JS.integer_toString (n / 100) +:+ "."
                +:+ Chars.digit ((n / 10) mod 10) +:+ Chars.digit (n mod 10))
  /\ toFixed2 (host := ReferenceHost.utc) (amount Examples.coffee) = "3.50".
Proof.
  assert (Hv : JS.exact_value (amount Examples.coffee) = Some (7 * 2 ^ 1073))
    by (vm_compute; reflexivity).
  assert (Hf : fixed_notation (amount Examples.coffee) = true) by reflexivity.
  split; [exact Hv|]. split; [exact Hf|]. split; [|vm_compute; reflexivity].
  exact (proj1 (proj2 (proj2 (generateExpensesCSV_spec (host := ReferenceHost.utc))))
           Examples.coffee _ Hv Hf).
Defined.

(** The form accepts the amount "abc" and stores [NaN]; the row of that
    expense has [NaN] in the amount column, not a number with two
    decimals. *)
Lemma generateExpensesCSV_nan_amount :
  expenses (fst (handleAddExpense (host := ReferenceHost.utc) Examples.now0
                   (defaultState Examples.now0)
                   (mkForm "Tea" "Food" "abc" "2024-01-01" None)))
  = [MoreExamples.tea]
  /\ generateExpensesCSV (host := ReferenceHost.utc) [MoreExamples.tea]
     = "Date,Name,Category,Amount,Notes" +:+ Chars.newline
         +:+ "2024-01-01," +:+ Chars.quote +:+ "Tea" +:+ Chars.quote
         +:+ ",Food,NaN," +:+ Chars.quote +:+ Chars.quote.
Proof. split; vm_compute; reflexivity. Qed.

(** ** Validation *)

Section ValidateFacts.
Context {host : Host}.

(** The four tests are made one after the other, none depends on the
    outcome of another, and every failure leaves its message. *)
Lemma validateExpense_reports_all (expense : Draft) :
  errors (validateExpense expense)
  = (if name_missing expense then ["Expense name is required"] else [])
      ++ (if category_missing expense then ["Category is required"] else [])
      ++ (if amount_rejected expense then ["Amount must be greater than 0"]
          else [])
      ++ (if date_missing expense then ["Date is required"] else [])
  /\ isValid (validateExpense expense)
     = negb (name_missing expense) && negb (category_missing expense)
       && negb (amount_rejected expense) && negb (date_missing expense).
Proof.
  unfold validateExpense, push_if.
  destruct (name_missing expense), (category_missing expense),
    (amount_rejected expense), (date_missing expense); split; reflexivity.
Qed.

Lemma validateExpense_nameless :
  validateExpense Examples.nameless_draft
  = {| isValid := false; errors := ["Expense name is required"] |}.
Proof. vm_compute. reflexivity. Qed.

Lemma is_nan_Prim2SF (x : float) : is_nan x = false -> Prim2SF x <> S754_nan.
Proof.
  unfold is_nan. rewrite FloatAxioms.eqb_spec. intros Hn E.
  rewrite E in Hn. discriminate.
Qed.

(** On a number, "not at most 0" is "greater than 0". *)
Lemma leb_zero_ltb (x : float) :
  is_nan x = false -> (x <=? 0)%float = negb (0 <? x)%float.
Proof.
  intros Hn. apply is_nan_Prim2SF in Hn.
  rewrite FloatAxioms.leb_spec, FloatAxioms.ltb_spec.
  change (Prim2SF 0) with (S754_zero false).
  destruct (Prim2SF x) as [s|s| |s m e]; try contradiction;
    try destruct s; reflexivity.
Qed.

(** When the amount parses to a number, the third test passes exactly the
    amounts that are present and greater than 0. *)
Lemma amount_rejected_number (expense : Draft) :
  is_nan (parseFloat (d_amount expense)) = false ->
  amount_rejected expense
  = negb (JS.truthy (d_amount expense)
          && (0 <? parseFloat (d_amount expense))%float).
Proof.
  intros Hn. unfold amount_rejected. rewrite leb_zero_ltb by exact Hn.
  now rewrite negb_andb.
Qed.

Lemma is_nan_true_Prim2SF (x : float) : is_nan x = true -> Prim2SF x = S754_nan.
Proof.
  unfold is_nan. rewrite FloatAxioms.eqb_spec. intros Hn.
  destruct (Prim2SF x) as [s|s| |s m e]; try reflexivity; exfalso.
  - destruct s; discriminate.
  - destruct s; discriminate.
  - unfold SFeqb, SFcompare in Hn.
    destruct s; rewrite Z.compare_refl, Pos.compare_cont_refl in Hn; discriminate.
Qed.

(** On every host, an amount that is present and parses to [NaN] passes
    the third test. *)
Lemma amount_rejected_nan (expense : Draft) :
  JS.truthy (d_amount expense) = true ->
  is_nan (parseFloat (d_amount expense)) = true ->
  amount_rejected expense = false.
Proof.
  intros Ht Hn. unfold amount_rejected. rewrite Ht. simpl.
  rewrite FloatAxioms.leb_spec, (is_nan_true_Prim2SF _ Hn). reflexivity.
Qed.

End ValidateFacts.

(** C8 (the program departs from the specification): the draft Tea, Food,
    amount "abc", dated 2024-01-01 has an amount that is not greater than
    0, and [validateExpense] accepts it without any message, because "abc"
    parses to [NaN] and [NaN <= 0] is false. *)
Theorem validateExpense_accepts_non_numeric_amount :
  is_nan (parseFloat (host := ReferenceHost.utc) (d_amount Examples.tea_draft))
  = true
  /\ (0 <? parseFloat (host := ReferenceHost.utc) (d_amount Examples.tea_draft))%float
     = false
  /\ amount_rejected (host := ReferenceHost.utc) Examples.tea_draft = false
  /\ validateExpense (host := ReferenceHost.utc) Examples.tea_draft
     = {| isValid := true; errors := [] |}.
Proof.
  assert (Hn : is_nan (parseFloat (host := ReferenceHost.utc)
                         (d_amount Examples.tea_draft)) = true) by reflexivity.
  split; [exact Hn|]. split; [reflexivity|]. split.
  - apply amount_rejected_nan; [reflexivity|exact Hn].
  - vm_compute. reflexivity.
Qed.

(** ** Expenses of a month *)

Section MonthFacts.
Context {host : Host}.

Lemma getFullYear_invalid (t : float) : is_nan t = true -> getFullYear t = nan.
Proof. intros Hn. unfold getFullYear. now rewrite Hn. Qed.

(** An invalid date is in no month. *)
Lemma in_month_invalid (year monthNum : option float) (expense : Expense) :
  is_nan (Date_parse (date expense)) = true ->
  in_month year monthNum expense = false.
Proof.
  intros Hn. unfold in_month. rewrite getFullYear_invalid by exact Hn.
  destruct year as [y|]; simpl; [|reflexivity].
  unfold JS.strict_eq. now rewrite eqb_nan_l.
Qed.

Lemma in_month_spec (month0 : string) (expense : Expense) :
  in_month (fst (month_parts month0)) (snd (month_parts month0)) expense = true
  <-> exists year monthNum,
        month_parts month0 = (Some year, Some monthNum)
        /\ JS.strict_eq (getFullYear (Date_parse (date expense))) year = true
        /\ JS.strict_eq (getMonth (Date_parse (date expense)) + 1)%float monthNum
           = true.
Proof.
  unfold in_month. destruct (month_parts month0) as [[y|] [m|]]; simpl.
  - rewrite andb_true_iff. split.
    + intros [Hy Hm]. now exists y, m.
    + intros (y' & m' & [= <- <-] & Hy & Hm). now split.
  - rewrite andb_false_r. split; [discriminate|].
    intros (y' & m' & E & _). discriminate.
  - split; [discriminate|]. intros (y' & m' & E & _). discriminate.
  - split; [discriminate|]. intros (y' & m' & E & _). discriminate.
Qed.

Lemma getExpensesForMonth_filter (state : State) (month0 : string) :
  getExpensesForMonth state month0
  = List.filter (in_month (fst (month_parts month0)) (snd (month_parts month0)))
                (expenses state).
Proof.
  unfold getExpensesForMonth. now destruct (month_parts month0).
Qed.

End MonthFacts.

(** ** Currency *)

(** C10: [formatCurrency] formats the absolute value of the amount, which
    is never negative, after the currency symbol; so an amount and its
    negation are formatted alike, for every currency code. *)
Theorem formatCurrency_discards_sign {host : Host} (x : float) (c : string) :
  formatCurrency x c = formatCurrency (- x) c
  /\ (exists symbol, formatCurrency x c = symbol +:+ toLocaleString_en_US_2 (abs x))
  /\ (abs x <? 0)%float = false.
Proof.
  unfold formatCurrency. rewrite abs_opp. split; [reflexivity|].
  split; [eexists; reflexivity|]. apply abs_not_negative.
Qed.

(** On the reference host: [-1234.5] in JMD reads like [1234.5]. *)
Lemma formatCurrency_negative_example :
  formatCurrency (host := ReferenceHost.utc) (-1234.5) "JMD" = "J$1,234.50"
  /\ formatCurrency (host := ReferenceHost.utc) 1234.5 "JMD" = "J$1,234.50".
Proof. split; vm_compute; reflexivity. Qed.

(** * Further properties of the store ([js/data.js]) *)

Section StoreMore.
Context {host : Host}.

Lemma set_expenses_same (state : State) : set_expenses state (expenses state) = state.
Proof. now destruct state. Qed.

Lemma filter_all {A : Type} (f : A -> bool) (l : list A) :
  List.filter f l = l <-> Forall (fun x => f x = true) l.
Proof.
  split.
  - intros E. rewrite List.Forall_forall. intros x Hx.
    rewrite <- E in Hx. now apply filter_In in Hx.
  - induction 1 as [|x l Hx _ IH]; simpl; [reflexivity|].
    now rewrite Hx, IH.
Qed.

Lemma sublist_List_filter {A : Type} (f : A -> bool) (l : list A) :
  sublist (List.filter f l) l.
Proof.
  induction l as [|x l IH]; simpl; [constructor|].
  destruct (f x); now constructor.
Qed.

Lemma filter_filter_same {A : Type} (f : A -> bool) (l : list A) :
  List.filter f (List.filter f l) = List.filter f l.
Proof.
  apply filter_all, List.Forall_forall. intros x Hx.
  now apply filter_In in Hx.
Qed.

Lemma filter_comm {A : Type} (f g : A -> bool) (l : list A) :
  List.filter f (List.filter g l) = List.filter g (List.filter f l).
Proof.
  induction l as [|x l IH]; simpl; [reflexivity|].
  destruct (f x) eqn:Ef, (g x) eqn:Eg; simpl; rewrite ?Ef, ?Eg, IH; reflexivity.
Qed.

Lemma filter_split_Permutation {A : Type} (f : A -> bool) (l : list A) :
  Permutation (List.filter f l ++ List.filter (fun x => negb (f x)) l) l.
Proof.
  induction l as [|x l IH]; simpl; [constructor|].
  destruct (f x); simpl.
  - now constructor.
  - symmetry. apply Permutation_cons_app. now symmetry.
Qed.

Lemma expenses_set_expenses (state : State) (es : list Expense) :
  expenses (set_expenses state es) = es.
Proof. reflexivity. Qed.

Lemma length_update_first (es : list Expense) (id0 : Z) (updates : Updates) :
  length (update_first es id0 updates) = length es.
Proof.
  induction es as [|e es IH]; simpl; [reflexivity|].
  destruct (id e =? id0); simpl; [reflexivity|now rewrite IH].
Qed.

Lemma update_first_absent (es : list Expense) (id0 : Z) (updates : Updates) :
  Forall (fun e => id e <> id0) es -> update_first es id0 updates = es.
Proof.
  induction 1 as [|e es He _ IH]; simpl; [reflexivity|].
  apply Z.eqb_neq in He. now rewrite He, IH.
Qed.

Lemma update_first_at (before after : list Expense) (e : Expense) (id0 : Z)
    (updates : Updates) :
  Forall (fun e' => id e' <> id0) before -> id e = id0 ->
  update_first (before ++ e :: after) id0 updates
  = before ++ merge_updates e updates :: after.
Proof.
  intros Hb He. induction Hb as [|b before Hb _ IH]; simpl.
  - apply Z.eqb_eq in He. now rewrite He.
  - apply Z.eqb_neq in Hb. now rewrite Hb, IH.
Qed.

Lemma ids_update_first (es : list Expense) (id0 : Z) (updates : Updates) :
  u_id updates = None ->
  map id (update_first es id0 updates) = map id es.
Proof.
  intros Hu. induction es as [|e es IH]; simpl; [reflexivity|].
  destruct (id e =? id0); simpl; [|now rewrite IH].
  now rewrite Hu.
Qed.

Lemma NoDup_map_filter {A B : Type} (f : A -> B) (p : A -> bool) (l : list A) :
  List.NoDup (map f l) -> List.NoDup (map f (List.filter p l)).
Proof.
  induction l as [|x l IH]; simpl; intros Hnd; [constructor|].
  inversion Hnd as [|? ? Hni Hnd']; subst.
  destruct (p x); simpl; [|now apply IH].
  constructor; [|now apply IH].
  intros Hin. apply Hni. apply in_map_iff in Hin.
  destruct Hin as (y & Ey & Hy). apply filter_In in Hy.
  apply in_map_iff. exists y. tauto.
Qed.

(** A month token without a second part names no month. *)
Lemma in_month_no_month (year : option float) (expense : Expense) :
  in_month year None expense = false.
Proof. unfold in_month. simpl. apply andb_false_r. Qed.

Lemma split_no_separator (sep : ascii) (s : string) :
  Text.includes s (String sep EmptyString) = false -> JS.split sep s = [s].
Proof.
  induction s as [|c s IH]; simpl; [reflexivity|].
  intros H. apply orb_false_elim in H. destruct H as [H1 H2].
  assert (E : Ascii.eqb c sep = false).
  { destruct (Ascii.eqb c sep); [|reflexivity].
    simpl in H1. now destruct s. }
  rewrite E, (IH H2). reflexivity.
Qed.

Lemma month_parts_no_separator (month0 : string) :
  Text.includes month0 "-" = false -> snd (month_parts month0) = None.
Proof.
  intros H. unfold month_parts. now rewrite (split_no_separator "-" month0 H).
Qed.

End StoreMore.

(** X1: [deleteExpense] removes every expense that has the id and nothing
    else: the expenses left are those of another id, in their order; the
    budgets are untouched; the document is unchanged exactly when no
    expense has the id; deleting again changes nothing, and two deletions
    can be made in either order. *)
Theorem deleteExpense_spec (state : State) (id0 : Z) :
  (forall e, In e (expenses (deleteExpense state id0))
             <-> In e (expenses state) /\ id e <> id0)
  /\ sublist (expenses (deleteExpense state id0)) (expenses state)
  /\ budgets (deleteExpense state id0) = budgets state
  /\ (deleteExpense state id0 = state
      <-> Forall (fun e => id e <> id0) (expenses state))
  /\ deleteExpense (deleteExpense state id0) id0 = deleteExpense state id0
  /\ (forall id1, deleteExpense (deleteExpense state id0) id1
                  = deleteExpense (deleteExpense state id1) id0).
Proof.
  unfold deleteExpense. simpl.
  split; [|split; [|split; [|split; [|split]]]].
  - intros e. rewrite filter_In, negb_true_iff, Z.eqb_neq. reflexivity.
  - apply sublist_List_filter.
  - reflexivity.
  - split.
    + intros E. apply (f_equal expenses) in E. simpl in E.
      apply filter_all in E. eapply List.Forall_impl; [|exact E].
      intros e He. now apply negb_true_iff, Z.eqb_neq in He.
    + intros H. rewrite (proj2 (filter_all _ _)); [apply set_expenses_same|].
      eapply List.Forall_impl; [|exact H].
      intros e He. now apply negb_true_iff, Z.eqb_neq.
  - unfold set_expenses. simpl. now rewrite filter_filter_same.
  - intros id1. unfold set_expenses. simpl. now rewrite filter_comm.
Qed.

(** X2: [updateExpense] changes the first expense that has the id and
    no other: in that expense every field the updates carry takes the
    value of the updates and every other field keeps its value; the later
    expenses are left as they are even when they have the same id, the
    number of expenses and the budgets stay, and when no expense has the
    id the document comes back unchanged. *)
Theorem updateExpense_spec (state : State) (id0 : Z)
    (updates : Updates) :
  length (expenses (updateExpense state id0 updates)) = length (expenses state)
  /\ budgets (updateExpense state id0 updates) = budgets state
  /\ (forall before e after,
        expenses state = before ++ e :: after ->
        Forall (fun e' => id e' <> id0) before ->
        id e = id0 ->
        expenses (updateExpense state id0 updates)
        = before
            ++ {| id := default (id e) (u_id updates);
                  name := default (name e) (u_name updates);
                  category := default (category e) (u_category updates);
                  amount := default (amount e) (u_amount updates);
                  date := default (date e) (u_date updates);
                  notes := default (notes e) (u_notes updates);
                  createdAt := default (createdAt e) (u_createdAt updates) |}
            :: after)
  /\ (Forall (fun e => id e <> id0) (expenses state) ->
      updateExpense state id0 updates = state).
Proof.
  unfold updateExpense. simpl.
  split; [apply length_update_first|]. split; [reflexivity|]. split.
  - intros before e after E Hb He. rewrite E. now apply update_first_at.
  - intros H. rewrite update_first_absent by exact H. apply set_expenses_same.
Qed.

(** Bread, the first expense of id 2, is renamed; Butter, the second
    expense of id 2, is left alone. *)
Lemma updateExpense_spec_witness :
  expenses (updateExpense MoreExamples.twins 2
              (MoreExamples.rename "Rolls"))
  = [Examples.bus;
     mkExpense 2 "Rolls" "Food" 0.2 "2024-01-04" (Some "") "";
     mkExpense 2 "Butter" "Food" 4 "2024-01-04" (Some "") ""].
Proof.
  apply (proj1 (proj2 (proj2 (updateExpense_spec
                                 MoreExamples.twins 2 (MoreExamples.rename "Rolls"))))
           [Examples.bus] Examples.bread
           [mkExpense 2 "Butter" "Food" 4 "2024-01-04" (Some "") ""]).
  - reflexivity.
  - repeat constructor. simpl. lia.
  - reflexivity.
Defined.

(** X3: after [clearMonthExpenses] the month has no expense and its total
    is 0; the expenses removed are those [getExpensesForMonth] lists for the
    month and the others all stay, so both together are the expenses of
    the document; the budgets stay; and for any other token the month's
    list loses exactly the expenses that were also in the cleared
    month. *)
Theorem clearMonthExpenses_spec {host : Host} (state : State) (month0 : string) :
  let cleared := clearMonthExpenses state month0 in
  getExpensesForMonth cleared month0 = []
  /\ getTotalExpenses cleared month0 = zero
  /\ Permutation (getExpensesForMonth state month0 ++ expenses cleared)
                 (expenses state)
  /\ budgets cleared = budgets state
  /\ (forall month1 e,
        In e (getExpensesForMonth cleared month1)
        <-> In e (getExpensesForMonth state month1)
            /\ ~ In e (getExpensesForMonth state month0)).
Proof.
  assert (Hempty : getExpensesForMonth (clearMonthExpenses state month0) month0 = []).
  { unfold getExpensesForMonth, clearMonthExpenses.
    destruct (month_parts month0) as [year monthNum]. simpl.
    induction (expenses state) as [|e es IH]; simpl; [reflexivity|].
    destruct (in_month year monthNum e) eqn:E; simpl; [exact IH|].
    now rewrite E. }
  intros cleared. split; [exact Hempty|].
  split; [unfold getTotalExpenses; subst cleared; now rewrite Hempty|].
  subst cleared. unfold getExpensesForMonth, clearMonthExpenses.
  destruct (month_parts month0) as [year monthNum]. simpl.
  split; [apply filter_split_Permutation|].
  split; [reflexivity|].
  intros month1 e. destruct (month_parts month1) as [year1 monthNum1].
  rewrite !filter_In. split.
  - intros [[H1 H2] H3]. split; [tauto|]. intros [_ H4].
    rewrite H4 in H2. discriminate.
  - intros [[H1 H2] H3]. split; [|exact H2]. split; [exact H1|].
    destruct (in_month year monthNum e); [|reflexivity]. exfalso. tauto.
Qed.

(** X4: a month token without a hyphen names no month: its list of
    expenses is empty and its total 0 whatever the document holds, and
    clearing it removes nothing. *)
Theorem month_token_without_hyphen {host : Host} (state : State) (month0 : string) :
  Text.includes month0 "-" = false ->
  getExpensesForMonth state month0 = []
  /\ getTotalExpenses state month0 = zero
  /\ clearMonthExpenses state month0 = state.
Proof.
  intros H. apply month_parts_no_separator in H.
  assert (E : getExpensesForMonth state month0 = []).
  { unfold getExpensesForMonth. destruct (month_parts month0) as [y m].
    simpl in H. subst m. induction (expenses state) as [|e es IH]; simpl;
      [reflexivity|]. now rewrite in_month_no_month. }
  split; [exact E|]. split; [unfold getTotalExpenses; now rewrite E|].
  unfold clearMonthExpenses. destruct (month_parts month0) as [y m].
  simpl in H. subst m.
  rewrite (proj2 (filter_all _ _)); [apply set_expenses_same|].
  apply List.Forall_forall. intros e _. now rewrite in_month_no_month.
Qed.

Lemma month_token_without_hyphen_witness :
  Text.includes "202401" "-" = false
  /\ getExpensesForMonth (host := ReferenceHost.utc) Examples.january "202401" = []
  /\ expenses Examples.january <> [].
Proof.
  assert (H : Text.includes "202401" "-" = false) by reflexivity.
  split; [exact H|]. split; [|discriminate].
  exact (proj1 (month_token_without_hyphen (host := ReferenceHost.utc)
                  Examples.january "202401" H)).
Defined.

(** X5: after [updateBudget] the budget of the category is the number
    [parseFloat] reads from the amount, whatever it was before, and [NaN]
    when the amount is no number; every other budget and every expense is
    as before; of two updates of one category the later one counts, and
    updates of different categories can be made in either order. *)
Theorem updateBudget_lookup {host : Host} (state : State) (category0 : string)
    (amount0 : JS.value) :
  budgets (updateBudget state category0 amount0) !! category0
  = Some (parseFloat amount0)
  /\ budgets (updateBudget state category0 JS.Undefined) !! category0 = Some nan
  /\ (forall c, c <> category0 ->
        budgets (updateBudget state category0 amount0) !! c = budgets state !! c)
  /\ expenses (updateBudget state category0 amount0) = expenses state
  /\ (forall amount1,
        updateBudget (updateBudget state category0 amount0) category0 amount1
        = updateBudget state category0 amount1)
  /\ (forall category1 amount1, category1 <> category0 ->
        updateBudget (updateBudget state category0 amount0) category1 amount1
        = updateBudget (updateBudget state category1 amount1) category0 amount0).
Proof.
  unfold updateBudget, set_budgets. simpl.
  split; [apply lookup_insert_eq|]. split; [apply lookup_insert_eq|].
  split; [intros c Hc; now apply lookup_insert_ne|]. split; [reflexivity|].
  split.
  - intros amount1. now rewrite insert_insert_eq.
  - intros category1 amount1 Hc. f_equal. now apply insert_insert_ne.
Qed.

(** X6: the ids of the expenses stay pairwise different under every
    operation of the store that keeps ids apart: an addition stamped with
    a reading of the clock that is no id of the document, a deletion, an
    update that does not overwrite the id, a budget update, the clearing
    of a month. *)
Theorem ids_stay_distinct {host : Host} (state : State) (op : StoreOp) :
  List.NoDup (map id (expenses state)) ->
  keeps_ids_apart state op ->
  List.NoDup (map id (expenses (apply_op state op))).
Proof.
  intros Hnd Hop. destruct op as [now expense|id0|id0 updates|c a|m]; simpl.
  - rewrite map_app. simpl.
    apply List.NoDup_app; [exact Hnd|repeat constructor; intros []|].
    intros i Hi [<-|[]]. simpl in Hop. rewrite List.Forall_forall in Hop.
    apply in_map_iff in Hi. destruct Hi as (e & Ee & He).
    now apply (Hop e He).
  - now apply NoDup_map_filter.
  - simpl in Hop. now rewrite ids_update_first.
  - exact Hnd.
  - unfold clearMonthExpenses. destruct (month_parts m). simpl.
    now apply NoDup_map_filter.
Qed.

Lemma ids_stay_distinct_witness :
  List.NoDup (map id (expenses Examples.january))
  /\ keeps_ids_apart Examples.january
       (AddExpense Examples.now0 Examples.coffee_draft)
  /\ List.NoDup
       (map id (expenses (apply_op (host := ReferenceHost.utc) Examples.january
                            (AddExpense Examples.now0 Examples.coffee_draft)))).
Proof.
  assert (H1 : List.NoDup (map id (expenses Examples.january))).
  { simpl. repeat constructor; simpl; intuition lia. }
  assert (H2 : keeps_ids_apart Examples.january
                 (AddExpense Examples.now0 Examples.coffee_draft)).
  { simpl. repeat constructor; simpl; lia. }
  split; [exact H1|]. split; [exact H2|].
  exact (ids_stay_distinct (host := ReferenceHost.utc) Examples.january _ H1 H2).
Defined.

(** * Further properties of the helpers ([js/utils.js]) *)

Section TextFacts.

Lemma is_white_space_lower (c : ascii) :
  JS.is_white_space (Text.lower c) = JS.is_white_space c.
Proof. destruct c as [[] [] [] [] [] [] [] []]; reflexivity. Qed.

Lemma lower_lower (c : ascii) : Text.lower (Text.lower c) = Text.lower c.
Proof. destruct c as [[] [] [] [] [] [] [] []]; reflexivity. Qed.

Lemma toLowerCase_idempotent (s : string) :
  Text.toLowerCase (Text.toLowerCase s) = Text.toLowerCase s.
Proof.
  induction s as [|c s IH]; simpl; [reflexivity|]. now rewrite lower_lower, IH.
Qed.

Lemma length_toLowerCase (s : string) :
  String.length (Text.toLowerCase s) = String.length s.
Proof. induction s as [|c s IH]; simpl; [reflexivity|]. now rewrite IH. Qed.

Lemma trim_start_toLowerCase (s : string) :
  JS.trim_start (Text.toLowerCase s) = Text.toLowerCase (JS.trim_start s).
Proof.
  induction s as [|c s IH]; simpl; [reflexivity|].
  rewrite is_white_space_lower. now destruct (JS.is_white_space c).
Qed.

Lemma trim_end_toLowerCase (s : string) :
  JS.trim_end (Text.toLowerCase s) = Text.toLowerCase (JS.trim_end s).
Proof.
  induction s as [|c s IH]; simpl; [reflexivity|].
  rewrite IH, is_white_space_lower.
  destruct (JS.trim_end s); simpl; [|reflexivity].
  now destruct (JS.is_white_space c).
Qed.

Lemma trim_toLowerCase (s : string) :
  JS.trim (Text.toLowerCase s) = Text.toLowerCase (JS.trim s).
Proof. unfold JS.trim. now rewrite trim_start_toLowerCase, trim_end_toLowerCase. Qed.

Lemma truthy_toLowerCase (s : string) :
  JS.truthy_string (Text.toLowerCase s) = JS.truthy_string s.
Proof. now destruct s. Qed.

Lemma length_zero_empty (s : string) :
  (String.length s =? 0)%nat = true <-> s = EmptyString.
Proof. destruct s; simpl; split; congruence. Qed.

(** The test [filterExpenses] makes before it searches. *)
Lemma blank_term (searchTerm : string) :
  negb (JS.truthy_string searchTerm)
  || (String.length (JS.trim searchTerm) =? 0)%nat = true
  <-> JS.trim searchTerm = EmptyString.
Proof.
  rewrite orb_true_iff, length_zero_empty. split; [|now right].
  intros [H|H]; [|exact H]. now destruct searchTerm.
Qed.

Lemma length_take (n : nat) (s : string) :
  String.length (Text.take n s) = Nat.min n (String.length s).
Proof.
  revert s. induction n as [|n IH]; intros [|c s]; simpl; try reflexivity.
  now rewrite IH.
Qed.

Lemma take_prefix (n : nat) (s : string) :
  exists rest, s = Text.take n s +:+ rest.
Proof.
  revert s. induction n as [|n IH]; intros s.
  - exists s. now destruct s.
  - destruct s as [|c s]; [now exists EmptyString|].
    destruct (IH s) as [rest E]. exists rest. simpl.
    change (String c (Text.take n s) +:+ rest)
      with (String c (Text.take n s +:+ rest)).
    now rewrite <- E.
Qed.

Lemma length_append (a b : string) :
  String.length (a +:+ b) = (String.length a + String.length b)%nat.
Proof.
  induction a as [|c a IH]; [reflexivity|].
  change (String c a +:+ b) with (String c (a +:+ b)). simpl. now rewrite IH.
Qed.

End TextFacts.

Section FilterFacts.

Lemma filterExpenses_blank (es : list Expense) (searchTerm : string) :
  JS.trim searchTerm = EmptyString -> filterExpenses es searchTerm = es.
Proof.
  intros H. apply blank_term in H. unfold filterExpenses. now rewrite H.
Qed.

Lemma filterExpenses_search (es : list Expense) (searchTerm : string) :
  JS.trim searchTerm <> EmptyString ->
  filterExpenses es searchTerm
  = List.filter (matches_term (Text.toLowerCase searchTerm)) es.
Proof.
  intros H. unfold filterExpenses.
  destruct (negb (JS.truthy_string searchTerm)
            || (String.length (JS.trim searchTerm) =? 0)%nat) eqn:E;
    [|reflexivity].
  apply blank_term in E. contradiction.
Qed.

Lemma filterExpenses_In (es : list Expense) (searchTerm : string) (e : Expense) :
  In e (filterExpenses es searchTerm)
  <-> In e es
      /\ (JS.trim searchTerm = EmptyString
          \/ matches_term (Text.toLowerCase searchTerm) e = true).
Proof.
  destruct (string_dec (JS.trim searchTerm) EmptyString) as [E|E].
  - rewrite filterExpenses_blank by exact E. tauto.
  - rewrite filterExpenses_search by exact E. rewrite filter_In. tauto.
Qed.

End FilterFacts.

(** X7: [filterExpenses] keeps, in their order, the expenses whose name,
    category or non-empty notes contain the search term, all compared in
    lower case; a term that is empty or only white space keeps every
    expense; the letter case of the term makes no difference; a second
    filtering with the same term changes nothing; and filtering a list
    made of two parts is filtering each part. *)
Theorem filterExpenses_spec (es : list Expense) (searchTerm : string) :
  (JS.trim searchTerm = EmptyString -> filterExpenses es searchTerm = es)
  /\ (forall e,
        In e (filterExpenses es searchTerm)
        <-> In e es
            /\ (JS.trim searchTerm = EmptyString
                \/ Text.includes (Text.toLowerCase (name e))
                     (Text.toLowerCase searchTerm) = true
                \/ Text.includes (Text.toLowerCase (category e))
                     (Text.toLowerCase searchTerm) = true
                \/ exists n, notes e = Some n /\ n <> EmptyString
                     /\ Text.includes (Text.toLowerCase n)
                          (Text.toLowerCase searchTerm) = true))
  /\ sublist (filterExpenses es searchTerm) es
  /\ filterExpenses es (Text.toLowerCase searchTerm) = filterExpenses es searchTerm
  /\ filterExpenses (filterExpenses es searchTerm) searchTerm
     = filterExpenses es searchTerm
  /\ (forall es', filterExpenses (es ++ es') searchTerm
                  = filterExpenses es searchTerm ++ filterExpenses es' searchTerm).
Proof.
  split; [apply filterExpenses_blank|].
  split.
  { intros e. rewrite filterExpenses_In. unfold matches_term.
    rewrite !orb_true_iff.
    assert (Hn : match notes e with
                 | Some n => JS.truthy_string n
                             && Text.includes (Text.toLowerCase n)
                                  (Text.toLowerCase searchTerm)
                 | None => false
                 end = true
                 <-> exists n, notes e = Some n /\ n <> EmptyString
                       /\ Text.includes (Text.toLowerCase n)
                            (Text.toLowerCase searchTerm) = true).
    { destruct (notes e) as [n|].
      - rewrite andb_true_iff. split.
        + intros [H1 H2]. exists n. split; [reflexivity|].
          split; [|exact H2]. intros ->. discriminate.
        + intros (n' & [= <-] & H1 & H2). split; [|exact H2].
          now destruct n.
      - split; [discriminate|]. intros (n' & E & _). discriminate. }
    rewrite Hn. tauto. }
  destruct (string_dec (JS.trim searchTerm) EmptyString) as [E|E].
  - assert (E' : JS.trim (Text.toLowerCase searchTerm) = EmptyString)
      by now rewrite trim_toLowerCase, E.
    rewrite !(filterExpenses_blank _ _ E), (filterExpenses_blank _ _ E').
    split; [reflexivity|]. split; [reflexivity|]. split; [reflexivity|].
    intros es'. now rewrite !(filterExpenses_blank _ _ E).
  - assert (E' : JS.trim (Text.toLowerCase searchTerm) <> EmptyString).
    { rewrite trim_toLowerCase. intros H. apply E.
      destruct (JS.trim searchTerm); [reflexivity|discriminate]. }
    rewrite !(filterExpenses_search _ _ E), (filterExpenses_search _ _ E').
    rewrite toLowerCase_idempotent.
    split; [apply sublist_List_filter|]. split; [reflexivity|].
    split; [apply filter_filter_same|].
    intros es'. rewrite !(filterExpenses_search _ _ E). apply List.filter_app.
Qed.

(** X8: [truncateText] returns a text of at most [maxLength] characters
    unchanged; a longer one is cut to its first [maxLength - 3] characters
    (none when [maxLength] is below 3) followed by three dots, so the
    result has [maxLength] characters when [maxLength] is at least 3 and
    three characters, more than asked for, when it is less. *)
Theorem truncateText_spec (text : string) (maxLength : Z) :
  (Z.of_nat (String.length text) <= maxLength -> truncateText text maxLength = text)
  /\ (maxLength < Z.of_nat (String.length text) ->
      (exists kept rest,
          text = kept +:+ rest
          /\ Z.of_nat (String.length kept) = Z.max 0 (maxLength - 3)
          /\ truncateText text maxLength = kept +:+ "...")
      /\ Z.of_nat (String.length (truncateText text maxLength)) = Z.max maxLength 3).
Proof.
  unfold truncateText. split.
  - intros H. apply Z.leb_le in H. now rewrite H.
  - intros H. assert (E : (Z.of_nat (String.length text) <=? maxLength) = false)
      by now apply Z.leb_gt.
    rewrite E. unfold Text.substring0.
    assert (L : Z.of_nat (String.length (Text.take (Z.to_nat (maxLength - 3)) text))
                = Z.max 0 (maxLength - 3)).
    { rewrite length_take. lia. }
    split.
    + destruct (take_prefix (Z.to_nat (maxLength - 3)) text) as [rest Hr].
      exists (Text.take (Z.to_nat (maxLength - 3)) text), rest.
      split; [exact Hr|]. split; [exact L|reflexivity].
    + rewrite length_append, Nat2Z.inj_add, L. simpl. lia.
Qed.

Lemma truncateText_spec_witness :
  (5 < Z.of_nat (String.length "Groceries") /\ truncateText "Groceries" 5 = "Gr...")
  /\ (2 < Z.of_nat (String.length "Groceries")
      /\ Z.of_nat (String.length (truncateText "Groceries" 2)) = Z.max 2 3).
Proof.
  assert (H5 : 5 < Z.of_nat (String.length "Groceries")) by (simpl; lia).
  assert (H2 : 2 < Z.of_nat (String.length "Groceries")) by (simpl; lia).
  split; (split; [assumption|]).
  - reflexivity.
  - exact (proj2 (proj2 (truncateText_spec "Groceries" 2) H2)).
Defined.

Section PresentationFacts.

Lemma lookup_unlisted (table : list (string * string)) (k : string) :
  ~ In k (map fst table) -> (list_to_map table : gmap string string) !! k = None.
Proof.
  intros H. apply not_elem_of_list_to_map_1. now rewrite list_elem_of_In.
Qed.




Lemma days_in_month_bounds (y month0 : Z) : 28 <= days_in_month y month0 <= 31.
Proof.
  unfold days_in_month.
  destruct (month0 =? 1); [destruct (is_leap_year y); lia|].
  destruct ((month0 =? 3) || (month0 =? 5) || (month0 =? 8) || (month0 =? 10)); lia.
Qed.

(** From the year 100 on, day 0 of the month after a month of the year is
    the last day of that month (for December, day 0 of month 12). *)
Lemma Date_day_zero_next (year month0 : Z) :
  100 <= year -> 0 <= month0 <= 11 ->
  Date_day_zero year (month0 + 1) = days_in_month year month0.
Proof.
  intros Hy Hm. unfold Date_day_zero, Date_year_month.
  replace ((0 <=? year) && (year <=? 99)) with false
    by (symmetry; apply andb_false_iff; right; apply Z.leb_gt; lia).
  replace (month0 + 1 - 1) with month0 by lia.
  rewrite Z.div_small, Z.mod_small by lia. now rewrite Z.add_0_r.
Qed.

End PresentationFacts.

(** X9: a category that is none of the eight of the tables (and no name
    objects inherit) is shown with the colour and the icon of Other:
    neither lookup ever fails. *)
Theorem category_fallback (category0 : string) :
  ~ In category0 categories ->
  ~ In category0 Object_prototype_names ->
  getCategoryColor category0 = Some "#6366f1"
  /\ getCategoryColor category0 = getCategoryColor "Other"
  /\ category_icon_name category0 = "more-horizontal"
  /\ getCategoryIcon category0 = getCategoryIcon "Other".
Proof.
  intros H _.
  assert (Hc : CATEGORY_COLORS !! category0 = None) by now apply lookup_unlisted.
  assert (Hi : CATEGORY_ICONS !! category0 = None) by now apply lookup_unlisted.
  unfold getCategoryIcon, category_icon_name, lookup_or, getCategoryColor.
  rewrite Hc, Hi. repeat split; vm_compute; reflexivity.
Qed.

Lemma category_fallback_witness :
  ~ In "Pets" categories
  /\ getCategoryColor "Pets" = Some "#6366f1"
  /\ getCategoryIcon "Pets" = getCategoryIcon "Other".
Proof.
  assert (H1 : ~ In "Pets" categories) by (simpl; intuition discriminate).
  assert (H2 : ~ In "Pets" Object_prototype_names) by (simpl; intuition discriminate).
  split; [exact H1|].
  split; [exact (proj1 (category_fallback "Pets" H1 H2))|].
  exact (proj2 (proj2 (proj2 (category_fallback "Pets" H1 H2)))).
Defined.



(** X11: for a clock that reads a year from 100 on, a month from 0 to 11
    and a day of that month, [getDaysRemainingInMonth] is the number of
    days of the month minus the day of today, between 0 and 30, also in
    December and in a leap year's February; on the last day of the month
    it is 0, and [getDailyBudgetRemaining] is then 0 whatever remains of
    the income. *)
Theorem getDaysRemainingInMonth_spec (now : Today) :
  100 <= today_fullYear now ->
  0 <= today_month now <= 11 ->
  1 <= today_date now <= days_in_month (today_fullYear now) (today_month now) ->
  getDaysRemainingInMonth now
  = days_in_month (today_fullYear now) (today_month now) - today_date now
  /\ 0 <= getDaysRemainingInMonth now <= 30
  /\ (today_date now = days_in_month (today_fullYear now) (today_month now) ->
      forall remaining0, getDailyBudgetRemaining now remaining0 = 0%float).
Proof.
  intros Hy Hm Hd. unfold getDailyBudgetRemaining, getDaysRemainingInMonth.
  rewrite Date_day_zero_next by assumption.
  pose proof (days_in_month_bounds (today_fullYear now) (today_month now)).
  split; [reflexivity|]. split; [lia|].
  intros E r. rewrite E, Z.sub_diag. reflexivity.
Qed.

(** 29 February 2024 is the last day of its month, 5 December 2023 has 26
    days after it. *)
Lemma getDaysRemainingInMonth_spec_witness :
  getDaysRemainingInMonth (mkToday 2023 11 5) = 26
  /\ getDailyBudgetRemaining (mkToday 2024 1 29) 5000 = 0%float.
Proof.
  split.
  - refine (proj1 (getDaysRemainingInMonth_spec (mkToday 2023 11 5) _ _ _));
      vm_compute; try split; discriminate.
  - refine (proj2 (proj2 (getDaysRemainingInMonth_spec (mkToday 2024 1 29) _ _ _))
              eq_refl 5000%float);
      vm_compute; try split; discriminate.
Defined.

Section SortMore.
Context {A : Type}.

(** A comparator that is never positive leaves the array as it is. *)
Lemma Array_sort_never_behind (cmp : A -> A -> float) (l : list A) :
  (forall a b, sorts_behind cmp a b = false) -> Array_sort cmp l = l.
Proof.
  intros H. induction l as [|x l IH]; simpl; [reflexivity|].
  fold (Array_sort cmp l). rewrite IH. destruct l as [|y l]; simpl; [reflexivity|].
  specialize (H x y). unfold sorts_behind in H. now rewrite H.
Qed.

Section ByKey.
Variable cmp : A -> A -> float.
Variable key : A -> Z.

Lemma sort_insert_by_key (x : A) (s : list A) :
  (forall y, In y s -> sorts_behind cmp x y = (key y <? key x)) ->
  StronglySorted (fun a b => key a <= key b) s ->
  StronglySorted (fun a b => key a <= key b) (sort_insert cmp x s).
Proof.
  induction s as [|y s IH]; intros Hx Hs; simpl.
  - repeat constructor.
  - inversion Hs as [|? ? Hs' Hy]; subst.
    pose proof (Hx y (or_introl eq_refl)) as Hxy. unfold sorts_behind in Hxy.
    rewrite Hxy. destruct (Z.ltb_spec (key y) (key x)) as [Hlt|Hge].
    + constructor.
      * apply IH; [|exact Hs']. intros z Hz. apply Hx. now right.
      * rewrite List.Forall_forall. intros z Hz.
        apply (Permutation_in _ (sort_insert_Permutation cmp x s)) in Hz.
        destruct Hz as [<-|Hz]; [lia|].
        rewrite List.Forall_forall in Hy. now apply Hy.
    + constructor; [exact Hs|]. constructor; [exact Hge|].
      rewrite List.Forall_forall in Hy |- *. intros z Hz.
      specialize (Hy z Hz). lia.
Qed.

Lemma Array_sort_by_key (l : list A) :
  (forall a b, In a l -> In b l -> sorts_behind cmp a b = (key b <? key a)) ->
  StronglySorted (fun a b => key a <= key b) (Array_sort cmp l).
Proof.
  induction l as [|x l IH]; intros H; simpl; [constructor|].
  fold (Array_sort cmp l). apply sort_insert_by_key.
  - intros y Hy. apply Array_sort_In in Hy. apply H; [now left|now right].
  - apply IH. intros a b Ha Hb. apply H; now right.
Qed.

End ByKey.

Lemma sort_insert_filter (cmp : A -> A -> float) (p : A -> bool) (x : A)
    (s : list A) :
  (forall y, In y s -> sorts_behind cmp x y = true -> p x = true -> p y = false) ->
  List.filter p (sort_insert cmp x s) = List.filter p (x :: s).
Proof.
  induction s as [|y s IH]; intros H; [reflexivity|].
  simpl. destruct (0 <? cmp x y)%float eqn:E; [|reflexivity].
  simpl. rewrite IH by (intros z Hz; apply H; now right). simpl.
  destruct (p x) eqn:Px; [|reflexivity].
  now rewrite (H y (or_introl eq_refl) E eq_refl).
Qed.

(** Elements the comparator never puts behind one another keep their
    order. *)
Lemma Array_sort_filter (cmp : A -> A -> float) (p : A -> bool) (l : list A) :
  (forall a b, In a l -> In b l ->
               sorts_behind cmp a b = true -> p a = true -> p b = false) ->
  List.filter p (Array_sort cmp l) = List.filter p l.
Proof.
  induction l as [|x l IH]; intros H; [reflexivity|].
  simpl. fold (Array_sort cmp l). rewrite sort_insert_filter.
  - simpl. rewrite IH; [reflexivity|]. intros a b Ha Hb. apply H; now right.
  - intros y Hy. apply Array_sort_In in Hy. apply H; [now left|now right].
Qed.

Lemma StronglySorted_weaken (R R' : A -> A -> Prop) (l : list A) :
  (forall a b, R a b -> R' a b) -> StronglySorted R l -> StronglySorted R' l.
Proof.
  intros H. induction 1 as [|x l Hs IH Hx]; constructor; [exact IH|].
  eapply List.Forall_impl; [|exact Hx]. intros b. apply H.
Qed.

End SortMore.

Section SortExpensesMore.
Context {host : Host}.

Lemma compare_unknown_criteria (criteria order : string) (a b : Expense) :
  criteria <> "date" -> criteria <> "amount" -> criteria <> "name" ->
  criteria <> "category" ->
  sorts_behind (compare_expenses criteria order) a b = false.
Proof.
  intros H1 H2 H3 H4. unfold sorts_behind, compare_expenses.
  apply String.eqb_neq in H1, H2, H3, H4. rewrite H1, H2, H3, H4.
  now destruct (String.eqb order "desc").
Qed.

Lemma amounts_finite_value (es : list Expense) (e : Expense) :
  amounts_finite es -> In e es ->
  JS.exact_value (amount e) = Some (amount_value e).
Proof.
  intros H Hin. unfold amounts_finite in H. rewrite List.Forall_forall in H.
  specialize (H e Hin). unfold amount_value.
  now destruct (JS.exact_value (amount e)).
Qed.

(** Every order other than ["desc"] sorts as ["asc"] does. *)
Lemma compare_expenses_order (criteria order : string) :
  compare_expenses criteria order
  = if String.eqb order "desc" then compare_expenses criteria "desc"
    else compare_expenses criteria "asc".
Proof.
  unfold compare_expenses. now destruct (String.eqb order "desc").
Qed.

End SortExpensesMore.

(** X12: with a sort key that is none of date, amount, name and category
    the comparator is 0 on every pair, and [sortExpenses] returns the
    expenses in the order it was given them, for every order. *)
Theorem sortExpenses_unknown_criteria {host : Host} (es : list Expense)
    (criteria order : string) :
  criteria <> "date" -> criteria <> "amount" -> criteria <> "name" ->
  criteria <> "category" ->
  sortExpenses es criteria order = es.
Proof.
  intros H1 H2 H3 H4. apply Array_sort_never_behind.
  intros a b. now apply compare_unknown_criteria.
Qed.

Lemma sortExpenses_unknown_criteria_witness :
  sortExpenses (host := ReferenceHost.utc)
    [Examples.taxi; Examples.bus; Examples.bread] "price" "desc"
  = [Examples.taxi; Examples.bus; Examples.bread].
Proof.
  apply (sortExpenses_unknown_criteria (host := ReferenceHost.utc));
    discriminate.
Defined.

(** X13: when all amounts are finite numbers, [sortExpenses] by amount
    returns the expenses with their amounts in order: ascending, no
    expense is followed by one of a smaller amount; descending, none is
    followed by one of a larger amount. *)
Theorem sortExpenses_amount_sorted {host : Host} (es : list Expense) :
  amounts_finite es ->
  StronglySorted (fun a b => amount_value a <= amount_value b)
                 (sortExpenses es "amount" "asc")
  /\ StronglySorted (fun a b => amount_value b <= amount_value a)
                    (sortExpenses es "amount" "desc").
Proof.
  intros Hf. split.
  - apply Array_sort_by_key. intros a b Ha Hb.
    exact (proj1 (sorts_behind_amount a b _ _ (amounts_finite_value es a Hf Ha)
                    (amounts_finite_value es b Hf Hb))).
  - apply StronglySorted_weaken
      with (R := fun a b => - amount_value a <= - amount_value b);
      [intros a b; lia|].
    apply (Array_sort_by_key _ (fun e => - amount_value e)). intros a b Ha Hb.
    rewrite (proj2 (sorts_behind_amount a b _ _ (amounts_finite_value es a Hf Ha)
                      (amounts_finite_value es b Hf Hb))).
    destruct (Z.ltb_spec (amount_value a) (amount_value b)),
      (Z.ltb_spec (- amount_value b) (- amount_value a)); try reflexivity; lia.
Qed.

Lemma sortExpenses_amount_sorted_witness :
  amounts_finite [Examples.taxi; Examples.bus; Examples.bread]
  /\ StronglySorted (fun a b => amount_value a <= amount_value b)
       (sortExpenses (host := ReferenceHost.utc)
          [Examples.taxi; Examples.bus; Examples.bread] "amount" "asc")
  /\ sortExpenses (host := ReferenceHost.utc)
       [Examples.taxi; Examples.bus; Examples.bread] "amount" "asc"
     = [Examples.bus; Examples.bread; Examples.taxi].
Proof.
  assert (H : amounts_finite [Examples.taxi; Examples.bus; Examples.bread])
    by (repeat constructor; discriminate).
  split; [exact H|].
  split; [|vm_compute; reflexivity].
  exact (proj1 (sortExpenses_amount_sorted (host := ReferenceHost.utc) _ H)).
Defined.

(** X14: sorting by amount is stable: when all amounts are finite
    numbers, the expenses of one and the same amount come out in the order
    they went in, for every order. *)
Theorem sortExpenses_amount_stable {host : Host} (es : list Expense)
    (order : string) (v : Z) :
  amounts_finite es ->
  List.filter (has_amount_value v) (sortExpenses es "amount" order)
  = List.filter (has_amount_value v) es.
Proof.
  intros Hf. apply Array_sort_filter. intros a b Ha Hb.
  pose proof (sorts_behind_amount a b _ _ (amounts_finite_value es a Hf Ha)
                (amounts_finite_value es b Hf Hb)) as [Hasc Hdesc].
  rewrite compare_expenses_order. unfold has_amount_value.
  destruct (String.eqb order "desc"); [rewrite Hdesc|rewrite Hasc];
    rewrite Z.ltb_lt, Z.eqb_eq; intros Hlt Ev; apply Z.eqb_neq; lia.
Qed.

(** Lunch and Movie both cost 5. *)
Lemma sortExpenses_amount_stable_witness :
  amounts_finite [Examples.taxi; Examples.lunch; Examples.bus; Examples.movie]
  /\ List.filter (has_amount_value (amount_value Examples.lunch))
       (sortExpenses (host := ReferenceHost.utc)
          [Examples.taxi; Examples.lunch; Examples.bus; Examples.movie]
          "amount" "desc")
     = [Examples.lunch; Examples.movie].
Proof.
  assert (H : amounts_finite
                [Examples.taxi; Examples.lunch; Examples.bus; Examples.movie])
    by (repeat constructor; discriminate).
  split; [exact H|].
  rewrite (sortExpenses_amount_stable (host := ReferenceHost.utc) _ "desc" _ H).
  vm_compute. reflexivity.
Defined.

(** X15: the list of the page holds, in the chosen order, exactly the
    expenses of the current month that match the search: it is a
    permutation of them, every expense shown is an expense of the document,
    and with an empty or blank search nothing of the month is left out. *)
Theorem listed_expenses_spec {host : Host} (appState : State)
    (searchTerm sortCriteria sortOrder : string) :
  let monthExpenses := getExpensesForMonth appState (currentMonth appState) in
  Permutation (listed_expenses appState searchTerm sortCriteria sortOrder)
              (filterExpenses monthExpenses searchTerm)
  /\ (forall e, In e (listed_expenses appState searchTerm sortCriteria sortOrder)
                -> In e monthExpenses /\ In e (expenses appState))
  /\ (JS.trim searchTerm = EmptyString ->
      Permutation (listed_expenses appState searchTerm sortCriteria sortOrder)
                  monthExpenses).
Proof.
  intros monthExpenses. unfold listed_expenses. fold monthExpenses.
  split; [apply sortExpenses_Permutation|]. split.
  - intros e He.
    apply (Permutation_in _ (sortExpenses_Permutation _ _ _)) in He.
    apply filterExpenses_In in He. destruct He as [He _].
    split; [exact He|]. subst monthExpenses.
    rewrite getExpensesForMonth_filter in He. now apply filter_In in He.
  - intros E. rewrite sortExpenses_Permutation.
    now rewrite filterExpenses_blank.
Qed.

Section TrimFacts.

Lemma trim_start_starts_solid (s : string) : starts_solid (JS.trim_start s).
Proof.
  induction s as [|c s IH]; simpl; [exact I|].
  destruct (JS.is_white_space c) eqn:E; [exact IH|exact E].
Qed.

Lemma trim_end_starts_solid (s : string) :
  starts_solid s -> starts_solid (JS.trim_end s).
Proof.
  destruct s as [|c s]; simpl; [trivial|]. intros H.
  destruct (JS.trim_end s); simpl; [now rewrite H|exact H].
Qed.

Lemma trim_start_solid (s : string) : starts_solid s -> JS.trim_start s = s.
Proof. destruct s as [|c s]; simpl; [reflexivity|]. now intros ->. Qed.

Lemma trim_end_cons (c : ascii) (s : string) :
  JS.trim_end (String c s)
  = match JS.trim_end s with
    | EmptyString =>
        if JS.is_white_space c then EmptyString else String c EmptyString
    | t => String c t
    end.
Proof. reflexivity. Qed.

Lemma trim_end_idempotent (s : string) :
  JS.trim_end (JS.trim_end s) = JS.trim_end s.
Proof.
  induction s as [|c s IH]; simpl; [reflexivity|].
  destruct (JS.trim_end s) as [|d t] eqn:E.
  - destruct (JS.is_white_space c) eqn:W; simpl; [reflexivity|now rewrite W].
  - rewrite trim_end_cons, IH. reflexivity.
Qed.

Lemma trim_idempotent (s : string) : JS.trim (JS.trim s) = JS.trim s.
Proof.
  unfold JS.trim at 1.
  rewrite trim_start_solid
    by (unfold JS.trim; apply trim_end_starts_solid, trim_start_starts_solid).
  unfold JS.trim. apply trim_end_idempotent.
Qed.

End TrimFacts.

Section AppFacts.
Context {host : Host}.

Lemma truthy_string_nonempty (s : string) :
  JS.truthy_string s = true <-> s <> EmptyString.
Proof. destruct s; simpl; split; congruence. Qed.

(** The name test on a trimmed name. *)
Lemma name_missing_form (form : ExpenseForm) :
  name_missing (form_expense form) = false
  <-> JS.trim (expenseName form) <> EmptyString.
Proof.
  unfold name_missing. simpl d_name.
  destruct (negb (JS.truthy_string (JS.trim (expenseName form)))
            || (String.length (JS.trim (JS.trim (expenseName form))) =? 0)%nat)
    eqn:E.
  - apply blank_term in E. rewrite trim_idempotent in E. split; congruence.
  - split; [intros _ H|reflexivity].
    assert (E' : negb (JS.truthy_string (JS.trim (expenseName form)))
                 || (String.length (JS.trim (JS.trim (expenseName form))) =? 0)%nat
                 = true)
      by (apply blank_term; now rewrite trim_idempotent).
    congruence.
Qed.

Lemma isValid_form (form : ExpenseForm) :
  isValid (validateExpense (form_expense form)) = true
  <-> JS.trim (expenseName form) <> EmptyString
      /\ expenseCategory form <> EmptyString
      /\ expenseAmount form <> EmptyString
      /\ (parseFloat_string (expenseAmount form) <=? 0)%float = false
      /\ expenseDate form <> EmptyString.
Proof.
  rewrite (proj2 (validateExpense_reports_all _)).
  rewrite !andb_true_iff, !negb_true_iff, name_missing_form.
  unfold category_missing, amount_rejected, date_missing. simpl.
  rewrite orb_false_iff, !negb_false_iff, !truthy_string_nonempty. tauto.
Qed.

Lemma budgets_nonnegative_insert (b : gmap string float) (k : string) (x : float) :
  map_Forall (fun _ v => (0 <=? v)%float = true) b ->
  (0 <=? x)%float = true ->
  map_Forall (fun _ v => (0 <=? v)%float = true) (<[k := x]> b).
Proof. intros Hb Hx. now apply map_Forall_insert_2. Qed.

End AppFacts.

(** X16: [handleAddExpense] stores a new expense exactly when the trimmed
    name, the category, the amount text and the date are not empty and the
    amount read from the text is not at most 0.  It then appends one
    expense, stamped with the clock, that carries the trimmed name, the
    category, the date and the amount read; otherwise the document is
    unchanged and the messages of the failed tests are notified as an
    error. *)
Theorem handleAddExpense_spec {host : Host} (now : Now) (appState : State)
    (form : ExpenseForm) :
  let accepted :=
    JS.trim (expenseName form) <> EmptyString
    /\ expenseCategory form <> EmptyString
    /\ expenseAmount form <> EmptyString
    /\ (parseFloat_string (expenseAmount form) <=? 0)%float = false
    /\ expenseDate form <> EmptyString in
  let result := handleAddExpense now appState form in
  (accepted ->
   n_type (snd result) = "success"
   /\ budgets (fst result) = budgets appState
   /\ exists e,
        expenses (fst result) = expenses appState ++ [e]
        /\ id e = now_ms now
        /\ name e = JS.trim (expenseName form)
        /\ JS.trim (name e) = name e
        /\ category e = expenseCategory form
        /\ amount e = parseFloat_string (expenseAmount form)
        /\ (amount e <=? 0)%float = false
        /\ date e = expenseDate form
        /\ notes e <> None)
  /\ (~ accepted ->
      fst result = appState
      /\ n_type (snd result) = "error"
      /\ n_message (snd result)
         = JS.join ", " (errors (validateExpense (form_expense form)))
      /\ errors (validateExpense (form_expense form)) <> []).
Proof.
  intros accepted result. subst result. unfold handleAddExpense.
  pose proof (isValid_form form) as Hv. fold accepted in Hv.
  destruct (isValid (validateExpense (form_expense form))) eqn:E; simpl; split.
  - intros Ha. split; [reflexivity|]. split; [reflexivity|].
    eexists. split; [reflexivity|]. simpl.
    destruct Ha as (Hn & Hc & Ha & Hp & Hd).
    repeat split; try reflexivity; try assumption;
      [apply trim_idempotent|discriminate].
  - intros Hn. exfalso. apply Hn, Hv. reflexivity.
  - intros Ha. apply Hv in Ha. discriminate.
  - intros _. repeat split. intros Hnil.
    unfold validateExpense in E. simpl in E.
    unfold validateExpense in Hnil. simpl in Hnil. rewrite Hnil in E.
    discriminate.
Qed.

Lemma handleAddExpense_spec_witness :
  expenses (fst (handleAddExpense (host := ReferenceHost.utc) Examples.now0
                   Examples.january
                   (mkForm "  Coffee " "Food" "3.5" "2024-01-05" None)))
  = expenses Examples.january ++ [Examples.coffee]
  /\ fst (handleAddExpense (host := ReferenceHost.utc) Examples.now0
            Examples.january (mkForm "   " "Food" "3.5" "2024-01-05" None))
     = Examples.january.
Proof.
  split.
  - vm_compute. reflexivity.
  - apply (proj2 (handleAddExpense_spec (host := ReferenceHost.utc) Examples.now0
                    Examples.january
                    (mkForm "   " "Food" "3.5" "2024-01-05" None))).
    intros (H & _). apply H. reflexivity.
Defined.

(** X17: [handleEditBudget] keeps every budget a number that is at least
    0: an answer is stored only when it reads as a number that is at least
    0, and then as the budget of the category alone; a cancelled prompt and
    an answer that is refused leave the document as it is; the expenses
    are never touched. *)
Theorem handleEditBudget_keeps_budgets_nonnegative {host : Host}
    (appState : State) (category0 : string) (newBudget : option string) :
  map_Forall (fun _ b => (0 <=? b)%float = true) (budgets appState) ->
  let result := handleEditBudget appState category0 newBudget in
  map_Forall (fun _ b => (0 <=? b)%float = true) (budgets (fst result))
  /\ expenses (fst result) = expenses appState
  /\ (forall c, c <> category0 ->
                budgets (fst result) !! c = budgets appState !! c)
  /\ (snd result = None -> fst result = appState)
  /\ (newBudget = None -> fst result = appState).
Proof.
  intros Hb result. subst result. unfold handleEditBudget.
  destruct newBudget as [s|]; [|simpl; tauto].
  destruct (negb (isNaN_string s)) eqn:En; simpl;
    [|split; [exact Hb|split; [reflexivity|split; [reflexivity|tauto]]]].
  destruct (0 <=? parseFloat_string s)%float eqn:Ep; simpl;
    [|split; [exact Hb|split; [reflexivity|split; [reflexivity|tauto]]]].
  split; [now apply budgets_nonnegative_insert|].
  split; [reflexivity|].
  split; [intros c Hc; now apply lookup_insert_ne|].
  split; discriminate.
Qed.

Lemma handleEditBudget_keeps_budgets_nonnegative_witness :
  map_Forall (fun _ b => (0 <=? b)%float = true) default_budgets
  /\ map_Forall (fun _ b => (0 <=? b)%float = true)
       (budgets (fst (handleEditBudget (host := ReferenceHost.utc)
                        Examples.january "Food" (Some "2500"))))
  /\ budgets (fst (handleEditBudget (host := ReferenceHost.utc)
                     Examples.january "Food" (Some "-5")))
     = default_budgets.
Proof.
  assert (H : map_Forall (fun _ b => (0 <=? b)%float = true)
                (budgets Examples.january)).
  { simpl. unfold default_budgets.
    repeat (apply map_Forall_insert_2; [reflexivity|]).
    apply map_Forall_empty. }
  split; [exact H|]. split.
  - exact (proj1 (handleEditBudget_keeps_budgets_nonnegative
                    (host := ReferenceHost.utc) Examples.january "Food"
                    (Some "2500") H)).
  - reflexivity.
Defined.

Section InsightsMore.

Lemma keys_add_spend (o : Obj.t float) (e : Expense) (k : string) :
  In k (Obj.keys (add_spend o e)) <-> In k (Obj.keys o) \/ k = category e.
Proof.
  unfold add_spend.
  destruct (in_dec string_dec (category e) (Obj.keys o)) as [Hin|Hni].
  - rewrite ObjFacts.keys_set_present by exact Hin.
    split; [tauto|]. intros [H| ->]; assumption.
  - rewrite ObjFacts.keys_set_absent by exact Hni.
    rewrite in_app_iff. simpl. intuition congruence.
Qed.

Lemma length_add_spend (o : Obj.t float) (e : Expense) :
  (length (add_spend o e) <= S (length o))%nat.
Proof.
  unfold add_spend. rewrite <- !(length_map fst). fold (Obj.keys o).
  match goal with |- (length (map fst ?x) <= _)%nat => fold (Obj.keys x) end.
  destruct (in_dec string_dec (category e) (Obj.keys o)) as [Hin|Hni].
  - rewrite ObjFacts.keys_set_present by exact Hin. lia.
  - rewrite ObjFacts.keys_set_absent by exact Hni.
    rewrite length_app. simpl. lia.
Qed.

Lemma spend_fold_keys (es : list Expense) :
  forall o k,
    In k (Obj.keys (fold_left add_spend es o))
    <-> In k (Obj.keys o) \/ exists e, In e es /\ category e = k.
Proof.
  induction es as [|e es IH]; intros o k; simpl.
  - split; [tauto|]. intros [H|(e & [] & _)]. exact H.
  - rewrite IH, keys_add_spend. split.
    + intros [[H|H]|(e' & He' & Hc)]; [now left| |].
      * right. exists e. split; [now left|now symmetry].
      * right. exists e'. split; [now right|exact Hc].
    + intros [H|(e' & [<-|He'] & Hc)]; [now left; left| |].
      * left. right. now symmetry.
      * right. now exists e'.
Qed.

Lemma spend_fold_length (es : list Expense) :
  forall o, (length (fold_left add_spend es o) <= length o + length es)%nat.
Proof.
  induction es as [|e es IH]; intros o; simpl; [lia|].
  specialize (IH (add_spend o e)). pose proof (length_add_spend o e). lia.
Qed.

Lemma spend_fold_NoDup (es : list Expense) :
  forall o, List.NoDup (Obj.keys o) ->
            List.NoDup (Obj.keys (fold_left add_spend es o)).
Proof.
  induction es as [|e es IH]; intros o Ho; simpl; [exact Ho|].
  apply IH. unfold add_spend. now apply ObjFacts.NoDup_keys_set.
Qed.

Lemma spend_by_category_keys (es : list Expense) (k : string) :
  In k (Obj.keys (spend_by_category es)) <-> exists e, In e es /\ category e = k.
Proof.
  unfold spend_by_category. rewrite spend_fold_keys. simpl. tauto.
Qed.

Lemma length_filter_le {A : Type} (f : A -> bool) (l : list A) :
  (length (List.filter f l) <= length l)%nat.
Proof.
  induction l as [|x l IH]; simpl; [lia|]. destruct (f x); simpl; lia.
Qed.

Lemma head_Array_sort_None {A : Type} (cmp : A -> A -> float) (l : list A) :
  head (Array_sort cmp l) = None <-> l = [].
Proof.
  pose proof (Permutation_length (Array_sort_Permutation cmp l)) as Hl.
  destruct (Array_sort cmp l) as [|x s], l as [|y l]; simpl in *;
    split; intros; try reflexivity; discriminate.
Qed.

End InsightsMore.

(** X18: on an empty list [getSpendingInsights] reports a total of 0, no
    highest category, nothing over budget and an average of 0 instead of
    dividing by the number of expenses; on any list the highest category is
    missing only when there is no expense, is otherwise the category of
    some expense and is reported with the amount accumulated for it; the
    categories are counted once each, so the number over budget is at most
    the number of categories with an expense, which is at most the number
    of expenses. *)
Theorem getSpendingInsights_structure (es : list Expense) (income : float)
    (budgets0 : gmap string float) :
  let r := getSpendingInsights es income budgets0 in
  (es = [] ->
   totalSpent r = zero /\ highestCategory r = None
   /\ highestCategoryAmount r = zero /\ overBudgetCount r = 0%nat
   /\ averageExpense r = zero /\ expenseCount r = 0%nat)
  /\ (highestCategory r = None <-> es = [])
  /\ (forall c, highestCategory r = Some c ->
        (exists e, In e es /\ category e = c)
        /\ Obj.get (spend_by_category es) c = Some (highestCategoryAmount r))
  /\ List.NoDup (Obj.keys (spend_by_category es))
  /\ (forall c, In c (Obj.keys (spend_by_category es))
                <-> exists e, In e es /\ category e = c)
  /\ (overBudgetCount r <= length (Obj.keys (spend_by_category es)))%nat
  /\ (length (Obj.keys (spend_by_category es)) <= expenseCount r)%nat.
Proof.
  intros r.
  assert (Hnd : List.NoDup (Obj.keys (spend_by_category es)))
    by (apply spend_fold_NoDup; constructor).
  split; [intros ->; repeat split|].
  split.
  { subst r. unfold getSpendingInsights. simpl.
    destruct (head (Array_sort (fun a b => (snd b - snd a)%float)
                      (spend_by_category es))) as [h|] eqn:E; simpl.
    - split; [discriminate|]. intros ->. discriminate.
    - split; [intros _|reflexivity]. apply head_Array_sort_None in E.
      destruct es as [|e es]; [reflexivity|]. exfalso.
      assert (Hin : In (category e) (Obj.keys (spend_by_category (e :: es))))
        by (apply spend_by_category_keys; exists e; split; [now left|reflexivity]).
      rewrite E in Hin. destruct Hin. }
  split.
  { intros c. subst r. unfold getSpendingInsights. simpl.
    destruct (head (Array_sort (fun a b => (snd b - snd a)%float)
                      (spend_by_category es))) as [[k v]|] eqn:E; simpl;
      [|discriminate].
    intros [= ->].
    assert (Hin : In (c, v) (spend_by_category es)).
    { apply (Array_sort_In (fun a b => (snd b - snd a)%float)).
      destruct (Array_sort (fun a b => (snd b - snd a)%float)
                  (spend_by_category es)); [discriminate|].
      injection E as ->. now left. }
    split; [|now apply ObjFacts.In_get].
    apply spend_by_category_keys. change c with (fst (c, v)). now apply in_map. }
  split; [exact Hnd|].
  split; [apply spend_by_category_keys|].
  split.
  - subst r. unfold getSpendingInsights. simpl. unfold Obj.keys.
    rewrite length_map. apply length_filter_le.
  - subst r. simpl. unfold Obj.keys. rewrite length_map.
    apply (spend_fold_length es []).
Qed.

(** X19: adding an expense changes the list and the total of a month
    only when the date of the new expense falls in it: the month's list
    then gains the new expense at its end and the month's total grows by
    the amount read from the draft; every other month keeps its list and
    its total.  Deleting an id removes from every month's list the
    expenses of that id and nothing else. *)
Theorem addExpense_month {host : Host} (now : Now) (state : State)
    (expense : Draft) (month0 : string) :
  exists e,
    expenses (addExpense now state expense) = expenses state ++ [e]
    /\ amount e = parseFloat (d_amount expense)
    /\ date e = d_date expense
    /\ (In e (getExpensesForMonth (addExpense now state expense) month0) ->
        getExpensesForMonth (addExpense now state expense) month0
        = getExpensesForMonth state month0 ++ [e]
        /\ getTotalExpenses (addExpense now state expense) month0
           = (getTotalExpenses state month0 + parseFloat (d_amount expense))%float)
    /\ (~ In e (getExpensesForMonth (addExpense now state expense) month0) ->
        getExpensesForMonth (addExpense now state expense) month0
        = getExpensesForMonth state month0
        /\ getTotalExpenses (addExpense now state expense) month0
           = getTotalExpenses state month0)
    /\ (forall id0,
          getExpensesForMonth (deleteExpense state id0) month0
          = List.filter (fun e' => negb (id e' =? id0))
                        (getExpensesForMonth state month0)).
Proof.
  eexists. split; [reflexivity|]. split; [reflexivity|]. split; [reflexivity|].
  unfold getTotalExpenses. rewrite !getExpensesForMonth_filter.
  unfold addExpense, deleteExpense. simpl. rewrite List.filter_app. simpl.
  match goal with
  | |- context [in_month ?y ?m ?e] =>
      destruct (in_month y m e) eqn:E
  end.
  - split; [|split].
    + intros _. split; [reflexivity|]. apply sum_amounts_snoc.
    + intros H. exfalso. apply H, in_or_app. right. now left.
    + intros id0. apply filter_comm.
  - rewrite app_nil_r. split; [|split].
    + intros H. apply filter_In in H. destruct H as [_ H].
      rewrite E in H. discriminate.
    + intros _. split; reflexivity.
    + intros id0. apply filter_comm.
Qed.

Section TotalsFacts.

Lemma get_category_totals (o : Obj.t CategoryGroup) (k : string) :
  Obj.get (category_totals o) k = option_map total (Obj.get o k).
Proof.
  induction o as [|[k' g] o IH]; simpl; [reflexivity|].
  destruct (String.eqb k' k); [reflexivity|exact IH].
Qed.

Lemma category_totals_set (o : Obj.t CategoryGroup) (k : string)
    (g : CategoryGroup) :
  category_totals (Obj.set o k g) = Obj.set (category_totals o) k (total g).
Proof.
  induction o as [|[k' g'] o IH]; simpl; [reflexivity|].
  destruct (String.eqb k' k); simpl; [reflexivity|now rewrite IH].
Qed.

Lemma set_set {V : Type} (o : Obj.t V) (k : string) (v w : V) :
  Obj.set (Obj.set o k v) k w = Obj.set o k w.
Proof.
  induction o as [|[k' v'] o IH]; simpl.
  - now rewrite String.eqb_refl.
  - destruct (String.eqb k' k) eqn:E; simpl.
    + now rewrite String.eqb_refl.
    + now rewrite E, IH.
Qed.

(** One step of the two accumulations, on groups whose totals are
    positive. *)
Lemma category_totals_step (o : Obj.t CategoryGroup) (e : Expense) :
  (forall c g, Obj.get o c = Some g -> (0 <? total g)%float = true) ->
  (0 <? amount e)%float = true ->
  category_totals (add_to_category o e) = add_spend (category_totals o) e
  /\ (forall c g, Obj.get (add_to_category o e) c = Some g ->
                  (0 <? total g)%float = true).
Proof.
  intros Ho He. unfold add_to_category, add_spend.
  rewrite get_category_totals.
  destruct (Obj.get o (category e)) as [g|] eqn:Eg; simpl.
  - rewrite Eg, category_totals_set. simpl.
    unfold JS.number_or. rewrite (positive_truthy _ (Ho _ _ Eg)).
    split; [reflexivity|]. intros c g'.
    destruct (string_dec (category e) c) as [<-|Hne].
    + rewrite ObjFacts.get_set_eq. intros [= <-]. simpl.
      apply add_positive; [exact (Ho _ _ Eg)|exact He].
    + rewrite ObjFacts.get_set_ne by exact Hne. apply Ho.
  - rewrite ObjFacts.get_set_eq, set_set, category_totals_set. simpl.
    split; [reflexivity|]. intros c g'.
    destruct (string_dec (category e) c) as [<-|Hne].
    + rewrite ObjFacts.get_set_eq. intros [= <-]. simpl.
      change zero with 0%float. now rewrite zero_add_positive.
    + rewrite ObjFacts.get_set_ne by exact Hne. apply Ho.
Qed.

Lemma category_totals_fold (es : list Expense) :
  forall o,
    (forall c g, Obj.get o c = Some g -> (0 <? total g)%float = true) ->
    (forall e, In e es -> (0 <? amount e)%float = true) ->
    category_totals (fold_left add_to_category es o)
    = fold_left add_spend es (category_totals o).
Proof.
  induction es as [|e es IH]; intros o Ho Hes; simpl; [reflexivity|].
  destruct (category_totals_step o e Ho (Hes e (or_introl eq_refl))) as [E Hpos].
  rewrite <- E. apply IH; [exact Hpos|]. intros e' He'. apply Hes. now right.
Qed.

Lemma combine_fst_snd {V : Type} (o : Obj.t V) :
  combine (map fst o) (map snd o) = o.
Proof.
  induction o as [|[k v] o IH]; simpl; [reflexivity|now rewrite IH].
Qed.

Lemma spend_by_category_eq_totals (es : list Expense) :
  (forall e, In e es -> (0 <? amount e)%float = true) ->
  spend_by_category es = category_totals (group_expenses es).
Proof.
  intros Hes. unfold spend_by_category, group_expenses. symmetry.
  apply (category_totals_fold es []); [discriminate|exact Hes].
Qed.

End TotalsFacts.

Section TokenFacts.

Lemma pretty_N_char_no_hyphen (x : N) :
  Ascii.eqb (pretty_N_char x) "-" = false.
Proof. unfold pretty_N_char. repeat case_match; reflexivity. Qed.

Lemma includes_hyphen_cons (c : ascii) (s : string) :
  Text.includes (String c s) "-" = Ascii.eqb c "-" || Text.includes s "-".
Proof. simpl. destruct s; now destruct (Ascii.eqb c "-"). Qed.

Lemma pretty_N_go_no_hyphen (x : N) :
  forall s, Text.includes s "-" = false ->
            Text.includes (pretty_N_go x s) "-" = false.
Proof.
  induction (N.lt_wf_0 x) as [x _ IH]. intros s Hs.
  assert (x = 0 \/ 0 < x)%N as [->|Hx] by lia.
  - now rewrite pretty_N_go_0.
  - rewrite pretty_N_go_step by exact Hx. apply IH.
    + now apply N.div_lt.
    + now rewrite includes_hyphen_cons, pretty_N_char_no_hyphen, Hs.
Qed.

(** The decimal text of a number that is not negative has no hyphen. *)
Lemma integer_toString_no_hyphen (z : Z) :
  0 <= z -> Text.includes (JS.integer_toString z) "-" = false.
Proof.
  intros Hz. unfold JS.integer_toString, pretty, pretty_Z.
  destruct z as [|p|p]; [reflexivity| |lia].
  unfold pretty, pretty_positive, pretty, pretty_N.
  destruct (decide (N.pos p = 0%N)); [reflexivity|].
  now apply pretty_N_go_no_hyphen.
Qed.

Lemma padStart2_no_hyphen (s : string) :
  Text.includes s "-" = false -> Text.includes (JS.padStart2 s) "-" = false.
Proof.
  intros H. unfold JS.padStart2.
  destruct (String.length s) as [|[|n]]; [reflexivity| |exact H].
  change ("0" +:+ s) with (String "0"%char s).
  now rewrite includes_hyphen_cons, H.
Qed.

Lemma split_at_hyphen (a b : string) :
  Text.includes a "-" = false ->
  JS.split "-" (a +:+ "-" +:+ b) = a :: JS.split "-" b.
Proof.
  induction a as [|c a IH]; intros H.
  - reflexivity.
  - rewrite includes_hyphen_cons in H. apply orb_false_elim in H.
    destruct H as [Hc Ha].
    change (String c a +:+ "-" +:+ b) with (String c (a +:+ "-" +:+ b)).
    simpl. rewrite Hc, (IH Ha). reflexivity.
Qed.

Lemma split_monthKey (year month0 : Z) :
  0 <= year -> 0 <= month0 ->
  JS.split "-" (monthKey year month0)
  = [JS.integer_toString year; JS.padStart2 (JS.integer_toString (month0 + 1))].
Proof.
  intros Hy Hm. unfold monthKey.
  rewrite split_at_hyphen by now apply integer_toString_no_hyphen.
  now rewrite split_no_separator
    by (apply padStart2_no_hyphen, integer_toString_no_hyphen; lia).
Qed.

End TokenFacts.

(** X20: in the budget overview the amount spent in a category is the
    total of the month's expenses of that category, added from left to
    right in the order of the document, and 0 when the month has no
    expense of the category (or when that total is 0 or no number); what is
    left of the budget is the budget minus that amount. *)
Theorem budget_row_spent {host : Host} (state : State) (month0 : string)
    (category0 : string) (budget : float) :
  let es := of_category category0 (getExpensesForMonth state month0) in
  let row := budget_row (getExpensesByCategory state month0) category0 budget in
  row_spent row
  = match es with
    | [] => zero
    | _ :: _ => JS.number_or (sum_amounts es) zero
    end
  /\ row_remaining row = (budget - row_spent row)%float
  /\ row_percentage row = calculatePercentage (row_spent row) budget
  /\ row_color row = getBudgetStatusColor (row_spent row) budget.
Proof.
  intros es row. subst row. unfold budget_row, getExpensesByCategory. simpl.
  destruct (grouped_group_expenses (getExpensesForMonth state month0))
    as (_ & Hget & _).
  rewrite Hget. unfold group_of. fold es.
  destruct es; simpl; repeat split.
Qed.

(** X21: when every amount is greater than 0, the spend per category
    that [getSpendingInsights] accumulates is, key by key and in the same
    order of keys, the total [getExpensesByCategory] accumulates for the
    same expenses. *)
Theorem spend_by_category_totals (es : list Expense) :
  (forall e, In e es -> (0 <? amount e)%float = true) ->
  spend_by_category es = category_totals (group_expenses es)
  /\ (forall c, Obj.get (spend_by_category es) c
                = option_map total (Obj.get (group_expenses es) c))
  /\ Obj.keys (spend_by_category es) = Obj.keys (group_expenses es).
Proof.
  intros Hes. split; [|split].
  - now apply spend_by_category_eq_totals.
  - intros c. rewrite (spend_by_category_eq_totals es Hes).
    apply get_category_totals.
  - rewrite (spend_by_category_eq_totals es Hes). unfold Obj.keys, category_totals.
    rewrite map_map. reflexivity.
Qed.

Lemma spend_by_category_totals_witness :
  (forall e, In e [Examples.bus; Examples.bread; Examples.taxi] ->
             (0 <? amount e)%float = true)
  /\ spend_by_category [Examples.bus; Examples.bread; Examples.taxi]
     = category_totals (group_expenses [Examples.bus; Examples.bread; Examples.taxi]).
Proof.
  assert (H : forall e, In e [Examples.bus; Examples.bread; Examples.taxi] ->
                        (0 <? amount e)%float = true).
  { intros e [<-|[<-|[<-|[]]]]; reflexivity. }
  split; [exact H|]. exact (proj1 (spend_by_category_totals _ H)).
Defined.

(** X22: the token [getCurrentMonth] builds is read back by the month
    functions as the text of its year and the text of its month: for a
    clock whose year and month are not negative, [month.split('-')] has
    exactly these two parts, so the year and the month number compared
    with the dates are the numbers of these two texts. *)
Theorem month_parts_getCurrentMonth {host : Host} (now : Now) :
  0 <= now_fullYear now ->
  0 <= now_month now ->
  JS.split "-" (getCurrentMonth now)
  = [JS.integer_toString (now_fullYear now);
     JS.padStart2 (JS.integer_toString (now_month now + 1))]
  /\ month_parts (getCurrentMonth now)
     = (Some (Number_string (JS.integer_toString (now_fullYear now))),
        Some (Number_string
                (JS.padStart2 (JS.integer_toString (now_month now + 1))))).
Proof.
  intros Hy Hm. unfold month_parts, getCurrentMonth.
  rewrite split_monthKey by assumption. split; reflexivity.
Qed.

Lemma month_parts_getCurrentMonth_witness :
  0 <= now_fullYear Examples.now0
  /\ 0 <= now_month Examples.now0
  /\ month_parts (host := ReferenceHost.utc) (getCurrentMonth Examples.now0)
     = (Some 2024%float, Some 1%float).
Proof.
  assert (Hy : 0 <= now_fullYear Examples.now0) by (simpl; lia).
  assert (Hm : 0 <= now_month Examples.now0) by (simpl; lia).
  split; [exact Hy|]. split; [exact Hm|].
  rewrite (proj2 (month_parts_getCurrentMonth (host := ReferenceHost.utc)
                    Examples.now0 Hy Hm)).
  vm_compute. reflexivity.
Defined.

(** X23: [renderCategoryChart] draws the empty state exactly when it is
    given no expense; otherwise the chart has one slice for each category
    that occurs among the expenses, no category twice, with as many
    amounts and colours as labels and a colour for every slice; and when
    every amount is greater than 0, the amounts of the slices are the
    totals [getExpensesByCategory] accumulates, slice by slice. *)
Theorem renderCategoryChart_spec (es : list Expense) :
  (renderCategoryChart es = None <-> es = [])
  /\ (forall chart, renderCategoryChart es = Some chart ->
        List.NoDup (chart_labels chart)
        /\ (forall c, In c (chart_labels chart)
                      <-> exists e, In e es /\ category e = c)
        /\ length (chart_amounts chart) = length (chart_labels chart)
        /\ length (chart_colors chart) = length (chart_labels chart)
        /\ Forall (fun colour => colour <> None) (chart_colors chart)
        /\ ((forall e, In e es -> (0 <? amount e)%float = true) ->
            combine (chart_labels chart) (chart_amounts chart)
            = category_totals (group_expenses es))).
Proof.
  unfold renderCategoryChart. fold (spend_by_category es).
  destruct (length (Obj.keys (spend_by_category es)) =? 0)%nat eqn:E; split.
  - split; [intros _|reflexivity]. apply Nat.eqb_eq in E.
    destruct es as [|e es]; [reflexivity|]. exfalso.
    assert (Hin : In (category e) (Obj.keys (spend_by_category (e :: es))))
      by (apply spend_by_category_keys; exists e; split; [now left|reflexivity]).
    destruct (Obj.keys (spend_by_category (e :: es))); [destruct Hin|discriminate].
  - discriminate.
  - split; [discriminate|]. intros ->. discriminate.
  - intros chart [= <-]. simpl.
    split; [apply spend_fold_NoDup; constructor|].
    split; [apply spend_by_category_keys|].
    unfold Obj.keys. rewrite !length_map.
    split; [reflexivity|]. split; [reflexivity|].
    split.
    + apply List.Forall_forall. intros colour Hc.
      apply in_map_iff in Hc. destruct Hc as (c & <- & _).
      unfold getCategoryColor.
      destruct (CATEGORY_COLORS !! c) as [s|]; [destruct s|]; discriminate.
    + intros Hes. rewrite <- (spend_by_category_eq_totals es Hes).
      apply combine_fst_snd.
Qed.

Lemma renderCategoryChart_spec_witness :
  renderCategoryChart [Examples.bus; Examples.vet; Examples.taxi]
  = Some (mkCategoryChart ["Transport"; "Pets"] [2.3000000000000003; 1200]%float
            [Some "#f59e0b"; Some "#6366f1"])
  /\ combine ["Transport"; "Pets"] [2.3000000000000003; 1200]%float
     = category_totals (group_expenses [Examples.bus; Examples.vet; Examples.taxi]).
Proof.
  assert (E : renderCategoryChart [Examples.bus; Examples.vet; Examples.taxi]
              = Some (mkCategoryChart ["Transport"; "Pets"]
                        [2.3000000000000003; 1200]%float
                        [Some "#f59e0b"; Some "#6366f1"]))
    by (vm_compute; reflexivity).
  split; [exact E|].
  refine (proj2 (proj2 (proj2 (proj2 (proj2
            (proj2 (renderCategoryChart_spec _) _ E))))) _).
  intros e [<-|[<-|[<-|[]]]]; reflexivity.
Defined.

(** ** Expenses of a month, by token *)

Section TokenText.

Lemma two_digits_no_hyphen (m1 : Z) :
  1 <= m1 <= 12 -> Text.includes (two_digits m1) "-" = false.
Proof.
  intros H.
  assert (m1 = 1 \/ m1 = 2 \/ m1 = 3 \/ m1 = 4 \/ m1 = 5 \/ m1 = 6 \/ m1 = 7
          \/ m1 = 8 \/ m1 = 9 \/ m1 = 10 \/ m1 = 11 \/ m1 = 12) as E by lia.
  repeat (destruct E as [->|E]; [reflexivity|]). now subst.
Qed.

Lemma month_parts_token {host : Host} (year month1 : Z) :
  0 <= year -> 1 <= month1 <= 12 ->
  month_parts (year_month_token year month1)
  = (Some (Number_string (JS.integer_toString year)),
     Some (Number_string (two_digits month1))).
Proof.
  intros Hy Hm. unfold month_parts, year_month_token.
  rewrite split_at_hyphen by now apply integer_toString_no_hyphen.
  now rewrite split_no_separator by now apply two_digits_no_hyphen.
Qed.

End TokenText.

(** C9 (the program departs from the specification): [getExpensesForMonth]
    never raises, lists expenses in the order of the document, and lists
    an expense whose [Date] is invalid under no token; for the token of a
    year and a month number from 1 to 12 it lists exactly the expenses for
    which the year and the month that the local-time getters read from
    [new Date(date)] equal the numbers of the token.  These are not always
    the year and the month of the date as it is written: a date-only text
    is read as midnight UTC, so five hours west of UTC the expense dated
    2024-02-01 is listed under 2024-01 and not under 2024-02, where the
    same program lists it on UTC. *)
Theorem getExpensesForMonth_spec :
  (forall (host : Host) (state : State) (month0 : string) (expense : Expense),
      is_nan (Date_parse (date expense)) = true ->
      ~ In expense (getExpensesForMonth state month0))
  /\ (forall (host : Host) (state : State) (year month1 : Z) (expense : Expense),
        0 <= year -> 1 <= month1 <= 12 ->
        In expense (getExpensesForMonth state (year_month_token year month1))
        <-> In expense (expenses state)
            /\ JS.strict_eq (getFullYear (Date_parse (date expense)))
                 (Number_string (JS.integer_toString year)) = true
            /\ JS.strict_eq (getMonth (Date_parse (date expense)) + 1)%float
                 (Number_string (two_digits month1)) = true)
  /\ (forall (host : Host) (state : State) (month0 : string),
        sublist (getExpensesForMonth state month0) (expenses state))
  /\ getExpensesForMonth (host := MoreExamples.jamaica) MoreExamples.february
       "2024-01" = [MoreExamples.first_of_february]
  /\ getExpensesForMonth (host := MoreExamples.jamaica) MoreExamples.february
       "2024-02" = []
  /\ getExpensesForMonth (host := ReferenceHost.utc) MoreExamples.february
       "2024-02" = [MoreExamples.first_of_february].
Proof.
  split; [|split; [|split; [|repeat split; vm_compute; reflexivity]]].
  - intros host state month0 expense Hn Hin.
    rewrite getExpensesForMonth_filter in Hin. apply filter_In in Hin.
    destruct Hin as [_ Hin].
    rewrite in_month_invalid in Hin by exact Hn. discriminate.
  - intros host state year month1 expense Hy Hm.
    rewrite getExpensesForMonth_filter, filter_In.
    rewrite month_parts_token by assumption. unfold in_month. simpl.
    rewrite andb_true_iff. reflexivity.
  - intros host state month0. rewrite getExpensesForMonth_filter.
    apply sublist_List_filter.
Qed.

Lemma getExpensesForMonth_spec_witness :
  is_nan (Date_parse (Host := ReferenceHost.utc) (date Examples.undated)) = true
  /\ ~ In Examples.undated
       (getExpensesForMonth (host := ReferenceHost.utc)
          (set_expenses Examples.january [Examples.undated; Examples.bus])
          "2024-01")
  /\ In Examples.bus
       (getExpensesForMonth (host := ReferenceHost.utc)
          (set_expenses Examples.january [Examples.undated; Examples.bus])
          (year_month_token 2024 1)).
Proof.
  assert (Hn : is_nan (Date_parse (Host := ReferenceHost.utc)
                         (date Examples.undated)) = true) by reflexivity.
  split; [exact Hn|]. split.
  - exact (proj1 getExpensesForMonth_spec ReferenceHost.utc
             (set_expenses Examples.january [Examples.undated; Examples.bus])
             "2024-01" Examples.undated Hn).
  - apply (proj1 (proj2 getExpensesForMonth_spec) ReferenceHost.utc
             (set_expenses Examples.january [Examples.undated; Examples.bus])
             2024 1 Examples.bus); [lia|lia|].
    split; [right; now left|]. split; vm_compute; reflexivity.
Defined.
